(** * vdirsyncer, [vdirsyncer/cli/utils.py]: status persistence, storage
    construction and error reporting.

    A shallow embedding of the module's functions and the properties of
    its specification.  Python values are an inductive type, exceptions
    are values of [exn], and code that touches the file system, the
    logger, the terminal or a storage backend is a function from a state
    to an outcome and a new state. *)

From Stdlib Require Import ZArith String Ascii List Lia Bool.
From stdpp Require Import base option strings gmap.

Import ListNotations.
Local Open Scope Z_scope.
Local Open Scope string_scope.
Local Open Scope list_scope.

Set Warnings "-register-all".

(** ** Characters that a string literal cannot hold *)

Definition dq : string := String "034"%char EmptyString.
Definition nl : string := String "010"%char EmptyString.

(** ** Python values *)

(** The values [json.load] produces and [json.dump] accepts, and the
    values of a configuration record; [PObject] is any other object, known
    by its identity.  Floats are left out. *)
Inductive pyval : Type :=
| PNone
| PBool (b : bool)
| PInt (z : Z)
| PStr (s : string)
| PList (l : list pyval)
| PDict (d : list (pyval * pyval))
| PObject (name : string).

(** ** Exceptions *)

Inductive errno : Type := ENOENT | EEXIST | EISDIR | ENOTDIR | EINVAL.

(** Classes outside the reporter's taxonomy.  [ValueError] stands for its
    subclasses too ([json.JSONDecodeError], [UnicodeDecodeError]), and
    [OSError] for the subclass that goes with the error number. *)
Inductive pyclass : Type :=
| TypeError
| ValueError
| KeyError
| AttributeError
| AssertionError
| NotImplementedError
| RuntimeError
| OSError (code : errno)
| CollectionNotFound
| OtherException (name : string)
| SystemExit
| GeneratorExit
| OtherBaseException (name : string).

(** What the reporter reads of a storage object: its [instance_name],
    which is [None] for a storage made without one. *)
Record storage_obj : Type := StorageObj { obj_instance_name : option string }.

(** An exception value.  The first eleven constructors are the classes
    [handle_cli_error] names, each with what its clause reads.  The
    attributes that a clause looks into are kept as they are on the
    exception: [empty_storage] of a [StorageEmpty] and [storage] of an
    [IdentConflict] are a storage object, [hrefs] is the collection of
    addresses, here the [repr()] of each, and all three are [None], the
    default of the class, on an exception that was made without them.
    The attributes that a clause only renders are kept as their text.
    [PyExc] is any other exception, with its [str()] and its [repr()]. *)
Inductive exn : Type :=
| UserError (msg : string) (problems : list string)
| StorageEmpty (empty_storage : option storage_obj)
| PartialSync (storage : string)
| SyncConflict (ident href_a href_b : string)
| IdentConflict (storage : option storage_obj) (hrefs : option (list string))
| ClickAbort
| KeyboardInterrupt
| JobFailed
| PairNotFound (pair_name : string)
| InvalidResponse (repr_ : string)
| CollectionRequired
| PyExc (cls : pyclass) (str_ repr_ : string).

(** [issubclass(cls, Exception)]. *)
Definition class_is_Exception (c : pyclass) : bool :=
  match c with
  | SystemExit | GeneratorExit | OtherBaseException _ => false
  | _ => true
  end.

(** [isinstance(e, Exception)]: everything but [KeyboardInterrupt] and
    the classes that derive from [BaseException] alone. *)
Definition is_Exception (e : exn) : bool :=
  match e with
  | KeyboardInterrupt => false
  | PyExc c _ _ => class_is_Exception c
  | _ => true
  end.

Inductive outcome (A : Type) : Type :=
| Ok (a : A)
| Raise (e : exn).
Arguments Ok {A} a.
Arguments Raise {A} e.

(** ** The logger *)

Inductive level : Type := DEBUG | WARNING | ERROR | CRITICAL.

(** What a logging call is given: a text, or an exception object. *)
Inductive log_msg : Type :=
| Msg (s : string)
| MsgExn (e : exn).

Record log_record : Type := LogRecord { log_level : level; log_payload : log_msg }.

(** [str(x)] of an optional string, as a format field renders it. *)
Definition fmt_opt (o : option string) : string :=
  match o with
  | None => "None"
  | Some s => s
  end.

(** [sep.join(l)]. *)
Fixpoint join (sep : string) (l : list string) : string :=
  match l with
  | [] => EmptyString
  | [x] => x
  | x :: r => x +:+ sep +:+ join sep r
  end.

(** A string is true when it is not empty. *)
Definition truthy (s : string) : bool :=
  match s with
  | EmptyString => false
  | _ => true
  end.

(** ** ErrorReporter *)

Section ErrorReporter.

(** The two constants of the package's [__init__] module. *)
Variable DOCS_HOME : string.
Variable BUGTRACKER_HOME : string.

Definition storage_empty_message (status_name : option string) (name : string) : string :=
  fmt_opt status_name +:+ ": Storage " +:+ dq +:+ name +:+ dq +:+
  " was completely emptied. If you want to delete ALL entries on BOTH sides, then use " +:+
  "`vdirsyncer sync --force-delete " +:+ fmt_opt status_name +:+ "`. " +:+
  "Otherwise delete the files for " +:+ fmt_opt status_name +:+ " in your status " +:+
  "directory.".

Definition partial_sync_message (status_name : option string) (storage : string) : string :=
  fmt_opt status_name +:+ ": Attempted change on " +:+ storage +:+ ", which is read-only" +:+
  ". Set `partial_sync` in your pair section to `ignore` to ignore " +:+
  "those changes, or `revert` to revert them on the other side.".

Definition sync_conflict_message (status_name : option string)
    (ident href_a href_b : string) : string :=
  fmt_opt status_name +:+ ": One item changed on both sides. Resolve this " +:+
  "conflict manually, or by setting the `conflict_resolution` " +:+
  "parameter in your config file." +:+ nl +:+
  "See also " +:+ DOCS_HOME +:+ "/config.html#pair-section" +:+ nl +:+
  "Item ID: " +:+ ident +:+ nl +:+
  "Item href on side A: " +:+ href_a +:+ nl +:+
  "Item href on side B: " +:+ href_b +:+ nl.

Definition ident_conflict_message (status_name : option string)
    (instance_name : string) (hrefs_repr : list string) : string :=
  fmt_opt status_name +:+ ": Storage " +:+ dq +:+ instance_name +:+ dq +:+ " contains " +:+
  "multiple items with the same UID or even content. Vdirsyncer " +:+
  "will now abort the synchronization of this collection, because " +:+
  "the fix for this is not clear; It could be the result of a badly " +:+
  "behaving server. You can try running:" +:+ nl +:+ nl +:+
  "    vdirsyncer repair " +:+ instance_name +:+ nl +:+ nl +:+
  "But make sure to have a backup of your data in some form. The " +:+
  "offending hrefs are:" +:+ nl +:+ nl +:+ join nl hrefs_repr +:+ nl.

Definition pair_not_found_message (pair_name : string) : string :=
  "Pair " +:+ pair_name +:+ " does not exist. Please check your " +:+
  "configuration file and make sure you've typed the pair name " +:+
  "correctly".

Definition invalid_response_message (repr_ : string) : string :=
  "The server returned something vdirsyncer doesn't understand. " +:+
  "Error message: " +:+ repr_ +:+ nl +:+
  "While this is most likely a serverside problem, the vdirsyncer " +:+
  "devs are generally interested in such bugs. Please report it in " +:+
  "the issue tracker at " +:+ BUGTRACKER_HOME.

Definition collection_required_message : string :=
  "One or more storages don't support `collections = null`. " +:+
  "You probably want to set `collections = [" +:+ dq +:+ "from a" +:+ dq +:+ ", " +:+
  dq +:+ "from b" +:+ dq +:+ "]`.".

Definition unknown_error_message (status_name : option string) (str_ : string) : string :=
  (if truthy (default EmptyString status_name)
   then "Unknown error occurred for " +:+ fmt_opt status_name
   else "Unknown error occurred") +:+
  ": " +:+ str_ +:+ nl +:+ "Use `-vdebug` to see the full traceback.".

(** The exception the first [try] block raises: [e] when it is given,
    otherwise the exception being handled ([active]); a bare [raise]
    with no exception being handled is a [RuntimeError]. *)
Definition raised_in_try (e active : option exn) : exn :=
  match e with
  | Some x => x
  | None =>
      match active with
      | Some x => x
      | None => PyExc RuntimeError "No active exception to reraise"
                  "RuntimeError('No active exception to reraise')"
      end
  end.

(** What reading [instance_name] off [None] raises, and what iterating
    over [None] raises. *)
Definition none_has_no_instance_name : exn :=
  PyExc AttributeError "'NoneType' object has no attribute 'instance_name'"
    ("AttributeError(" +:+ dq +:+ "'NoneType' object has no attribute 'instance_name'"
     +:+ dq +:+ ")").

Definition none_is_not_iterable : exn :=
  PyExc TypeError "'NoneType' object is not iterable"
    ("TypeError(" +:+ dq +:+ "'NoneType' object is not iterable" +:+ dq +:+ ")").

(** [handle_cli_error(status_name, e)], called while [active] is the
    exception being handled and [tb] its formatted traceback.  The result
    is the records logged, in order, and how the call ends.  A clause
    that builds its message from an attribute raises when the attribute
    is [None]: the [StorageEmpty] clause reads
    [e.empty_storage.instance_name]; the [IdentConflict] clause first
    evaluates [map(repr, e.hrefs)] and then formats
    [storage.instance_name].  What a clause raises leaves the function,
    and the logger has not been called. *)
Definition handle_cli_error (status_name : option string) (e : option exn)
    (active : option exn) (tb : list string) : list log_record * outcome unit :=
  match raised_in_try e active with
  | UserError msg problems =>
      ([LogRecord CRITICAL (MsgExn (UserError msg problems))], Ok tt)
  | StorageEmpty empty_storage =>
      match empty_storage with
      | None => ([], Raise none_has_no_instance_name)
      | Some st =>
          ([LogRecord ERROR
              (Msg (storage_empty_message status_name (fmt_opt (obj_instance_name st))))],
           Ok tt)
      end
  | PartialSync storage =>
      ([LogRecord ERROR (Msg (partial_sync_message status_name storage))], Ok tt)
  | SyncConflict ident href_a href_b =>
      ([LogRecord ERROR (Msg (sync_conflict_message status_name ident href_a href_b))], Ok tt)
  | IdentConflict storage hrefs =>
      match hrefs with
      | None => ([], Raise none_is_not_iterable)
      | Some hrefs_repr =>
          match storage with
          | None => ([], Raise none_has_no_instance_name)
          | Some st =>
              ([LogRecord ERROR
                  (Msg (ident_conflict_message status_name (fmt_opt (obj_instance_name st))
                          hrefs_repr))],
               Ok tt)
          end
      end
  | ClickAbort | KeyboardInterrupt | JobFailed =>
      ([], Ok tt)
  | PairNotFound pair_name =>
      ([LogRecord ERROR (Msg (pair_not_found_message pair_name))], Ok tt)
  | InvalidResponse repr_ =>
      ([LogRecord ERROR (Msg (invalid_response_message repr_))], Ok tt)
  | CollectionRequired =>
      ([LogRecord ERROR (Msg collection_required_message)], Ok tt)
  | PyExc cls str_ repr_ =>
      if class_is_Exception cls
      then ([LogRecord ERROR (Msg (unknown_error_message status_name str_));
             LogRecord DEBUG (Msg (join EmptyString tb))], Ok tt)
      else ([], Raise (PyExc cls str_ repr_))
  end.

End ErrorReporter.

(** ** A state and exception monad *)

(** A computation over a state [S]: it ends with a value or with a raised
    exception, and in both cases leaves a state behind. *)
Definition M (S A : Type) : Type := S -> outcome A * S.

#[global] Instance M_ret (S : Type) : MRet (M S) :=
  fun A (a : A) (s : S) => (Ok a, s).

#[global] Instance M_bind (S : Type) : MBind (M S) :=
  fun A B (f : A -> M S B) (m : M S A) (s : S) =>
    match m s with
    | (Ok a, s') => f a s'
    | (Raise e, s') => (Raise e, s')
    end.

Definition raise {S A : Type} (e : exn) : M S A :=
  fun s => (Raise e, s).

(** [try: m except <classes accepted by handles>: handler]. *)
Definition try_except {S A : Type} (m : M S A) (handles : exn -> bool)
    (handler : exn -> M S A) : M S A :=
  fun s =>
    match m s with
    | (Ok a, s') => (Ok a, s')
    | (Raise e, s') => if handles e then handler e s' else (Raise e, s')
    end.

(** ** Paths *)

Definition is_slash (c : ascii) : bool := Ascii.eqb c "/"%char.

Definition starts_with_slash (s : string) : bool :=
  match s with
  | String c _ => is_slash c
  | EmptyString => false
  end.

Fixpoint ends_with_slash (s : string) : bool :=
  match s with
  | EmptyString => false
  | String c EmptyString => is_slash c
  | String _ r => ends_with_slash r
  end.

Fixpoint all_slashes (s : string) : bool :=
  match s with
  | EmptyString => true
  | String c r => is_slash c && all_slashes r
  end.

(** [os.path.join(a, b)]. *)
Definition os_path_join (a b : string) : string :=
  if starts_with_slash b then b
  else if negb (truthy a) || ends_with_slash a then a +:+ b
  else a +:+ "/" +:+ b.

(** [p[:p.rfind("/") + 1]]. *)
Fixpoint upto_last_slash (p : string) : string :=
  match p with
  | EmptyString => EmptyString
  | String c r =>
      match upto_last_slash r with
      | EmptyString => if is_slash c then String c EmptyString else EmptyString
      | h => String c h
      end
  end.

(** [s.rstrip("/")]. *)
Fixpoint rstrip_slash (s : string) : string :=
  match s with
  | EmptyString => EmptyString
  | String c r =>
      match rstrip_slash r with
      | EmptyString => if is_slash c then EmptyString else String c EmptyString
      | r' => String c r'
      end
  end.

(** [os.path.dirname(p)]. *)
Definition os_path_dirname (p : string) : string :=
  let head := upto_last_slash p in
  if truthy head && negb (all_slashes head) then rstrip_slash head else head.

(** The proper ancestors of a path, nearest first, the root left out. *)
Fixpoint ancestors (fuel : nat) (p : string) : list string :=
  match fuel with
  | O => []
  | S fuel' =>
      let d := os_path_dirname p in
      if negb (truthy d) || all_slashes d || String.eqb d p then []
      else d :: ancestors fuel' d
  end.

(** ** The file system *)

(** What a regular file holds: bytes, or an SQLite database, of which the
    model keeps the rows and not the bytes. *)
Inductive content : Type :=
| Bytes (s : string)
| SqliteDb (rows : list (pyval * pyval)).

(** A regular file with its content and its twelve permission bits, or a
    directory. *)
Inductive node : Type :=
| File (c : content) (perm : Z)
| Dir (perm : Z).

(** What the status functions do to the world, as the trace records it. *)
Inductive event : Type :=
| EvLog (r : log_record)
| EvRename (src dst : string)
| EvChmod (path : string) (mode : Z)
| EvRemove (path : string)
| EvOpen (path : string)
| EvWrite (path : string)
| EvMakedirs (path : string).

(** The file system, keyed by path as the program spells it, and the
    trace of events, the newest first. *)
Record world : Type := World { files : gmap string node; trace : list event }.

Definition emit (ev : event) : M world unit :=
  fun w => (Ok tt, World (files w) (ev :: trace w)).

Definition cli_logger_log (l : level) (m : log_msg) : M world unit :=
  emit (EvLog (LogRecord l m)).

Definition set_files (f : gmap string node -> gmap string node) : M world unit :=
  fun w => (Ok tt, World (f (files w)) (trace w)).

Definition get_files : M world (gmap string node) :=
  fun w => (Ok (files w), w).

Definition os_error {A : Type} (code : errno) (path : string) : M world A :=
  raise (PyExc (OSError code) path ("OSError(" +:+ path +:+ ")")).

Definition S_IFREG : Z := 32768.   (* 0o100000 *)
Definition S_IFDIR : Z := 16384.   (* 0o040000 *)

(** [os.path.isfile(path)] and [os.path.exists(path)]. *)
Definition os_path_isfile (path : string) : M world bool :=
  fs ← get_files;
  mret (match fs !! path with Some (File _ _) => true | _ => false end).

Definition os_path_exists (path : string) : M world bool :=
  fs ← get_files;
  mret (match fs !! path with Some _ => true | None => false end).

(** [os.stat(path).st_mode]: the file type bits and the permission
    bits. *)
Definition os_stat_st_mode (path : string) : M world Z :=
  fs ← get_files;
  match fs !! path with
  | Some (File _ perm) => mret (Z.lor S_IFREG perm)
  | Some (Dir perm) => mret (Z.lor S_IFDIR perm)
  | None => os_error ENOENT path
  end.

(** [os.chmod(path, mode)]: the twelve permission bits of [mode] replace
    those of the path. *)
Definition os_chmod (path : string) (mode : Z) : M world unit :=
  fs ← get_files;
  match fs !! path with
  | Some (File c _) =>
      set_files (insert path (File c (Z.land mode 4095)));; emit (EvChmod path mode)
  | Some (Dir _) =>
      set_files (insert path (Dir (Z.land mode 4095)));; emit (EvChmod path mode)
  | None => os_error ENOENT path
  end.

(** [os.rename(src, dst)] for a regular file [src]: it replaces a regular
    file at [dst] and fails on a directory there.  Renaming a directory
    is not modelled (the program renames only what [os.path.isfile]
    accepted) and is reported as an error. *)
Definition os_rename (src dst : string) : M world unit :=
  fs ← get_files;
  match fs !! src with
  | None => os_error ENOENT src
  | Some (Dir _) => os_error EINVAL src
  | Some (File c perm) =>
      match fs !! dst with
      | Some (Dir _) => os_error EISDIR dst
      | _ =>
          set_files (fun fs => <[dst := File c perm]> (delete src fs));;
          emit (EvRename src dst)
      end
  end.

(** [os.remove(path)]. *)
Definition os_remove (path : string) : M world unit :=
  fs ← get_files;
  match fs !! path with
  | None => os_error ENOENT path
  | Some (Dir _) => os_error EISDIR path
  | Some (File _ _) => set_files (delete path);; emit (EvRemove path)
  end.

(** Whether a file can be created at [path]: its directory is the
    current one, the root, or a directory of the file system. *)
Definition parent_error (fs : gmap string node) (path : string) : option errno :=
  let d := os_path_dirname path in
  match fs !! d with
  | Some (Dir _) => None
  | Some (File _ _) => Some ENOTDIR
  | None => if negb (truthy d) || all_slashes d then None else Some ENOENT
  end.

(** [open(path)] for reading: the content of a regular file. *)
Definition open_read (path : string) : M world content :=
  fs ← get_files;
  match fs !! path with
  | None => os_error ENOENT path
  | Some (Dir _) => os_error EISDIR path
  | Some (File c _) => emit (EvOpen path);; mret c
  end.

(** ** [dict(...)] *)

Definition hashable (v : pyval) : bool :=
  match v with
  | PList _ | PDict _ => false
  | _ => true
  end.

(** Equality of two hashable values as dictionary keys; [True] is [1] and
    [False] is [0]. *)
Definition key_eqb (a b : pyval) : bool :=
  match a, b with
  | PNone, PNone => true
  | PStr s, PStr t => String.eqb s t
  | PBool x, PBool y => Bool.eqb x y
  | PInt x, PInt y => Z.eqb x y
  | PObject x, PObject y => String.eqb x y
  | PBool x, PInt y | PInt y, PBool x => Z.eqb (if x then 1 else 0) y
  | _, _ => false
  end.

(** [d[k] = v]: an equal key keeps its place and its first spelling. *)
Fixpoint dict_set (k v : pyval) (d : list (pyval * pyval)) : list (pyval * pyval) :=
  match d with
  | [] => [(k, v)]
  | (k', v') :: r => if key_eqb k' k then (k', v) :: r else (k', v') :: dict_set k v r
  end.

Fixpoint chars (s : string) : list pyval :=
  match s with
  | EmptyString => []
  | String c r => PStr (String c EmptyString) :: chars r
  end.

(** The elements iterating over a value yields; [None] when the value is
    not iterable. *)
Definition py_iter (v : pyval) : option (list pyval) :=
  match v with
  | PStr s => Some (chars s)
  | PList l => Some l
  | PDict d => Some (map fst d)
  | _ => None
  end.

Definition type_error {S A : Type} (what : string) : M S A :=
  raise (PyExc TypeError what ("TypeError('" +:+ what +:+ "')")).

Definition value_error {S A : Type} (what : string) : M S A :=
  raise (PyExc ValueError what ("ValueError('" +:+ what +:+ "')")).

(** [dict(v)] updating [acc] with the pairs of [elems]. *)
Fixpoint dict_update {S : Type} (elems : list pyval) (acc : list (pyval * pyval))
    : M S (list (pyval * pyval)) :=
  match elems with
  | [] => mret acc
  | e :: r =>
      match py_iter e with
      | None => type_error "cannot convert dictionary update sequence element to a sequence"
      | Some [k; v] =>
          if hashable k then dict_update r (dict_set k v acc)
          else type_error "unhashable type"
      | Some _ => value_error "dictionary update sequence element has the wrong length"
      end
  end.

(** [dict(v)]: a copy of a dictionary, the pairs of an iterable, a
    [TypeError] on anything else. *)
Definition py_dict {S : Type} (v : pyval) : M S (list (pyval * pyval)) :=
  match v with
  | PDict d => mret d
  | _ =>
      match py_iter v with
      | None => type_error "object is not iterable"
      | Some elems => dict_update elems []
      end
  end.

(** ** Octal numerals, for [{:o}] *)

Definition oct_digit (d : Z) : string :=
  String (ascii_of_nat (48 + Z.to_nat d)) EmptyString.

Fixpoint oct_aux (fuel : nat) (n : Z) (acc : string) : string :=
  match fuel with
  | O => acc
  | S fuel' =>
      let acc' := oct_digit (n mod 8) +:+ acc in
      if Z.eqb (n / 8) 0 then acc' else oct_aux fuel' (n / 8) acc'
  end.

Definition format_oct (n : Z) : string :=
  if Z.ltb n 0 then "-" +:+ oct_aux (S (Z.to_nat (Z.log2 (- n)))) (- n) EmptyString
  else oct_aux (S (Z.to_nat (Z.log2 n))) n EmptyString.

(** ** PermissionGuard, PathResolver and StatusStore *)

Definition STATUS_PERMISSIONS : Z := 384.       (* 0o600 *)
Definition STATUS_DIR_PERMISSIONS : Z := 448.   (* 0o700 *)

Definition is_OSError (e : exn) : bool :=
  match e with
  | PyExc (OSError _) _ _ => true
  | _ => false
  end.

Definition is_ValueError (e : exn) : bool :=
  match e with
  | PyExc ValueError _ _ => true
  | _ => false
  end.

Definition is_EEXIST (e : exn) : bool :=
  match e with
  | PyExc (OSError EEXIST) _ _ => true
  | _ => false
  end.

(** [assert_permissions(path, wanted)]. *)
Definition assert_permissions (path : string) (wanted : Z) : M world unit :=
  st_mode ← os_stat_st_mode path;
  let permissions := Z.land st_mode 511 in   (* 0o777 *)
  if Z.gtb permissions wanted then
    cli_logger_log WARNING
      (Msg ("Correcting permissions of " +:+ path +:+ " from " +:+
            format_oct permissions +:+ " to " +:+ format_oct wanted));;
    os_chmod path wanted
  else mret tt.

(** [get_status_name(pair, collection)]. *)
Definition get_status_name (pair : string) (collection : option string) : string :=
  match collection with
  | None => pair
  | Some c => pair +:+ "/" +:+ c
  end.

Section Status.

(** [vdirsyncer.utils.expand_path], the process's umask, the mode
    [vdirsyncer.utils.atomic_write] gives the file it puts in place, and
    the two functions of the [json] module: [json_loads] is [None] on a
    text that is not JSON, [json_dumps] on a value that cannot be
    serialised. *)
Variable expand_path : string -> string.
Variable umask : Z.
Variable atomic_write_mode : Z.
Variable json_loads : string -> option pyval.
Variable json_dumps : pyval -> option string.

(** [os.makedirs(name, mode)]: the directory and its missing ancestors;
    it fails when [name] exists already, is empty, or lies under a
    regular file. *)
Definition os_makedirs (name : string) (mode : Z) : M world unit :=
  fs ← get_files;
  if negb (truthy name) then os_error ENOENT name
  else if all_slashes name then os_error EEXIST name
  else
    match fs !! name with
    | Some _ => os_error EEXIST name
    | None =>
        let up := ancestors (String.length name) name in
        if existsb (fun a => match fs !! a with Some (File _ _) => true | _ => false end) up
        then os_error ENOTDIR name
        else
          set_files (fun fs =>
            <[name := Dir (Z.land mode (Z.lnot umask))]>
              (fold_right
                 (fun a m => match m !! a with
                             | None => <[a := Dir (Z.land 511 (Z.lnot umask))]> m
                             | Some _ => m
                             end) fs up));;
          emit (EvMakedirs name)
    end.

(** Modelled from the spec: [vdirsyncer.utils.atomic_write(path,
    mode="w", overwrite=True)] around a body that writes [text], or
    raises when there is none.  The text goes to a temporary file in the
    directory of [path], which replaces [path] when the body succeeds and
    is removed when it raises. *)
Definition atomic_write (path : string) (body : option string) : M world unit :=
  fs ← get_files;
  match parent_error fs path with
  | Some code => os_error code path
  | None =>
      match body with
      | None => type_error "Object is not JSON serializable"
      | Some text =>
          match fs !! path with
          | Some (Dir _) => os_error EISDIR path
          | _ => set_files (insert path (File (Bytes text) atomic_write_mode));;
                 emit (EvWrite path)
          end
      end
  end.

(** [get_status_path(base_path, pair, collection, data_type)]. *)
Definition get_status_path (base_path pair : string) (collection : option string)
    (data_type : option string) : M world string :=
  match data_type with
  | None => raise (PyExc AssertionError EmptyString "AssertionError()")
  | Some data_type =>
      let status_name := get_status_name pair collection in
      let path := expand_path (os_path_join base_path status_name) in
      isfile ← os_path_isfile path;
      (if isfile && String.eqb data_type "items" then
         let new_path := path +:+ ".items" in
         cli_logger_log WARNING
           (Msg ("Migrating statuses: Renaming " +:+ path +:+ " to " +:+ new_path));;
         os_rename path new_path
       else mret tt);;
      mret (path +:+ "." +:+ data_type)
  end.

(** [json.load(f)] on an open file: a [ValueError] when the text is not
    JSON.  The bytes of a database are not JSON. *)
Definition json_load (c : content) : M world pyval :=
  match c with
  | Bytes s =>
      match json_loads s with
      | Some v => mret v
      | None => value_error "Expecting value"
      end
  | SqliteDb _ => value_error "Expecting value"
  end.

(** [load_status(base_path, pair, collection, data_type)]. *)
Definition load_status (base_path pair : string) (collection : option string)
    (data_type : option string) : M world (list (pyval * pyval)) :=
  path ← get_status_path base_path pair collection data_type;
  exists_ ← os_path_exists path;
  if negb exists_ then mret []
  else
    assert_permissions path STATUS_PERMISSIONS;;
    f ← open_read path;
    try_except (v ← json_load f; py_dict v) is_ValueError (fun _ => mret []).

(** [prepare_status_path(path)]. *)
Definition prepare_status_path (path : string) : M world unit :=
  let dirname := os_path_dirname path in
  try_except (os_makedirs dirname STATUS_DIR_PERMISSIONS) is_OSError
    (fun e => if negb (is_EEXIST e) then raise e else mret tt).

(** [save_status(base_path, pair, data_type, data, collection)]. *)
Definition save_status (base_path pair data_type : string)
    (data : list (pyval * pyval)) (collection : option string) : M world unit :=
  let status_name := get_status_name pair collection in
  let path := expand_path (os_path_join base_path status_name) +:+ "." +:+ data_type in
  prepare_status_path path;;
  atomic_write path (json_dumps (PDict data));;
  os_chmod path STATUS_PERMISSIONS.

End Status.

Section IncrementalStore.

Variable expand_path : string -> string.
Variable umask : Z.
Variable json_loads : string -> option pyval.

(** The handle of an incremental store: the database file it works on. *)
Record status_handle : Type := StatusHandle { db_path : string }.

Definition database_error {A : Type} (what : string) : M world A :=
  raise (PyExc (OtherException "sqlite3.DatabaseError") what
           ("DatabaseError('" +:+ what +:+ "')")).

(** Modelled from the spec: [vdirsyncer.sync.status.SqliteStatus(path)],
    the incremental store at [path].  It opens the store that is there
    and makes an empty one when there is none; content that is not a
    store counts as none (the spec: a corrupted store is taken as fresh).
    It fails on a directory and where no file can be made. *)
Definition SqliteStatus (path : string) : M world status_handle :=
  fs ← get_files;
  match fs !! path with
  | Some (File (SqliteDb _) _) => mret (StatusHandle path)
  | Some (File (Bytes _) perm) =>
      set_files (insert path (File (SqliteDb []) perm));;
      emit (EvWrite path);;
      mret (StatusHandle path)
  | Some (Dir _) => database_error "unable to open database file"
  | None =>
      match parent_error fs path with
      | Some _ => database_error "unable to open database file"
      | None =>
          set_files (insert path (File (SqliteDb []) (Z.land 420 (Z.lnot umask))));;
          emit (EvWrite path);;
          mret (StatusHandle path)
      end
  end.

(** Modelled from the spec: [SqliteStatus.load_legacy_status(status)],
    the one-time import: every entry of the legacy mapping becomes a row
    of the store. *)
Definition load_legacy_status (h : status_handle) (status : list (pyval * pyval))
    : M world unit :=
  fs ← get_files;
  match fs !! db_path h with
  | Some (File (SqliteDb rows) perm) =>
      set_files (insert (db_path h) (File (SqliteDb (rows ++ status)) perm));;
      emit (EvWrite (db_path h))
  | _ => database_error "unable to open database file"
  end.

(** The rows of the store behind a handle. *)
Definition store_rows (h : status_handle) (w : world) : option (list (pyval * pyval)) :=
  match files w !! db_path h with
  | Some (File (SqliteDb rows) _) => Some rows
  | _ => None
  end.

(** [f.read(1)] on a file opened in binary mode.  A database file starts
    with the text [SQLite format 3]. *)
Definition read1 (c : content) : string :=
  match c with
  | Bytes (String b _) => String b EmptyString
  | Bytes EmptyString => EmptyString
  | SqliteDb _ => "S"
  end.

(** The [try] block of [manage_sync_status]: the legacy status, if the
    file holds one. *)
Definition peek_legacy_status (path : string) : M world (option (list (pyval * pyval))) :=
  f ← open_read path;
  if String.eqb (read1 f) "{" then
    v ← json_load json_loads f;
    d ← py_dict v;
    mret (Some d)
  else mret None.

(** [manage_sync_status(base_path, pair_name, collection_name)] up to its
    [yield]: the handle the [with] block receives. *)
Definition manage_sync_status (base_path pair_name collection_name : string)
    : M world status_handle :=
  path ← get_status_path expand_path base_path pair_name (Some collection_name) (Some "items");
  legacy_status ← try_except (peek_legacy_status path)
                    (fun e => is_OSError e || is_ValueError e) (fun _ => mret None);
  match legacy_status with
  | Some legacy =>
      cli_logger_log WARNING (Msg "Migrating legacy status to sqlite");;
      os_remove path;;
      status ← SqliteStatus path;
      load_legacy_status status legacy;;
      mret status
  | None =>
      prepare_status_path umask path;;
      status ← SqliteStatus path;
      mret status
  end.

End IncrementalStore.

(** ** StorageRegistry and StorageFactory *)

(** The classes the registry names. *)
Inductive storage_class : Type :=
| CalDAVStorage
| CardDAVStorage
| FilesystemStorage
| HttpStorage
| SingleFileStorage
| GoogleCalendarStorage
| GoogleContactsStorage.

(** [cls.storage_name], which [_StorageIndex.__getitem__] asserts to be
    the name the class is registered under. *)
Definition storage_name_of (cls : storage_class) : string :=
  match cls with
  | CalDAVStorage => "caldav"
  | CardDAVStorage => "carddav"
  | FilesystemStorage => "filesystem"
  | HttpStorage => "http"
  | SingleFileStorage => "singlefile"
  | GoogleCalendarStorage => "google_calendar"
  | GoogleContactsStorage => "google_contacts"
  end.

(** [storage_names[name]] for a string [name]; [None] is a [KeyError].
    The import of the module behind a name is taken to succeed. *)
Definition storage_names (name : string) : option storage_class :=
  if String.eqb name "caldav" then Some CalDAVStorage
  else if String.eqb name "carddav" then Some CardDAVStorage
  else if String.eqb name "filesystem" then Some FilesystemStorage
  else if String.eqb name "http" then Some HttpStorage
  else if String.eqb name "singlefile" then Some SingleFileStorage
  else if String.eqb name "google_calendar" then Some GoogleCalendarStorage
  else if String.eqb name "google_contacts" then Some GoogleContactsStorage
  else None.

(** A configuration record: a dictionary with string keys. *)
Definition config : Type := list (string * pyval).

Fixpoint cfg_get (k : string) (c : config) : option pyval :=
  match c with
  | [] => None
  | (k', v) :: r => if String.eqb k' k then Some v else cfg_get k r
  end.

Fixpoint cfg_set (k : string) (v : pyval) (c : config) : config :=
  match c with
  | [] => [(k, v)]
  | (k', v') :: r => if String.eqb k' k then (k', v) :: r else (k', v') :: cfg_set k v r
  end.

Definition cfg_remove (k : string) (c : config) : config :=
  List.filter (fun kv => negb (String.eqb (fst kv) k)) c.

Definition cfg_keys (c : config) : list string := map fst c.

(** [a - b] on sets of names, kept in the order of [a]. *)
Definition set_minus (a b : list string) : list string :=
  List.filter (fun x => negb (existsb (String.eqb x) b)) a.

(** [needle in s]. *)
Fixpoint contains (needle s : string) : bool :=
  String.prefix needle s ||
  match s with
  | EmptyString => false
  | String _ r => contains needle r
  end.

(** An answer typed at a confirmation prompt. *)
Inductive answer : Type := Yes | No | Interrupt.

Section Factory.

(** What the factory is given by its surroundings: the storage objects
    and the state behind them (servers, disks), the constructor and the
    [create_collection] method of every class, [get_storage_init_args]
    of [vdirsyncer.utils] (all parameters, required parameters), the two
    subclass tests, [repr()] of a value and [json.dumps]. *)
Variable Storage : Type.
Variable backend : Type.
Variable construct : storage_class -> config -> backend -> outcome Storage * backend.
Variable create_collection : storage_class -> config -> backend -> outcome config * backend.
Variable get_storage_init_args : storage_class -> list string * list string.
Variable is_DAVStorage : storage_class -> bool.
Variable is_HttpStorage : storage_class -> bool.
Variable py_repr : pyval -> string.
Variable json_dumps : pyval -> option string.

(** [str(v)]: the text of a string, the [repr()] of anything else. *)
Definition py_str (v : pyval) : string :=
  match v with
  | PStr s => s
  | _ => py_repr v
  end.

(** What the factory does to its surroundings.  [FRecovery] marks an
    entry into [handle_collection_not_found]. *)
Inductive fevent : Type :=
| FLog (r : log_record)
| FConstruct (cls : storage_class) (cfg : config)
| FRecovery
| FConfirm (prompt : string) (a : answer)
| FCreateCollection (cls : storage_class) (cfg : config).

(** The state behind the storages, the answers the user will type, and
    the trace of events, the newest first. *)
Record session : Type :=
  Session { remote : backend; stdin : list answer; ftrace : list fevent }.

Definition femit (ev : fevent) : M session unit :=
  fun s => (Ok tt, Session (remote s) (stdin s) (ev :: ftrace s)).

Definition flog (l : level) (m : log_msg) : M session unit :=
  femit (FLog (LogRecord l m)).

(** The constructor call, [cls] applied to the entries of [cfg] as keyword
    arguments. *)
Definition call_constructor (cls : storage_class) (cfg : config) : M session Storage :=
  fun s =>
    let '(r, b) := construct cls cfg (remote s) in
    (r, Session b (stdin s) (FConstruct cls cfg :: ftrace s)).

(** The awaited [cls.create_collection], on the entries of [cfg] as
    keyword arguments. *)
Definition call_create_collection (cls : storage_class) (cfg : config) : M session config :=
  fun s =>
    let '(r, b) := create_collection cls cfg (remote s) in
    (r, Session b (stdin s) (FCreateCollection cls cfg :: ftrace s)).

(** [click.confirm(prompt)]: the next answer; the end of the input and an
    interrupt abort. *)
Definition click_confirm (prompt : string) : M session bool :=
  fun s =>
    match stdin s with
    | [] => (Raise ClickAbort, s)
    | a :: rest =>
        let s' := Session (remote s) rest (FConfirm prompt a :: ftrace s) in
        match a with
        | Yes => (Ok true, s')
        | No => (Ok false, s')
        | Interrupt => (Raise ClickAbort, s')
        end
    end.

Definition key_error {A : Type} (k : string) : M session A :=
  raise (PyExc KeyError ("'" +:+ k +:+ "'") ("KeyError('" +:+ k +:+ "')")).

(** [storage_class_from_config(config)]. *)
Definition storage_class_from_config (cfg : config) : M session (storage_class * config) :=
  match cfg_get "type" cfg with
  | None => key_error "type"
  | Some storage_name =>
      let cfg := cfg_remove "type" cfg in
      if negb (hashable storage_name) then type_error "unhashable type"
      else
        match (match storage_name with PStr s => storage_names s | _ => None end) with
        | None => raise (UserError ("Unknown storage type: " +:+ py_str storage_name) [])
        | Some cls => mret (cls, cfg)
        end
  end.

Definition exn_repr (e : exn) : option string :=
  match e with
  | PyExc _ _ r => Some r
  | _ => None
  end.

Definition is_TypeError (e : exn) : bool :=
  match e with
  | PyExc TypeError _ _ => true
  | _ => false
  end.

Definition init_mentioned (e : exn) : bool :=
  match e with
  | PyExc _ _ r => contains "__init__" r
  | _ => false
  end.

(** [handle_storage_init_error(cls, config)], called while [e] is the
    exception being handled. *)
Definition handle_storage_init_error (e : exn) (cls : storage_class) (cfg : config)
    : M session Storage :=
  if negb (is_TypeError e) || negb (init_mentioned e) then raise e
  else
    let '(all, required) := get_storage_init_args cls in
    let given := cfg_keys cfg in
    let missing := set_minus required given in
    let invalid := set_minus given all in
    let problems :=
      (match missing with
       | [] => []
       | _ => [storage_name_of cls +:+ " storage requires the parameters: " +:+
               join ", " missing]
       end) ++
      (match invalid with
       | [] => []
       | _ => [storage_name_of cls +:+ " storage doesn't take the parameters: " +:+
               join ", " invalid]
       end) in
    match problems with
    | [] => raise e
    | _ =>
        match cfg_get "instance_name" cfg with
        | None => key_error "instance_name"
        | Some name => raise (UserError ("Failed to initialize " +:+ py_str name) problems)
        end
    end.

Definition is_CollectionNotFound (e : exn) : bool :=
  match e with
  | PyExc CollectionNotFound _ _ => true
  | _ => false
  end.

Definition is_NotImplementedError (e : exn) : bool :=
  match e with
  | PyExc NotImplementedError _ _ => true
  | _ => false
  end.

Definition exn_str (e : exn) : string :=
  match e with
  | PyExc _ s _ => s
  | _ => EmptyString
  end.

Definition collection_not_found_warning (e : string) (dumped storage_name : string) : string :=
  (if truthy e then e +:+ nl else EmptyString) +:+
  "No collection " +:+ dumped +:+ " found for storage " +:+ storage_name +:+ ".".

Definition unable_to_create_message (collection storage_name : pyval) : string :=
  "Unable to find or create collection " +:+ dq +:+ py_str collection +:+ dq +:+ " for " +:+
  "storage " +:+ dq +:+ py_str storage_name +:+ dq +:+ ". Please create the collection " +:+
  "yourself.".

(** [handle_collection_not_found(config, collection, e)]. *)
Definition handle_collection_not_found (cfg : config) (collection : pyval) (e : string)
    : M session config :=
  femit FRecovery;;
  let storage_name := default PNone (cfg_get "instance_name" cfg) in
  dumped ← match json_dumps collection with
            | Some t => mret t
            | None => type_error "Object is not JSON serializable"
            end;
  flog WARNING (Msg (collection_not_found_warning e dumped (py_str storage_name)));;
  confirmed ← click_confirm "Should vdirsyncer attempt to create it?";
  (if confirmed : bool then
     match cfg_get "type" cfg with
     | None => key_error "type"
     | Some storage_type =>
         '(cls, cfg') ← storage_class_from_config cfg;
         let cfg' := cfg_set "collection" collection cfg' in
         try_except
           (args ← call_create_collection cls cfg';
            mret (Some (cfg_set "type" storage_type args)))
           is_NotImplementedError
           (fun e => flog ERROR (MsgExn e);; mret None)
     end
   else mret None) ≫= fun created =>
  match created with
  | Some args => mret args
  | None => raise (UserError (unable_to_create_message collection storage_name) [])
  end.

(** The body of [storage_instance_from_config(config, create,
    connector=connector)], with the call it makes to itself as [retry]. *)
Definition storage_instance_from_config_body
    (retry : config -> M session Storage)
    (cfg : config) (create : bool) (connector : option string) : M session Storage :=
  '(cls, new_config) ← storage_class_from_config cfg;
  new_config ←
    (if is_DAVStorage cls || is_HttpStorage cls then
       match connector with
       | None => raise (PyExc AssertionError EmptyString "AssertionError()")
       | Some c => mret (cfg_set "connector" (PObject c) new_config)
       end
     else mret new_config);
  try_except (call_constructor cls new_config) (fun e => is_CollectionNotFound e || is_Exception e)
    (fun e =>
       if is_CollectionNotFound e then
         if create then
           cfg' ← handle_collection_not_found cfg (default PNone (cfg_get "collection" cfg))
                    (exn_str e);
           retry cfg'
         else raise e
       else handle_storage_init_error e cls new_config).

(** The call with [create=False]: it makes no call to itself. *)
Definition storage_instance_from_config_nocreate (connector : option string) (cfg : config)
    : M session Storage :=
  storage_instance_from_config_body (fun _ => raise (PyExc RuntimeError EmptyString EmptyString))
    cfg false connector.

(** [storage_instance_from_config(config, create, connector=connector)]:
    the call it makes to itself is the one with [create=False]. *)
Definition storage_instance_from_config (cfg : config) (create : bool)
    (connector : option string) : M session Storage :=
  storage_instance_from_config_body (storage_instance_from_config_nocreate connector)
    cfg create connector.

End Factory.

Arguments Session {backend} remote stdin ftrace.
Arguments remote {backend} s.
Arguments stdin {backend} s.
Arguments ftrace {backend} s.
Arguments femit {backend} ev _.
Arguments flog {backend} l m _.
Arguments click_confirm {backend} prompt _.
Arguments key_error {backend A} k _.
Arguments call_constructor {Storage backend} construct cls cfg _.
Arguments call_create_collection {backend} create_collection cls cfg _.
Arguments storage_class_from_config {backend} py_repr cfg _.
Arguments handle_storage_init_error {Storage backend} get_storage_init_args py_repr e cls cfg _.
Arguments handle_collection_not_found {backend} create_collection py_repr json_dumps
  cfg collection e _.
Arguments storage_instance_from_config_body {Storage backend} construct create_collection
  get_storage_init_args is_DAVStorage is_HttpStorage py_repr json_dumps
  retry cfg create connector _.
Arguments storage_instance_from_config_nocreate {Storage backend} construct create_collection
  get_storage_init_args is_DAVStorage is_HttpStorage py_repr json_dumps connector cfg _.
Arguments storage_instance_from_config {Storage backend} construct create_collection
  get_storage_init_args is_DAVStorage is_HttpStorage py_repr json_dumps
  cfg create connector _.

(** ** The JSON codec *)

(** The functions of this file take [json.loads] and [json.dumps] as
    parameters, and what is proved of them holds for every codec, the
    round trip of [save_status] and [load_status] apart, which is a fact
    about the codec too.  The codec below follows the [json] module of
    the standard library with its default settings: [dumps] writes
    [null], [true], [false], integers in decimal, strings with the
    escapes of [ensure_ascii=True], and arrays and objects with the
    separators [", "] and [": "]; a key that is a number, a boolean or
    [None] is written as the string of its JSON text, and an object that
    is no JSON value is refused.  [loads] reads [null], [true], [false],
    integers, strings with their escapes, arrays and objects, and
    rejects any other text (a fraction, an exponent, an escape for a
    character above 255).  A character of a string is a code point below
    256. *)
Module Json.

Definition is_ws (c : ascii) : bool :=
  Ascii.eqb c " "%char || Ascii.eqb c "010"%char || Ascii.eqb c "013"%char
  || Ascii.eqb c "009"%char.

Fixpoint skip_ws (s : string) : string :=
  match s with
  | String c r => if is_ws c then skip_ws r else s
  | EmptyString => s
  end.

Definition digit_of (c : ascii) : option Z :=
  let n := Z.of_nat (nat_of_ascii c) in
  if Z.leb 48 n && Z.leb n 57 then Some (n - 48)%Z else None.

(** The digits at the head of [s], as a number, and the rest. *)
Fixpoint read_digits (s : string) (acc : Z) : Z * string :=
  match s with
  | String c r =>
      match digit_of c with
      | Some d => read_digits r (acc * 10 + d)%Z
      | None => (acc, s)
      end
  | EmptyString => (acc, s)
  end.

(** A number after its sign: digits, no leading zero, no fraction and no
    exponent. *)
Definition read_nat (s : string) : option (Z * string) :=
  match s with
  | String c r =>
      match digit_of c with
      | None => None
      | Some d =>
          let '(n, rest) := read_digits s 0 in
          let leading_zero :=
            Z.eqb d 0 && match r with
                         | String c' _ => match digit_of c' with Some _ => true | None => false end
                         | EmptyString => false
                         end in
          let more :=
            match rest with
            | String c' _ => Ascii.eqb c' "."%char || Ascii.eqb c' "e"%char
                             || Ascii.eqb c' "E"%char
            | EmptyString => false
            end in
          if leading_zero || more then None else Some (n, rest)
      end
  | EmptyString => None
  end.

Definition code (c : ascii) : Z := Z.of_nat (nat_of_ascii c).

(** The value of a hexadecimal digit, in either case. *)
Definition hex_value (c : ascii) : option Z :=
  let n := code c in
  if Z.leb 48 n && Z.leb n 57 then Some (n - 48)%Z
  else if Z.leb 97 n && Z.leb n 102 then Some (n - 87)%Z
  else if Z.leb 65 n && Z.leb n 70 then Some (n - 55)%Z
  else None.

(** The character a one-letter escape stands for. *)
Definition unescape (e : ascii) : option ascii :=
  if Ascii.eqb e "034"%char then Some "034"%char
  else if Ascii.eqb e "\"%char then Some "\"%char
  else if Ascii.eqb e "/"%char then Some "/"%char
  else if Ascii.eqb e "b"%char then Some "008"%char
  else if Ascii.eqb e "f"%char then Some "012"%char
  else if Ascii.eqb e "n"%char then Some "010"%char
  else if Ascii.eqb e "r"%char then Some "013"%char
  else if Ascii.eqb e "t"%char then Some "009"%char
  else None.

(** A string after its opening quote, up to the closing one.  A control
    character is not accepted as it is. *)
Fixpoint read_string (s : string) : option (string * string) :=
  match s with
  | EmptyString => None
  | String c r =>
      if Ascii.eqb c "034"%char then Some (EmptyString, r)
      else if Ascii.eqb c "\"%char then
        match r with
        | EmptyString => None
        | String e r' =>
            if Ascii.eqb e "u"%char then
              match r' with
              | String h1 (String h2 (String h3 (String h4 r''))) =>
                  match hex_value h1, hex_value h2, hex_value h3, hex_value h4 with
                  | Some a, Some b, Some c', Some d =>
                      let n := (((a * 16 + b) * 16 + c') * 16 + d)%Z in
                      if Z.ltb n 256 then
                        match read_string r'' with
                        | Some (t, rest) => Some (String (ascii_of_nat (Z.to_nat n)) t, rest)
                        | None => None
                        end
                      else None
                  | _, _, _, _ => None
                  end
              | _ => None
              end
            else
              match unescape e with
              | None => None
              | Some x =>
                  match read_string r' with
                  | Some (t, rest) => Some (String x t, rest)
                  | None => None
                  end
              end
        end
      else if Z.ltb (code c) 32 then None
      else match read_string r with
           | Some (t, rest) => Some (String c t, rest)
           | None => None
           end
  end.

Definition drop_prefix (p s : string) : option string :=
  if String.prefix p s then Some (String.substring (String.length p)
                                    (String.length s - String.length p) s)
  else None.

(** The rest of [s] after the character [c] at its head. *)
Definition head_is (c : ascii) (s : string) : option string :=
  match s with
  | String c' r => if Ascii.eqb c' c then Some r else None
  | EmptyString => None
  end.

(** A value at the head of [s], after white space, and the rest; the
    elements of an array after its opening bracket; the members of an
    object after its opening brace, a member with the key of an earlier
    one taking its place. *)
Fixpoint parse_value (fuel : nat) (s : string) : option (pyval * string) :=
  match fuel with
  | O => None
  | S fuel' =>
      match skip_ws s with
      | EmptyString => None
      | String c r =>
          if Ascii.eqb c "034"%char then
            match read_string r with
            | Some (t, rest) => Some (PStr t, rest)
            | None => None
            end
          else if Ascii.eqb c "["%char then
            match head_is "]"%char (skip_ws r) with
            | Some rest => Some (PList [], rest)
            | None =>
                match parse_elements fuel' r with
                | Some (l, rest) => Some (PList l, rest)
                | None => None
                end
            end
          else if Ascii.eqb c "{"%char then
            match head_is "}"%char (skip_ws r) with
            | Some rest => Some (PDict [], rest)
            | None =>
                match parse_members fuel' r [] with
                | Some (d, rest) => Some (PDict d, rest)
                | None => None
                end
            end
          else if Ascii.eqb c "-"%char then
            match read_nat r with
            | Some (n, rest) => Some (PInt (- n), rest)
            | None => None
            end
          else
            match read_nat (String c r) with
            | Some (n, rest) => Some (PInt n, rest)
            | None =>
                match drop_prefix "null" (String c r) with
                | Some rest => Some (PNone, rest)
                | None =>
                    match drop_prefix "true" (String c r) with
                    | Some rest => Some (PBool true, rest)
                    | None =>
                        match drop_prefix "false" (String c r) with
                        | Some rest => Some (PBool false, rest)
                        | None => None
                        end
                    end
                end
            end
      end
  end
with parse_elements (fuel : nat) (s : string) : option (list pyval * string) :=
  match fuel with
  | O => None
  | S fuel' =>
      match parse_value fuel' s with
      | None => None
      | Some (v, rest) =>
          match head_is "]"%char (skip_ws rest) with
          | Some rest' => Some ([v], rest')
          | None =>
              match head_is ","%char (skip_ws rest) with
              | Some rest' =>
                  match parse_elements fuel' rest' with
                  | Some (l, rest'') => Some (v :: l, rest'')
                  | None => None
                  end
              | None => None
              end
          end
      end
  end
with parse_members (fuel : nat) (s : string) (acc : list (pyval * pyval))
    : option (list (pyval * pyval) * string) :=
  match fuel with
  | O => None
  | S fuel' =>
      match head_is "034"%char (skip_ws s) with
      | None => None
      | Some r =>
          match read_string r with
          | None => None
          | Some (k, rest) =>
              match head_is ":"%char (skip_ws rest) with
              | None => None
              | Some rest' =>
                  match parse_value fuel' rest' with
                  | None => None
                  | Some (v, rest'') =>
                      let acc' := dict_set (PStr k) v acc in
                      match head_is "}"%char (skip_ws rest'') with
                      | Some rest3 => Some (acc', rest3)
                      | None =>
                          match head_is ","%char (skip_ws rest'') with
                          | Some rest3 => parse_members fuel' rest3 acc'
                          | None => None
                          end
                      end
                  end
              end
          end
      end
  end.

(** [json.loads(s)]: one value and nothing but white space after it. *)
Definition loads (s : string) : option pyval :=
  match parse_value (2 * String.length s + 2) s with
  | Some (v, rest) =>
      match skip_ws rest with
      | EmptyString => Some v
      | _ => None
      end
  | None => None
  end.

Definition dec_digit (d : Z) : string :=
  String (ascii_of_nat (48 + Z.to_nat d)) EmptyString.

Fixpoint dec_aux (fuel : nat) (n : Z) (acc : string) : string :=
  match fuel with
  | O => acc
  | S fuel' =>
      let acc' := dec_digit (n mod 10) +:+ acc in
      if Z.eqb (n / 10) 0 then acc' else dec_aux fuel' (n / 10) acc'
  end.

Definition format_dec (n : Z) : string :=
  if Z.ltb n 0 then "-" +:+ dec_aux (S (Z.to_nat (Z.log2 (- n)))) (- n) EmptyString
  else dec_aux (S (Z.to_nat (Z.log2 n))) n EmptyString.

(** A hexadecimal digit, in lower case. *)
Definition hex_char (d : Z) : ascii :=
  ascii_of_nat (Z.to_nat (if Z.ltb d 10 then 48 + d else 87 + d)%Z).

(** A character as [json.dumps] writes it inside a string: the quote,
    the backslash and five control characters have an escape of two
    characters, the other characters outside the printable ASCII range
    the escape with four hexadecimal digits. *)
Definition escape_char (c : ascii) : string :=
  if Ascii.eqb c "034"%char then String "\"%char dq
  else if Ascii.eqb c "\"%char then "\\"
  else if Ascii.eqb c "010"%char then "\n"
  else if Ascii.eqb c "013"%char then "\r"
  else if Ascii.eqb c "009"%char then "\t"
  else if Ascii.eqb c "008"%char then "\b"
  else if Ascii.eqb c "012"%char then "\f"
  else if Z.leb 32 (code c) && Z.ltb (code c) 127 then String c EmptyString
  else "\u00" +:+ String (hex_char (Z.div (code c) 16))
                    (String (hex_char (Z.modulo (code c) 16)) EmptyString).

Fixpoint escape (s : string) : string :=
  match s with
  | EmptyString => EmptyString
  | String c r => escape_char c +:+ escape r
  end.

Definition dump_string (s : string) : string := dq +:+ escape s +:+ dq.

(** The text of a dictionary key: strings as they are, numbers, booleans
    and [None] as the string of their JSON text; any other key is
    refused. *)
Definition dump_key (k : pyval) : option string :=
  match k with
  | PStr s => Some (dump_string s)
  | PInt n => Some (dump_string (format_dec n))
  | PBool true => Some (dump_string "true")
  | PBool false => Some (dump_string "false")
  | PNone => Some (dump_string "null")
  | _ => None
  end.

(** The elements of an array, each written by [f], with [", "] between
    them. *)
Fixpoint dump_items (f : pyval -> option string) (l : list pyval) : option string :=
  match l with
  | [] => Some EmptyString
  | x :: r =>
      match f x with
      | None => None
      | Some a =>
          match r with
          | [] => Some a
          | _ :: _ =>
              match dump_items f r with
              | Some b => Some (a +:+ ", " +:+ b)
              | None => None
              end
          end
      end
  end.

(** The members of an object, the values written by [f]. *)
Fixpoint dump_members (f : pyval -> option string) (d : list (pyval * pyval))
    : option string :=
  match d with
  | [] => Some EmptyString
  | (k, v) :: r =>
      match dump_key k, f v with
      | Some a, Some b =>
          match r with
          | [] => Some (a +:+ ": " +:+ b)
          | _ :: _ =>
              match dump_members f r with
              | Some t => Some (a +:+ ": " +:+ b +:+ ", " +:+ t)
              | None => None
              end
          end
      | _, _ => None
      end
  end.

(** [json.dumps(v)]. *)
Fixpoint dumps (v : pyval) : option string :=
  match v with
  | PNone => Some "null"
  | PBool true => Some "true"
  | PBool false => Some "false"
  | PInt n => Some (format_dec n)
  | PStr s => Some (dump_string s)
  | PList l =>
      match dump_items dumps l with
      | Some t => Some ("[" +:+ t +:+ "]")
      | None => None
      end
  | PDict d =>
      match dump_members dumps d with
      | Some t => Some ("{" +:+ t +:+ "}")
      | None => None
      end
  | PObject _ => None
  end.

End Json.

(** ** The storage index, as [_StorageIndex] keeps it *)

(** [item.rsplit(".", 1)]: the text before the last dot and the text
    after it; [None] when there is no dot, where the two-name assignment
    fails. *)
Fixpoint rsplit_dot (item : string) : option (string * string) :=
  match item with
  | EmptyString => None
  | String c r =>
      match rsplit_dot r with
      | Some (modname, clsname) => Some (String c modname, clsname)
      | None => if Ascii.eqb c "."%char then Some (EmptyString, r) else None
      end
  end.

Section StorageIndex.

(** The class objects, the [storage_name] each reports, and what
    importing a module and reading an attribute of it gives. *)
Variable Class : Type.
Variable class_storage_name : Class -> string.
Variable import_attr : string -> string -> outcome Class.

(** A value of [_storages]: the dotted name of a class, or the class
    once it has been resolved. *)
Inductive index_entry : Type :=
| Locator (item : string)
| Resolved (cls : Class).

(** The index: the dictionary [_storages], and the imports made so far,
    the newest first. *)
Record index_state : Type :=
  IndexState { storages : gmap string index_entry; imports : list (string * string) }.

(** [_StorageIndex.__init__]. *)
Definition initial_storages : gmap string index_entry :=
  <["caldav" := Locator "vdirsyncer.storage.dav.CalDAVStorage"]>
  (<["carddav" := Locator "vdirsyncer.storage.dav.CardDAVStorage"]>
  (<["filesystem" := Locator "vdirsyncer.storage.filesystem.FilesystemStorage"]>
  (<["http" := Locator "vdirsyncer.storage.http.HttpStorage"]>
  (<["singlefile" := Locator "vdirsyncer.storage.singlefile.SingleFileStorage"]>
  (<["google_calendar" := Locator "vdirsyncer.storage.google.GoogleCalendarStorage"]>
  (<["google_contacts" := Locator "vdirsyncer.storage.google.GoogleContactsStorage"]>
   ∅)))))).

Definition initial_index : index_state := IndexState initial_storages [].

(** [_StorageIndex.__getitem__(name)].  The class is stored before the
    assertion on its [storage_name] is made. *)
Definition index_getitem (name : string) : M index_state Class :=
  fun st =>
    match storages st !! name with
    | None => (Raise (PyExc KeyError ("'" +:+ name +:+ "'") ("KeyError('" +:+ name +:+ "')")), st)
    | Some (Resolved item) => (Ok item, st)
    | Some (Locator item) =>
        match rsplit_dot item with
        | None =>
            (Raise (PyExc ValueError "not enough values to unpack (expected 2, got 1)"
                      "ValueError('not enough values to unpack (expected 2, got 1)')"), st)
        | Some (modname, clsname) =>
            match import_attr modname clsname with
            | Raise e => (Raise e, IndexState (storages st) ((modname, clsname) :: imports st))
            | Ok rv =>
                let st' := IndexState (<[name := Resolved rv]> (storages st))
                             ((modname, clsname) :: imports st) in
                if String.eqb (class_storage_name rv) name then (Ok rv, st')
                else (Raise (PyExc AssertionError EmptyString "AssertionError()"), st')
            end
        end
    end.

End StorageIndex.

Arguments Locator {Class} item.
Arguments Resolved {Class} cls.
Arguments IndexState {Class} storages imports.
Arguments storages {Class} i.
Arguments imports {Class} i.
Arguments initial_storages {Class}.
Arguments initial_index {Class}.
Arguments index_getitem {Class} class_storage_name import_attr name _.

(** The import that finds every class of the index in its module. *)
Definition standard_import (modname clsname : string) : outcome storage_class :=
  let found :=
    if String.eqb modname "vdirsyncer.storage.dav" then
      if String.eqb clsname "CalDAVStorage" then Some CalDAVStorage
      else if String.eqb clsname "CardDAVStorage" then Some CardDAVStorage
      else None
    else if String.eqb modname "vdirsyncer.storage.filesystem" then
      if String.eqb clsname "FilesystemStorage" then Some FilesystemStorage else None
    else if String.eqb modname "vdirsyncer.storage.http" then
      if String.eqb clsname "HttpStorage" then Some HttpStorage else None
    else if String.eqb modname "vdirsyncer.storage.singlefile" then
      if String.eqb clsname "SingleFileStorage" then Some SingleFileStorage else None
    else if String.eqb modname "vdirsyncer.storage.google" then
      if String.eqb clsname "GoogleCalendarStorage" then Some GoogleCalendarStorage
      else if String.eqb clsname "GoogleContactsStorage" then Some GoogleContactsStorage
      else None
    else None in
  match found with
  | Some cls => Ok cls
  | None =>
      Raise (PyExc (OtherException "ImportError") (modname +:+ "." +:+ clsname)
               ("ImportError('" +:+ modname +:+ "." +:+ clsname +:+ "')"))
  end.

(** * Vocabulary of the statements *)

(** The user-initiated aborts, which the reporter swallows. *)
Definition is_abort (e : exn) : bool :=
  match e with
  | ClickAbort | KeyboardInterrupt | JobFailed => true
  | _ => false
  end.

(** The exceptions some [except] clause of [handle_cli_error] accepts. *)
Definition caught_by_reporter (e : exn) : bool :=
  is_Exception e || is_abort e.

(** The attributes that a clause of [handle_cli_error] looks into are
    there. *)
Definition attributes_set (e : exn) : bool :=
  match e with
  | StorageEmpty None => false
  | IdentConflict None _ | IdentConflict _ None => false
  | _ => true
  end.

Definition is_AttributeError (e : exn) : bool :=
  match e with
  | PyExc AttributeError _ _ => true
  | _ => false
  end.

(** The exceptions that reach the last clause, [except Exception]. *)
Definition is_unclassified (e : exn) : bool :=
  match e with
  | PyExc _ _ _ => true
  | _ => false
  end.

Definition is_debug (r : log_record) : bool :=
  match log_level r with
  | DEBUG => true
  | _ => false
  end.

(** A record the user sees without asking for debug output. *)
Definition is_report (r : log_record) : bool :=
  match log_level r with
  | ERROR | CRITICAL => true
  | _ => false
  end.

(** The permission bits of what is at [path]. *)
Definition mode_at (w : world) (path : string) : option Z :=
  match files w !! path with
  | Some (File _ perm) | Some (Dir perm) => Some perm
  | None => None
  end.

(** The content of the regular file at [path]. *)
Definition content_at (w : world) (path : string) : option content :=
  match files w !! path with
  | Some (File c _) => Some c
  | _ => None
  end.

(** [mode] has a bit outside the bits of [ceiling]. *)
Definition exceeds_mask (mode ceiling : Z) : Prop :=
  Z.land mode (Z.lnot ceiling) <> 0.

(** ** States of the examples *)

(** A world with one regular file and an empty trace. *)
Definition one_file (path : string) (text : string) (perm : Z) : world :=
  World (<[path := File (Bytes text) perm]> ∅) [].

(** A world with nothing in it. *)
Definition empty_world : world := World ∅ [].

(** The path of the status file before its suffix. *)
Definition unsuffixed_path (expand_path : string -> string) (base_path pair : string)
    (collection : option string) : string :=
  expand_path (os_path_join base_path (get_status_name pair collection)).

(** The number of renames in a trace. *)
Definition renames (w : world) : nat :=
  length (List.filter (fun ev => match ev with EvRename _ _ => true | _ => false end) (trace w)).

Definition is_dir_at (w : world) (path : string) : bool :=
  match files w !! path with
  | Some (Dir _) => true
  | _ => false
  end.

(** An event that is neither a rename, nor an opening for reading, nor a
    removal. *)
Definition no_move_no_read (ev : event) : bool :=
  match ev with
  | EvRename _ _ | EvOpen _ | EvRemove _ => false
  | _ => true
  end.

(** From [w] to [w'] the entry at [path] stays as it is, and what the
    trace gains has no rename, no opening for reading and no removal. *)
Definition untouched (path : string) (w w' : world) : Prop :=
  files w' !! path = files w !! path /\
  exists delta, trace w' = delta ++ trace w /\ forallb no_move_no_read delta = true.

(** The directory of [path] is the root or a directory of the file
    system. *)
Definition status_dir_exists (w : world) (path : string) : bool :=
  let d := os_path_dirname path in
  truthy d &&
  match files w !! d with
  | Some (Dir _) => true
  | Some (File _ _) => false
  | None => all_slashes d
  end.

(** The part of [load_status] after the file has been opened. *)
Definition decode (json_loads : string -> option pyval) (c : content)
    : M world (list (pyval * pyval)) :=
  try_except (v ← json_load json_loads c; py_dict v) is_ValueError (fun _ => mret []).

(** The mapping the examples save. *)
Definition sample_status : list (pyval * pyval) :=
  [(PStr "uid1", PList [PStr "a.ics"; PStr "etag-1"; PStr "b.ics"; PStr "etag-2"])].

(** The number of removals in a trace. *)
Definition removals (w : world) : nat :=
  length (List.filter (fun ev => match ev with EvRemove _ => true | _ => false end) (trace w)).

(** What [manage_sync_status] does when it finds no legacy status. *)
Definition open_incremental_store (umask : Z) (path : string) : M world status_handle :=
  prepare_status_path umask path;;
  status ← SqliteStatus umask path;
  mret status.

(** The sample mapping as JSON text. *)
Definition sample_text : string :=
  default EmptyString (Json.dumps (PDict sample_status)).

(** A world whose status directory [status/pair] holds the sample mapping
    as a flat file at the [.items] path of the collection [coll]. *)
Definition legacy_world : world :=
  World (<["status/pair/coll.items" := File (Bytes sample_text) 384]>
           (<["status/pair" := Dir 448]> ∅)) [].

(** ** Vocabulary of the factory *)

(** The class and the keyword arguments of the constructor call that
    [storage_instance_from_config] makes for a configuration, when it
    gets as far as the call. *)
Definition constructor_call (is_DAVStorage is_HttpStorage : storage_class -> bool)
    (cfg : config) (connector : option string) : option (storage_class * config) :=
  match cfg_get "type" cfg with
  | Some (PStr name) =>
      match storage_names name with
      | Some cls =>
          if is_DAVStorage cls || is_HttpStorage cls then
            match connector with
            | Some c => Some (cls, cfg_set "connector" (PObject c) (cfg_remove "type" cfg))
            | None => None
            end
          else Some (cls, cfg_remove "type" cfg)
      | None => None
      end
  | _ => None
  end.

(** The problems [handle_storage_init_error] finds in the keyword
    arguments of a class. *)
Definition init_problems (get_storage_init_args : storage_class -> list string * list string)
    (cls : storage_class) (kw : config) : list string :=
  let '(all, required) := get_storage_init_args cls in
  let missing := set_minus required (cfg_keys kw) in
  let invalid := set_minus (cfg_keys kw) all in
  (match missing with
   | [] => []
   | _ => [storage_name_of cls +:+ " storage requires the parameters: " +:+
           join ", " missing]
   end) ++
  (match invalid with
   | [] => []
   | _ => [storage_name_of cls +:+ " storage doesn't take the parameters: " +:+
           join ", " invalid]
   end).

Definition is_FRecovery (ev : fevent) : bool :=
  match ev with
  | FRecovery => true
  | _ => false
  end.

Definition is_FConstruct (ev : fevent) : bool :=
  match ev with
  | FConstruct _ _ => true
  | _ => false
  end.

(** How often the recovery flow was entered, and how often a constructor
    was called, in the trace of a session. *)
Definition recoveries {backend : Type} (s : session backend) : nat :=
  length (List.filter is_FRecovery (ftrace s)).

Definition constructions {backend : Type} (s : session backend) : nat :=
  length (List.filter is_FConstruct (ftrace s)).

(** ** A storage backend for the examples *)

(** The backend is the list of the collections that exist.  A storage
    object is the keyword arguments it was made from. *)
Definition demo_missing_path : exn :=
  PyExc TypeError "__init__() missing 1 required positional argument: 'path'"
    ("TypeError(" +:+ dq +:+ "__init__() missing 1 required positional argument: 'path'"
     +:+ dq +:+ ")").

Definition demo_empty_path : exn :=
  PyExc ValueError "path must not be empty" "ValueError('path must not be empty')".

Definition demo_not_found (c : string) : exn :=
  PyExc CollectionNotFound ("no collection " +:+ c)
    ("CollectionNotFound('no collection " +:+ c +:+ "')").

(** The constructor wants a [path], refuses an empty one, and looks for
    the collection it is given. *)
Definition demo_construct (cls : storage_class) (kw : config) (b : list string)
    : outcome config * list string :=
  match cfg_get "path" kw with
  | None => (Raise demo_missing_path, b)
  | Some (PStr EmptyString) => (Raise demo_empty_path, b)
  | Some _ =>
      match cfg_get "collection" kw with
      | Some (PStr c) =>
          if existsb (String.eqb c) b then (Ok kw, b) else (Raise (demo_not_found c), b)
      | _ => (Ok kw, b)
      end
  end.

(** Creating a collection adds it to the backend; the [http] storage
    cannot create one. *)
Definition demo_create_collection (cls : storage_class) (kw : config) (b : list string)
    : outcome config * list string :=
  match cls with
  | HttpStorage =>
      (Raise (PyExc NotImplementedError EmptyString "NotImplementedError()"), b)
  | _ =>
      match cfg_get "collection" kw with
      | Some (PStr c) => (Ok kw, c :: b)
      | _ => (Ok kw, b)
      end
  end.

Definition demo_init_args (cls : storage_class) : list string * list string :=
  (["path"; "collection"; "instance_name"; "read_only"], ["path"]).

Definition demo_repr (v : pyval) : string :=
  match v with
  | PNone => "None"
  | PBool true => "True"
  | PBool false => "False"
  | PInt z => Json.format_dec z
  | _ => "<object>"
  end.

Definition demo_factory (cfg : config) (create : bool) (connector : option string)
    : M (session (list string)) config :=
  storage_instance_from_config demo_construct demo_create_collection demo_init_args
    (fun _ => false) (fun _ => false) demo_repr Json.dumps cfg create connector.

(** A session with no collection yet and the answers the user will
    give. *)
Definition demo_session (answers : list answer) : session (list string) :=
  Session [] answers [].

(** A configuration without [path] and with a name the class does not
    know. *)
Definition cfg_no_path : config :=
  [("type", PStr "filesystem"); ("instance_name", PStr "local"); ("colour", PStr "red")].

(** A configuration with an empty [path]. *)
Definition cfg_empty_path : config :=
  [("type", PStr "filesystem"); ("instance_name", PStr "local"); ("path", PStr EmptyString)].

(** A configuration for the collection [work]. *)
Definition cfg_work : config :=
  [("type", PStr "filesystem"); ("instance_name", PStr "local"); ("path", PStr "/cal");
   ("collection", PStr "work")].

(** ** Further vocabulary *)

(** No character of the string is a slash. *)
Fixpoint no_slash (s : string) : bool :=
  match s with
  | EmptyString => true
  | String c r => negb (is_slash c) && no_slash r
  end.

(** An index whose [caldav] entry was resolved to the wrong class. *)
Definition wrong_import (modname clsname : string) : outcome storage_class := Ok HttpStorage.

(** The numbers from [lo] to [lo + n - 1]. *)
Definition z_range (lo : Z) (n : nat) : list Z :=
  map (fun k => lo + Z.of_nat k) (seq 0 n).

(** Some proper ancestor of [name] is a regular file. *)
Definition ancestor_is_file (w : world) (name : string) : bool :=
  existsb (fun a => match files w !! a with Some (File _ _) => true | _ => false end)
    (ancestors (String.length name) name).

(** A world whose status directory holds the sample mapping as the
    [items] of the pair [pair]. *)
Definition saved_world : world :=
  World (<["status/pair.items" := File (Bytes sample_text) 384]>
           (<["status" := Dir 448]> ∅)) [].

(** A world whose status directory [status/pair] holds the sample mapping
    in the extensionless file of the collection [coll]. *)
Definition extensionless_world : world :=
  World (<["status/pair/coll" := File (Bytes sample_text) 384]>
           (<["status/pair" := Dir 448]> ∅)) [].

(** A world with the status directory [status/pair] and nothing in it. *)
Definition status_dir_world : world :=
  World (<["status/pair" := Dir 448]> ∅) [].

Definition is_FCreateCollection (ev : fevent) : bool :=
  match ev with
  | FCreateCollection _ _ => true
  | _ => false
  end.

(** How often [create_collection] was called in the trace of a
    session. *)
Definition creations {backend : Type} (s : session backend) : nat :=
  length (List.filter is_FCreateCollection (ftrace s)).

(** The classes that are DAV storages. *)
Definition demo_is_dav (cls : storage_class) : bool :=
  match cls with
  | CalDAVStorage | CardDAVStorage | GoogleCalendarStorage | GoogleContactsStorage => true
  | _ => false
  end.

Definition demo_is_http (cls : storage_class) : bool :=
  match cls with
  | HttpStorage => true
  | _ => false
  end.

(** A configuration for a calendar on a server. *)
Definition cfg_dav : config :=
  [("type", PStr "caldav"); ("instance_name", PStr "remote"); ("path", PStr "/dav")].

(** A configuration for a collection of an [http] storage. *)
Definition cfg_http : config :=
  [("type", PStr "http"); ("instance_name", PStr "feed"); ("path", PStr "/feed");
   ("collection", PStr "news")].

(** A configuration with neither [path] nor [instance_name]. *)
Definition cfg_anonymous : config :=
  [("type", PStr "filesystem"); ("colour", PStr "red")].

Definition demo_recover (cfg : config) (collection : pyval) (e : string)
    : M (session (list string)) config :=
  handle_collection_not_found demo_create_collection demo_repr Json.dumps cfg collection e.

(** ** Vocabulary of the status store, on the state a call is made in *)

(** The path of a status file: the unsuffixed path, a dot, the data
    type. *)
Definition status_path (expand_path : string -> string) (base_path pair : string)
    (collection : option string) (data_type : string) : string :=
  unsuffixed_path expand_path base_path pair collection +:+ "." +:+ data_type.

(** [get_status_path] has no legacy file to rename: no regular file is at
    the unsuffixed path, or the data type is not [items]. *)
Definition no_legacy_file (expand_path : string -> string) (w : world)
    (base_path pair : string) (collection : option string) (data_type : string) : Prop :=
  content_at w (unsuffixed_path expand_path base_path pair collection) = None \/
  data_type <> "items".

(** The directory of [path] is there, or [os.makedirs] can make it: it is
    the root or a directory of the file system, or it is missing and no
    ancestor of it is a regular file. *)
Definition status_dir_available (w : world) (path : string) : bool :=
  let d := os_path_dirname path in
  truthy d &&
  match files w !! d with
  | Some (Dir _) => true
  | Some (File _ _) => false
  | None => all_slashes d || negb (ancestor_is_file w d)
  end.

(** [dict(v)], which depends on no state. *)
Definition dict_of (v : pyval) : outcome (list (pyval * pyval)) := fst (py_dict v tt).

(** What [load_status] makes of [dict(v)]: the [ValueError] is caught. *)
Definition caught_ValueError (r : outcome (list (pyval * pyval)))
    : outcome (list (pyval * pyval)) :=
  match r with
  | Ok d => Ok d
  | Raise e => if is_ValueError e then Ok [] else Raise e
  end.

Definition is_PStr (v : pyval) : bool :=
  match v with
  | PStr _ => true
  | _ => false
  end.

(** No key of the list equals a later one, as dictionary keys compare. *)
Fixpoint distinct_keys (ks : list pyval) : bool :=
  match ks with
  | [] => true
  | k :: r => negb (existsb (key_eqb k) r) && distinct_keys r
  end.

(** The values [json.loads] returns: [None], booleans, integers, strings,
    lists of such values, and dictionaries of such values whose keys are
    strings.  The keys of a dictionary are distinct, as they are in every
    dictionary. *)
Fixpoint json_native (v : pyval) : bool :=
  match v with
  | PNone | PBool _ | PInt _ | PStr _ => true
  | PList l => forallb json_native l
  | PDict d =>
      forallb (fun kv => is_PStr (fst kv) && json_native (snd kv)) d
      && distinct_keys (map fst d)
  | PObject _ => false
  end.

(** A world with nothing but the sample mapping in the extensionless file
    of the pair [pair]. *)
Definition legacy_only_world : world := one_file "status/pair" sample_text 384.

(** A world whose status directory [status/pair] holds the sample mapping
    as a flat file at the [.items] path of the collection [coll], and an
    empty object in the extensionless file of the same collection. *)
Definition both_legacy_world : world :=
  World (<["status/pair/coll" := File (Bytes "{}") 384]>
           (<["status/pair/coll.items" := File (Bytes sample_text) 384]>
              (<["status/pair" := Dir 448]> ∅))) [].

(** A world where a regular file has the name of the status directory. *)
Definition blocked_world : world := one_file "status" "not a directory" 420.

(** A world whose status directory [status/pair] holds a text at the
    [.items] path of the collection [coll] that starts like a JSON object
    and is none. *)
Definition broken_world : world :=
  World (<["status/pair/coll.items" := File (Bytes "{broken") 384]>
           (<["status/pair" := Dir 448]> ∅)) [].

(** A mapping with string keys that holds a mapping with a number as
    key, and what the codec makes of it. *)
Definition nested_status : list (pyval * pyval) :=
  [(PStr "a", PDict [(PInt 1, PInt 2)])].

Definition nested_status_read : list (pyval * pyval) :=
  [(PStr "a", PDict [(PStr "1", PInt 2)])].

(** ** Vocabulary of the codec *)

(** The decimal text of a natural number. *)
Definition dec_text (n : Z) : string := Json.dec_aux (S (Z.to_nat (Z.log2 n))) n EmptyString.

(** What follows a value in a text that [dumps] wrote, or in none: the
    end of the text, a comma, or a closing bracket or brace. *)
Definition delimited (rest : string) : bool :=
  match rest with
  | EmptyString => true
  | String c _ => Ascii.eqb c ","%char || Ascii.eqb c "]"%char || Ascii.eqb c "}"%char
  end.

(** The first character of a text that [Json.dumps] wrote. *)
Definition opens_value (t : string) : Prop :=
  exists c r, t = String c r /\ Json.is_ws c = false /\
              Ascii.eqb c "]"%char = false /\ Ascii.eqb c "}"%char = false.

(** What [loads] makes of the text of [v] when more text follows: [v],
    and the text that follows.  The fuel needed is no more than the
    length of the text. *)
Definition reads_back (v : pyval) : Prop :=
  json_native v = true ->
  exists t,
    Json.dumps v = Some t /\
    forall fuel rest,
      (String.length t <= fuel)%nat -> delimited rest = true ->
      Json.parse_value fuel (t +:+ rest) = Some (v, rest).

(** Induction on a value, with the property at hand for the elements of
    a list and for the values of a dictionary. *)
Section NestedInduction.

Variable P : pyval -> Prop.
Hypothesis HNone : P PNone.
Hypothesis HBool : forall b, P (PBool b).
Hypothesis HInt : forall z, P (PInt z).
Hypothesis HStr : forall s, P (PStr s).
Hypothesis HList : forall l, Forall P l -> P (PList l).
Hypothesis HDict : forall d, Forall (fun kv => P (snd kv)) d -> P (PDict d).
Hypothesis HObject : forall name, P (PObject name).

Fixpoint pyval_nested_ind (v : pyval) : P v :=
  match v with
  | PNone => HNone
  | PBool b => HBool b
  | PInt z => HInt z
  | PStr s => HStr s
  | PList l =>
      HList l ((fix elements (l : list pyval) : Forall P l :=
                  match l with
                  | [] => List.Forall_nil P
                  | x :: r => List.Forall_cons P x r (pyval_nested_ind x) (elements r)
                  end) l)
  | PDict d =>
      HDict d ((fix members (d : list (pyval * pyval)) : Forall (fun kv => P (snd kv)) d :=
                  match d with
                  | [] => List.Forall_nil _
                  | kv :: r =>
                      List.Forall_cons (fun kv => P (snd kv)) kv r
                        (match kv as kv0 return P (snd kv0) with
                         | (_, x) => pyval_nested_ind x
                         end)
                        (members r)
                  end) d)
  | PObject name => HObject name
  end.

End NestedInduction.

(** * Properties *)

(** ** ErrorReporter *)

Section ErrorReporterFacts.

Variable DOCS_HOME : string.
Variable BUGTRACKER_HOME : string.

(** An exception no clause accepts leaves [handle_cli_error] as it came,
    with nothing logged. *)
Lemma handle_cli_error_escapes (status_name : option string) (e active : option exn)
    (tb : list string) :
  caught_by_reporter (raised_in_try e active) = false ->
  handle_cli_error DOCS_HOME BUGTRACKER_HOME status_name e active tb
  = ([], Raise (raised_in_try e active)).
Proof.
  unfold handle_cli_error.
  destruct (raised_in_try e active) as [| | | | | | | | | | |c s r]; try discriminate.
  unfold caught_by_reporter; simpl.
  rewrite orb_false_r. intros ->. reflexivity.
Qed.

(** With the attributes in place, [handle_cli_error] returns for every
    exception that derives from [Exception] and for
    [KeyboardInterrupt].  It logs nothing for an abort ([click.Abort],
    [KeyboardInterrupt], [JobFailed]); for every other kind it logs
    exactly one record at error or critical level, and for an exception
    outside the named kinds one more record, at debug level, with the
    traceback. *)
Lemma handle_cli_error_with_attributes (status_name : option string) (e active : option exn)
    (tb : list string) :
  caught_by_reporter (raised_in_try e active) = true ->
  attributes_set (raised_in_try e active) = true ->
  exists logs,
    handle_cli_error DOCS_HOME BUGTRACKER_HOME status_name e active tb = (logs, Ok tt) /\
    (is_abort (raised_in_try e active) = true -> logs = []) /\
    (is_abort (raised_in_try e active) = false ->
       length (List.filter is_report logs) = 1%nat /\
       List.filter is_debug logs =
         (if is_unclassified (raised_in_try e active)
          then [LogRecord DEBUG (Msg (join EmptyString tb))] else []) /\
       length logs = (if is_unclassified (raised_in_try e active) then 2%nat else 1%nat)).
Proof.
  unfold handle_cli_error.
  destruct (raised_in_try e active) as [|[st|]| | |[st|] [hs|]| | | | | | |c s r];
    intros Hc Hset; try discriminate Hset;
    try (eexists; split; [reflexivity|]; split; [try discriminate; reflexivity|];
         intros; try discriminate; repeat split; reflexivity).
  unfold caught_by_reporter in Hc; simpl in Hc. rewrite orb_false_r in Hc.
  rewrite Hc. eexists; split; [reflexivity|]. split; [discriminate|].
  intros _. repeat split; reflexivity.
Qed.

(** C2, where the code breaks it: a [StorageEmpty] and an [IdentConflict]
    derive from [Exception], and [handle_cli_error] has a clause for each,
    but the clause raises when the exception was made without the
    attribute it reads.  For a [StorageEmpty] whose [empty_storage] is
    [None] the call ends with an [AttributeError]; for an [IdentConflict]
    whose [hrefs] is [None] with a [TypeError], and with [hrefs] in place
    and [storage] [None] with an [AttributeError].  Nothing is logged in
    any of the three cases. *)
Theorem handle_cli_error_raises_on_unset_attribute (status_name : option string)
    (active : option exn) (tb : list string) :
  is_Exception (StorageEmpty None) = true /\
  handle_cli_error DOCS_HOME BUGTRACKER_HOME status_name (Some (StorageEmpty None)) active tb
  = ([], Raise none_has_no_instance_name) /\
  (forall storage,
     is_Exception (IdentConflict storage None) = true /\
     handle_cli_error DOCS_HOME BUGTRACKER_HOME status_name
       (Some (IdentConflict storage None)) active tb
     = ([], Raise none_is_not_iterable)) /\
  (forall hrefs,
     handle_cli_error DOCS_HOME BUGTRACKER_HOME status_name
       (Some (IdentConflict None (Some hrefs))) active tb
     = ([], Raise none_has_no_instance_name)) /\
  is_AttributeError none_has_no_instance_name = true /\
  is_TypeError none_is_not_iterable = true.
Proof.
  split; [reflexivity|]. split; [reflexivity|]. split.
  - intros storage. split; reflexivity.
  - split; [intros hrefs; reflexivity|]. split; reflexivity.
Qed.

End ErrorReporterFacts.

(** A [SystemExit] handed to [handle_cli_error] comes back out of it: the
    last clause is [except Exception].  An exception outside the named
    kinds is logged as two records, the message and the traceback. *)
Example handle_cli_error_base_exception :
  handle_cli_error "docs" "bugs" (Some "contacts")
    (Some (PyExc SystemExit "1" "SystemExit(1)")) None []
  = ([], Raise (PyExc SystemExit "1" "SystemExit(1)")) /\
  length (fst (handle_cli_error "docs" "bugs" (Some "contacts")
                 (Some (PyExc (OSError ENOENT) "No such file" "FileNotFoundError()")) None
                 ["frame 1"; "frame 2"])) = 2%nat.
Proof. split; reflexivity. Qed.

(** ** Running the monad *)

Ltac run_prims :=
  unfold os_stat_st_mode, os_chmod, os_path_isfile, os_path_exists, os_rename, os_remove,
    open_read, cli_logger_log, os_error, type_error, value_error, database_error in *;
  unfold get_files, set_files, emit, raise, try_except, mbind, M_bind, mret, M_ret in *.

Lemma bind_Ok {S A B : Type} (m : M S A) (f : A -> M S B) (s s' : S) (a : A) :
  m s = (Ok a, s') -> (m ≫= f) s = f a s'.
Proof. unfold mbind, M_bind. intros ->. reflexivity. Qed.

Lemma bind_Raise {S A B : Type} (m : M S A) (f : A -> M S B) (s s' : S) (e : exn) :
  m s = (Raise e, s') -> (m ≫= f) s = (Raise e, s').
Proof. unfold mbind, M_bind. intros ->. reflexivity. Qed.

Lemma bind_Ok_inv {S A B : Type} (m : M S A) (f : A -> M S B) (s s' : S) (b : B) :
  (m ≫= f) s = (Ok b, s') -> exists a s1, m s = (Ok a, s1) /\ f a s1 = (Ok b, s').
Proof.
  unfold mbind, M_bind. destruct (m s) as [[a|e] s1]; [|discriminate].
  intros H. exists a, s1. split; [reflexivity|exact H].
Qed.

(** ** PermissionGuard *)

Lemma st_mode_permission_bits (type_bits perm : Z) :
  Z.land type_bits 511 = 0 ->
  Z.land (Z.lor type_bits perm) 511 = Z.land perm 511.
Proof. intros H. rewrite Z.land_lor_distr_l, H. apply Z.lor_0_l. Qed.

Lemma twelve_bits (m : Z) : 0 <= m < 4096 -> Z.land m 4095 = m.
Proof.
  intros H. change 4095 with (Z.ones 12). rewrite Z.land_ones by lia.
  apply Z.mod_small. simpl. lia.
Qed.

(** What [assert_permissions] does on a path that exists, whatever the
    ceiling. *)
Lemma assert_permissions_run (w : world) (path : string) (wanted mode : Z) :
  mode_at w path = Some mode ->
  exists w',
    assert_permissions path wanted w = (Ok tt, w') /\
    (Z.land mode 511 > wanted ->
       mode_at w' path = Some (Z.land wanted 4095) /\
       content_at w' path = content_at w path /\
       (forall p, p <> path -> files w' !! p = files w !! p)) /\
    (Z.land mode 511 <= wanted -> w' = w).
Proof.
  unfold mode_at, content_at, assert_permissions. run_prims.
  destruct w as [fs tr]; simpl.
  destruct (fs !! path) as [[c perm|perm]|] eqn:Hp; intros [= ->];
    rewrite st_mode_permission_bits by reflexivity;
    destruct (Z.gtb_spec (Z.land mode 511) wanted) as [Hgt|Hle]; simpl;
    rewrite ?Hp; simpl; eexists; (split; [reflexivity|]); split;
    try (intros Hh; exfalso; lia); try (intros _; reflexivity);
    intros _; simpl; rewrite lookup_insert_eq;
    (split; [reflexivity|]); (split; [reflexivity|]);
    intros p Hne; rewrite lookup_insert_ne by congruence; reflexivity.
Qed.

(** C3, as the code has it: the ceiling is compared as a number.  On a
    path that exists the call returns normally; when the nine low
    permission bits, read as a number, are above the ceiling, the mode
    becomes exactly the ceiling, and otherwise nothing changes, bits
    outside the ceiling or not.  For a mode that has every bit of the
    ceiling the two readings agree: any bit outside the ceiling gets the
    mode reduced to the ceiling. *)
Theorem assert_permissions_numeric (w : world) (path : string) (wanted mode : Z) :
  mode_at w path = Some mode ->
  0 <= wanted < 512 ->
  exists w',
    assert_permissions path wanted w = (Ok tt, w') /\
    (Z.land mode 511 > wanted -> mode_at w' path = Some wanted) /\
    (Z.land mode 511 <= wanted -> w' = w) /\
    (Z.land mode wanted = wanted -> exceeds_mask (Z.land mode 511) wanted ->
       mode_at w' path = Some wanted).
Proof.
  intros Hm Hw.
  destruct (assert_permissions_run w path wanted mode Hm) as (w' & Hrun & Hgt & Hle).
  exists w'. split; [exact Hrun|].
  assert (Hred : Z.land mode 511 > wanted -> mode_at w' path = Some wanted).
  { intros H. destruct (Hgt H) as (Hmode & _). rewrite Hmode.
    rewrite twelve_bits by lia. reflexivity. }
  split; [exact Hred|]. split; [exact Hle|].
  intros Hincl Hout. apply Hred.
  unfold exceeds_mask in Hout.
  set (p := Z.land mode 511) in *.
  assert (Hp0 : 0 <= p) by (apply Z.land_nonneg; right; lia).
  assert (Hpw : Z.land p wanted = wanted).
  { unfold p. rewrite <- Z.land_assoc, (Z.land_comm 511 wanted), Z.land_assoc, Hincl.
    change 511 with (Z.ones 9). rewrite Z.land_ones by lia.
    apply Z.mod_small. simpl. lia. }
  assert (Hsplit : Z.land p wanted + Z.land p (Z.lnot wanted) = p).
  { rewrite Z.add_nocarry_lxor.
    - apply Z.bits_inj'. intros n Hn.
      rewrite Z.lxor_spec, !Z.land_spec, Z.lnot_spec by lia.
      destruct (Z.testbit p n), (Z.testbit wanted n); reflexivity.
    - apply Z.bits_inj'. intros n Hn.
      rewrite !Z.land_spec, Z.lnot_spec, Z.bits_0 by lia.
      destruct (Z.testbit p n), (Z.testbit wanted n); reflexivity. }
  assert (Hpos : 0 <= Z.land p (Z.lnot wanted)) by (apply Z.land_nonneg; left; exact Hp0).
  lia.
Qed.

(** The theorem at mode [0644] and ceiling [0600]: the file ends at
    [0600]. *)
Lemma assert_permissions_numeric_witness :
  exists w',
    assert_permissions "status/pair.items" 384
      (one_file "status/pair.items" "{}" 420) = (Ok tt, w') /\
    mode_at w' "status/pair.items" = Some 384.
Proof.
  destruct (assert_permissions_numeric
              (one_file "status/pair.items" "{}" 420)
              "status/pair.items" 384 420 ltac:(vm_compute; reflexivity) ltac:(lia))
    as (w' & Hrun & Hgt & _).
  exists w'. split; [exact Hrun|]. apply Hgt. reflexivity.
Defined.

(** C3 as stated fails twice.  Mode [0077] has only bits outside the
    ceiling [0600] and is left as it is, since 63 is not above 384; and
    on a path that does not exist the call raises. *)
Lemma assert_permissions_claim_fails :
  exceeds_mask 63 384 /\
  (exists w',
     assert_permissions "status/pair.items" 384
       (one_file "status/pair.items" "{}" 63) = (Ok tt, w') /\
     mode_at w' "status/pair.items" = Some 63) /\
  fst (assert_permissions "status/pair.items" 384 empty_world)
  = Raise (PyExc (OSError ENOENT) "status/pair.items" "OSError(status/pair.items)").
Proof.
  split; [discriminate|]. split; [|reflexivity].
  eexists; split; reflexivity.
Qed.

(** ** Strings *)

Lemma append_length (s t : string) :
  String.length (s +:+ t) = (String.length s + String.length t)%nat.
Proof. induction s as [|c s IH]; simpl; [reflexivity|]. rewrite IH. reflexivity. Qed.

Lemma append_ne_self (s t : string) : truthy t = true -> s +:+ t <> s.
Proof.
  intros Ht Heq. apply (f_equal String.length) in Heq.
  rewrite append_length in Heq. destruct t; [discriminate|]. simpl in Heq. lia.
Qed.

(** ** PathResolver *)

Section PathResolverFacts.

Variable expand_path : string -> string.

(** [get_status_path] step by step: without a legacy file, or for another
    data type, nothing happens; with one, it is renamed, unless a
    directory is in the way. *)
Lemma get_status_path_run (w : world) (base_path pair data_type : string)
    (collection : option string) :
  let path := unsuffixed_path expand_path base_path pair collection in
  get_status_path expand_path base_path pair collection (Some data_type) w =
  match files w !! path with
  | Some (File c perm) =>
      if String.eqb data_type "items" then
        let w' := World (files w)
                    (EvLog (LogRecord WARNING
                       (Msg ("Migrating statuses: Renaming " +:+ path +:+ " to " +:+
                             path +:+ ".items"))) :: trace w) in
        match files w !! (path +:+ ".items") with
        | Some (Dir _) =>
            (Raise (PyExc (OSError EISDIR) (path +:+ ".items")
                      ("OSError(" +:+ (path +:+ ".items") +:+ ")")), w')
        | _ =>
            (Ok (path +:+ "." +:+ data_type),
             World (<[path +:+ ".items" := File c perm]> (delete path (files w)))
               (EvRename path (path +:+ ".items") :: trace w'))
        end
      else (Ok (path +:+ "." +:+ data_type), w)
  | _ => (Ok (path +:+ "." +:+ data_type), w)
  end.
Proof.
  unfold unsuffixed_path, get_status_path. run_prims. destruct w as [fs tr]; simpl.
  destruct (fs !! expand_path _) as [[c perm|perm]|] eqn:Hp; simpl; try reflexivity.
  destruct (String.eqb data_type "items"); simpl; [|reflexivity].
  rewrite Hp.
  destruct (fs !! (expand_path _ +:+ ".items")) as [[c' perm'|perm']|]; reflexivity.
Qed.

(** After [get_status_path] has returned for the data type [items], no
    regular file is left at the unsuffixed path. *)
Lemma get_status_path_items_clears (w w1 : world) (base_path pair p : string)
    (collection : option string) :
  get_status_path expand_path base_path pair collection (Some "items") w = (Ok p, w1) ->
  p = unsuffixed_path expand_path base_path pair collection +:+ ".items" /\
  content_at w1 (unsuffixed_path expand_path base_path pair collection) = None.
Proof.
  rewrite get_status_path_run. cbv zeta. unfold content_at.
  set (path := unsuffixed_path expand_path base_path pair collection).
  destruct (files w !! path) as [[c perm|perm]|] eqn:Hp.
  - destruct (files w !! (path +:+ ".items")) as [[c' perm'|perm']|];
      intros [= <- <-]; (split; [reflexivity|]); cbn [files];
      rewrite lookup_insert_ne by (apply append_ne_self; reflexivity);
      rewrite lookup_delete_eq; reflexivity.
  - intros [= <- <-]. split; [reflexivity|]. rewrite Hp. reflexivity.
  - intros [= <- <-]. split; [reflexivity|]. rewrite Hp. reflexivity.
Qed.

(** C8: when no directory sits where the legacy file would be renamed to,
    [get_status_path] returns the unsuffixed path plus a dot plus the
    data type; a second call returns the same path and changes nothing at
    all, so that the two calls rename at most once, and only for the data
    type [items]. *)
Theorem get_status_path_idempotent (w : world) (base_path pair data_type : string)
    (collection : option string) :
  is_dir_at w (unsuffixed_path expand_path base_path pair collection +:+ ".items") = false ->
  exists w1,
    get_status_path expand_path base_path pair collection (Some data_type) w
    = (Ok (unsuffixed_path expand_path base_path pair collection +:+ "." +:+ data_type), w1) /\
    get_status_path expand_path base_path pair collection (Some data_type) w1
    = (Ok (unsuffixed_path expand_path base_path pair collection +:+ "." +:+ data_type), w1) /\
    (renames w1 <= renames w + 1)%nat /\
    (data_type <> "items" -> w1 = w).
Proof.
  intros Hdir. rewrite get_status_path_run. cbv zeta.
  set (path := unsuffixed_path expand_path base_path pair collection) in *.
  unfold is_dir_at in Hdir.
  destruct (files w !! path) as [[c perm|perm]|] eqn:Hp.
  - destruct (String.eqb_spec data_type "items") as [->|Hne].
    + destruct (files w !! (path +:+ ".items")) as [[c' perm'|perm']|] eqn:Hq;
        try discriminate;
        (eexists; split; [reflexivity|]; split; [|split; [unfold renames; simpl; lia|intros Hc; exfalso; apply Hc; reflexivity]]);
        rewrite get_status_path_run; cbv zeta; cbn [files trace]; fold path;
        rewrite lookup_insert_ne by (apply append_ne_self; reflexivity);
        rewrite lookup_delete_eq; reflexivity.
    + exists w. split; [reflexivity|]. split; [|split; [lia|reflexivity]].
      rewrite get_status_path_run. cbv zeta. fold path. rewrite Hp.
      destruct (String.eqb_spec data_type "items"); [contradiction|reflexivity].
  - exists w. split; [reflexivity|]. split; [|split; [lia|reflexivity]].
    rewrite get_status_path_run. cbv zeta. fold path. rewrite Hp. reflexivity.
  - exists w. split; [reflexivity|]. split; [|split; [lia|reflexivity]].
    rewrite get_status_path_run. cbv zeta. fold path. rewrite Hp. reflexivity.
Qed.

(** With a directory in the way of the rename, [get_status_path] raises
    and renames nothing. *)
Lemma get_status_path_blocked (w : world) (base_path pair : string)
    (collection : option string) (c : content) (perm : Z) :
  files w !! unsuffixed_path expand_path base_path pair collection = Some (File c perm) ->
  is_dir_at w (unsuffixed_path expand_path base_path pair collection +:+ ".items") = true ->
  exists e w1,
    get_status_path expand_path base_path pair collection (Some "items") w = (Raise e, w1) /\
    is_OSError e = true /\
    files w1 = files w /\
    renames w1 = renames w.
Proof.
  intros Hu Hdir. rewrite get_status_path_run. cbv zeta. rewrite Hu. cbn [String.eqb].
  unfold is_dir_at in Hdir.
  destruct (files w !! (_ +:+ ".items")) as [[c' p'|p']|]; try discriminate.
  do 2 eexists. split; [reflexivity|]. repeat split.
Qed.

End PathResolverFacts.

(** The theorem on a legacy file [status/pair]: the first call renames it
    to [status/pair.items], the second finds nothing to rename. *)
Lemma get_status_path_idempotent_witness :
  exists w1,
    get_status_path (fun p => p) "status" "pair" None (Some "items")
      (one_file "status/pair" "{}" 420) = (Ok "status/pair.items", w1) /\
    get_status_path (fun p => p) "status" "pair" None (Some "items") w1
    = (Ok "status/pair.items", w1) /\
    renames w1 = 1%nat.
Proof.
  destruct (get_status_path_idempotent (fun p => p) (one_file "status/pair" "{}" 420)
              "status" "pair" "items" None ltac:(vm_compute; reflexivity))
    as (w1 & H1 & H2 & _).
  exists w1. split; [exact H1|]. split; [exact H2|].
  vm_compute in H1. injection H1 as <-. vm_compute. reflexivity.
Defined.

(** ** Steps that leave a path alone *)

Lemma untouched_refl (path : string) (w : world) : untouched path w w.
Proof. split; [reflexivity|]. exists []. split; reflexivity. Qed.

Lemma untouched_trans (path : string) (w1 w2 w3 : world) :
  untouched path w1 w2 -> untouched path w2 w3 -> untouched path w1 w3.
Proof.
  intros (Hf1 & d1 & Ht1 & Hq1) (Hf2 & d2 & Ht2 & Hq2). split; [congruence|].
  exists (d2 ++ d1). split.
  - rewrite Ht2, Ht1. apply app_assoc.
  - rewrite forallb_app, Hq1, Hq2. reflexivity.
Qed.

Lemma fold_missing_dirs_lookup (perm : Z) (up : list string) (fs : gmap string node)
    (k : string) (n : node) :
  fs !! k = Some n ->
  fold_right (fun a m => match m !! a with
                         | None => <[a := Dir perm]> m
                         | Some _ => m
                         end) fs up !! k = Some n.
Proof.
  intros Hk. induction up as [|a up IH]; simpl; [exact Hk|].
  destruct (fold_right _ fs up !! a) eqn:Ha; [exact IH|].
  rewrite lookup_insert_ne; [exact IH|]. intros ->. congruence.
Qed.

Section StatusStoreFacts.

Variable expand_path : string -> string.
Variable umask : Z.
Variable atomic_write_mode : Z.
Variable json_loads : string -> option pyval.
Variable json_dumps : pyval -> option string.

Lemma os_makedirs_untouched (path name : string) (mode : Z) (w : world) (n : node) :
  files w !! path = Some n ->
  untouched path w (snd (os_makedirs umask name mode w)).
Proof.
  intros Hp. unfold os_makedirs. run_prims. destruct w as [fs tr]; simpl in *.
  destruct (truthy name); simpl; [|apply untouched_refl].
  destruct (all_slashes name); simpl; [apply untouched_refl|].
  destruct (fs !! name) eqn:Hn; simpl; [apply untouched_refl|].
  destruct (existsb _ _); simpl; [apply untouched_refl|].
  split; simpl.
  - rewrite lookup_insert_ne by congruence.
    rewrite Hp. apply fold_missing_dirs_lookup. exact Hp.
  - exists [EvMakedirs name]. split; reflexivity.
Qed.

Lemma prepare_status_path_untouched (path target : string) (w : world) (n : node) :
  files w !! path = Some n ->
  untouched path w (snd (prepare_status_path umask target w)).
Proof.
  intros Hp. unfold prepare_status_path, try_except.
  pose proof (os_makedirs_untouched path (os_path_dirname target)
                STATUS_DIR_PERMISSIONS w n Hp) as H.
  destruct (os_makedirs _ _ _ w) as [[[]|e] w1]; simpl in *; [exact H|].
  destruct (is_OSError e); simpl; [|exact H].
  destruct (is_EEXIST e); simpl; exact H.
Qed.

Lemma atomic_write_untouched (path target : string) (body : option string) (w : world) :
  target <> path ->
  untouched path w (snd (atomic_write atomic_write_mode target body w)).
Proof.
  intros Hne. unfold atomic_write. run_prims. destruct w as [fs tr]; simpl.
  destruct (parent_error fs target); simpl; [apply untouched_refl|].
  destruct body as [text|]; simpl; [|apply untouched_refl].
  destruct (fs !! target) as [[c perm|perm]|]; simpl; try apply untouched_refl;
    (split; simpl; [rewrite lookup_insert_ne by exact Hne; reflexivity|]);
    exists [EvWrite target]; split; reflexivity.
Qed.

Lemma os_chmod_untouched (path target : string) (mode : Z) (w : world) :
  target <> path ->
  untouched path w (snd (os_chmod target mode w)).
Proof.
  intros Hne. run_prims. destruct w as [fs tr]; simpl.
  destruct (fs !! target) as [[c perm|perm]|]; simpl; try apply untouched_refl;
    (split; simpl; [rewrite lookup_insert_ne by exact Hne; reflexivity|]);
    exists [EvChmod target mode]; split; reflexivity.
Qed.

(** C10: [save_status] works on the unsuffixed path plus a dot plus the
    data type, and never looks at the unsuffixed path itself: a regular
    file there is the same file afterwards, and the call has renamed
    nothing, opened nothing for reading and removed nothing, whether it
    returns or raises.  When it returns, the suffixed path holds the
    serialised data. *)
Theorem save_status_leaves_legacy_file (w : world) (base_path pair data_type : string)
    (data : list (pyval * pyval)) (collection : option string) (c : content) (perm : Z) :
  files w !! unsuffixed_path expand_path base_path pair collection = Some (File c perm) ->
  untouched (unsuffixed_path expand_path base_path pair collection) w
    (snd (save_status expand_path umask atomic_write_mode json_dumps
            base_path pair data_type data collection w)) /\
  (fst (save_status expand_path umask atomic_write_mode json_dumps
          base_path pair data_type data collection w) = Ok tt ->
   exists text,
     json_dumps (PDict data) = Some text /\
     content_at (snd (save_status expand_path umask atomic_write_mode json_dumps
                        base_path pair data_type data collection w))
       (unsuffixed_path expand_path base_path pair collection +:+ "." +:+ data_type)
     = Some (Bytes text)).
Proof.
  intros Hu. unfold save_status. fold (unsuffixed_path expand_path base_path pair collection).
  set (u := unsuffixed_path expand_path base_path pair collection) in *.
  set (path := u +:+ "." +:+ data_type).
  assert (Hne : path <> u) by (apply append_ne_self; reflexivity).
  pose proof (prepare_status_path_untouched u path w _ Hu) as H1.
  unfold mbind, M_bind.
  destruct (prepare_status_path umask path w) as [[[]|e1] w1]; simpl in H1;
    [|split; [exact H1|discriminate]].
  pose proof (atomic_write_untouched u path (json_dumps (PDict data)) w1 Hne) as H2.
  assert (Hw : forall w2, atomic_write atomic_write_mode path (json_dumps (PDict data)) w1
                          = (Ok tt, w2) ->
               exists text, json_dumps (PDict data) = Some text /\
                            exists p, files w2 !! path = Some (File (Bytes text) p)).
  { unfold atomic_write. run_prims. destruct w1 as [fs1 tr1]; simpl.
    destruct (parent_error fs1 path); [discriminate|].
    destruct (json_dumps (PDict data)) as [text|]; [|discriminate].
    intros w2 Hrun. exists text. split; [reflexivity|]. exists atomic_write_mode.
    destruct (fs1 !! path) as [[c' p'|p']|]; try discriminate;
      injection Hrun as <-; simpl; apply lookup_insert_eq. }
  destruct (atomic_write atomic_write_mode path _ w1) as [[[]|e2] w2]; simpl in H2;
    [|split; [eapply untouched_trans; eassumption|discriminate]].
  destruct (Hw w2 eq_refl) as (text & Htext & p & Hfile).
  pose proof (os_chmod_untouched u path STATUS_PERMISSIONS w2 Hne) as H3.
  split.
  - eapply untouched_trans; [exact H1|]. eapply untouched_trans; eassumption.
  - intros _. exists text. split; [exact Htext|].
    unfold content_at. run_prims. destruct w2 as [fs2 tr2]; simpl in *.
    rewrite Hfile. simpl. rewrite lookup_insert_eq. reflexivity.
Qed.

End StatusStoreFacts.

(** The theorem on a legacy file [status/pair]: saving the items of the
    pair leaves it where it is and writes [status/pair.items]. *)
Lemma save_status_leaves_legacy_file_witness :
  untouched "status/pair" (one_file "status/pair" "{}" 420)
    (snd (save_status (fun p => p) 18 384 Json.dumps "status" "pair" "items"
            [(PStr "a", PInt 1)] None (one_file "status/pair" "{}" 420))) /\
  content_at
    (snd (save_status (fun p => p) 18 384 Json.dumps "status" "pair" "items"
            [(PStr "a", PInt 1)] None (one_file "status/pair" "{}" 420)))
    "status/pair" = Some (Bytes "{}").
Proof.
  destruct (save_status_leaves_legacy_file (fun p => p) 18 384 Json.dumps
              (one_file "status/pair" "{}" 420) "status" "pair" "items"
              [(PStr "a", PInt 1)] None (Bytes "{}") 420 ltac:(vm_compute; reflexivity))
    as (Hu & _).
  split; [exact Hu|]. vm_compute. reflexivity.
Defined.

Section LoadStatusFacts.

Variable expand_path : string -> string.
Variable json_loads : string -> option pyval.

(** [load_status] once the path is resolved: nothing to read without a
    file; with one, the permissions are checked, the file is opened and
    its content decoded. *)
Lemma load_status_run (w w1 : world) (base_path pair p : string)
    (collection data_type : option string) :
  get_status_path expand_path base_path pair collection data_type w = (Ok p, w1) ->
  (files w1 !! p = None ->
     load_status expand_path json_loads base_path pair collection data_type w = (Ok [], w1)) /\
  (forall c perm, files w1 !! p = Some (File c perm) ->
     exists w2,
       load_status expand_path json_loads base_path pair collection data_type w
       = decode json_loads c (World (files w2) (EvOpen p :: trace w2)) /\
       assert_permissions p STATUS_PERMISSIONS w1 = (Ok tt, w2) /\
       content_at w2 p = Some c).
Proof.
  intros Hpath. unfold load_status. rewrite (bind_Ok _ _ _ _ _ Hpath). split.
  - intros Hp. run_prims. destruct w1 as [fs1 tr1]; simpl in *. rewrite Hp. reflexivity.
  - intros c perm Hp.
    destruct (assert_permissions_run w1 p STATUS_PERMISSIONS perm) as (w2 & Hrun & Hgt & Hle).
    { unfold mode_at. rewrite Hp. reflexivity. }
    assert (Hc : content_at w2 p = Some c).
    { destruct (Z.gtb_spec (Z.land perm 511) STATUS_PERMISSIONS) as [H|H].
      - destruct (Hgt ltac:(lia)) as (_ & -> & _). unfold content_at. rewrite Hp. reflexivity.
      - rewrite (Hle H). unfold content_at. rewrite Hp. reflexivity. }
    exists w2. split; [|split; [exact Hrun|exact Hc]].
    unfold os_path_exists at 1. unfold get_files at 1.
    unfold mbind at 1, M_bind at 1. unfold mbind at 1, M_bind at 1.
    unfold mret at 1, M_ret at 1. rewrite Hp. cbn [negb].
    rewrite (bind_Ok _ _ _ _ _ Hrun).
    unfold content_at in Hc. unfold open_read, get_files, emit. unfold mbind, M_bind, mret, M_ret.
    destruct w2 as [fs2 tr2]; cbn [files trace] in *.
    destruct (fs2 !! p) as [[c2 perm2|perm2]|]; try discriminate.
    injection Hc as ->. reflexivity.
Qed.

End LoadStatusFacts.

(** ** Saving, then loading *)

Lemma fold_missing_dirs_content (perm : Z) (up : list string) (fs : gmap string node)
    (k : string) :
  match fold_right (fun a m => match m !! a with
                               | None => <[a := Dir perm]> m
                               | Some _ => m
                               end) fs up !! k with
  | Some (File c _) => Some c
  | _ => None
  end = match fs !! k with Some (File c _) => Some c | _ => None end.
Proof.
  induction up as [|a up IH]; simpl; [reflexivity|].
  destruct (fold_right _ fs up !! a) eqn:Ha; [exact IH|].
  destruct (decide (a = k)) as [->|Hne].
  - rewrite lookup_insert_eq. rewrite <- IH, Ha. reflexivity.
  - rewrite lookup_insert_ne by exact Hne. exact IH.
Qed.

Section RoundTripFacts.

Variable expand_path : string -> string.
Variable umask : Z.
Variable atomic_write_mode : Z.
Variable json_loads : string -> option pyval.
Variable json_dumps : pyval -> option string.

(** [prepare_status_path] makes directories only: the regular files are
    those there were, with their content. *)
Lemma prepare_status_path_content (target k : string) (w : world) :
  content_at (snd (prepare_status_path umask target w)) k = content_at w k.
Proof.
  unfold prepare_status_path, try_except.
  assert (H : content_at (snd (os_makedirs umask (os_path_dirname target)
                                 STATUS_DIR_PERMISSIONS w)) k = content_at w k).
  { unfold os_makedirs, content_at. run_prims. destruct w as [fs tr]; simpl.
    destruct (truthy _); simpl; [|reflexivity].
    destruct (all_slashes _); simpl; [reflexivity|].
    destruct (fs !! os_path_dirname target) eqn:Hn; simpl; [reflexivity|].
    destruct (existsb _ _); simpl; [reflexivity|].
    destruct (decide (os_path_dirname target = k)) as [Heq|Hne].
    - subst k. rewrite lookup_insert_eq, Hn. reflexivity.
    - rewrite lookup_insert_ne by exact Hne. apply fold_missing_dirs_content. }
  destruct (os_makedirs _ _ _ w) as [[[]|e] w1]; simpl in *; [exact H|].
  destruct (is_OSError e); simpl; [|exact H].
  destruct (is_EEXIST e); simpl; exact H.
Qed.

(** A successful [atomic_write] had a text to write and put it at the
    path. *)
Lemma atomic_write_Ok (path : string) (body : option string) (w w' : world) :
  atomic_write atomic_write_mode path body w = (Ok tt, w') ->
  exists text,
    body = Some text /\
    files w' = <[path := File (Bytes text) atomic_write_mode]> (files w).
Proof.
  unfold atomic_write. run_prims. destruct w as [fs tr]; cbn [files trace].
  destruct (parent_error fs path); [discriminate|].
  destruct body as [text|]; [|discriminate].
  destruct (fs !! path) as [[c p|p]|]; try discriminate;
    intros [= <-]; exists text; split; reflexivity.
Qed.

Lemma os_chmod_file (path : string) (mode : Z) (w : world) (c : content) (perm : Z) :
  files w !! path = Some (File c perm) ->
  os_chmod path mode w
  = (Ok tt, World (<[path := File c (Z.land mode 4095)]> (files w))
              (EvChmod path mode :: trace w)).
Proof.
  intros H. run_prims. destruct w as [fs tr]; cbn [files trace] in *.
  rewrite H. reflexivity.
Qed.

(** What [save_status] leaves behind when it returns: the serialised
    data at the suffixed path, with mode [0600], and no regular file that
    was not there at any other path. *)
Lemma save_status_result (w w1 : world) (base_path pair data_type : string)
    (data : list (pyval * pyval)) (collection : option string) :
  save_status expand_path umask atomic_write_mode json_dumps
    base_path pair data_type data collection w = (Ok tt, w1) ->
  exists text,
    json_dumps (PDict data) = Some text /\
    files w1 !! (unsuffixed_path expand_path base_path pair collection +:+ "." +:+ data_type)
    = Some (File (Bytes text) STATUS_PERMISSIONS) /\
    (forall k, k <> unsuffixed_path expand_path base_path pair collection +:+ "." +:+ data_type ->
               content_at w1 k = content_at w k).
Proof.
  unfold save_status. fold (unsuffixed_path expand_path base_path pair collection).
  set (path := unsuffixed_path expand_path base_path pair collection +:+ "." +:+ data_type).
  intros Hrun.
  apply bind_Ok_inv in Hrun as ([] & w0 & Hprep & Hrun).
  apply bind_Ok_inv in Hrun as ([] & w0' & Hwrite & Hchmod).
  pose proof (fun k => prepare_status_path_content path k w) as Hcontent.
  rewrite Hprep in Hcontent. cbn [snd] in Hcontent.
  apply atomic_write_Ok in Hwrite as (text & Htext & Hfiles).
  exists text. split; [exact Htext|].
  assert (Hat : files w0' !! path = Some (File (Bytes text) atomic_write_mode)).
  { rewrite Hfiles. apply lookup_insert_eq. }
  rewrite (os_chmod_file _ _ _ _ _ Hat) in Hchmod. injection Hchmod as <-.
  cbn [files]. split.
  - rewrite lookup_insert_eq. reflexivity.
  - intros k Hk. rewrite <- Hcontent. unfold content_at. cbn [files].
    rewrite lookup_insert_ne by congruence. rewrite Hfiles.
    rewrite lookup_insert_ne by congruence. reflexivity.
Qed.

(** Saving and loading through any codec: when the text [json.dumps]
    gives for the data is read back by [json.loads] as the data, and no
    regular file sits at the unsuffixed path, a [save_status] of the
    [items] that returns leaves the status file with mode exactly [0600],
    and the [load_status] after it returns the data and leaves the mode
    at [0600]. *)
Lemma save_then_load_through_codec (w w1 : world) (base_path pair text : string)
    (data : list (pyval * pyval)) :
  json_dumps (PDict data) = Some text ->
  json_loads text = Some (PDict data) ->
  content_at w (unsuffixed_path expand_path base_path pair None) = None ->
  save_status expand_path umask atomic_write_mode json_dumps
    base_path pair "items" data None w = (Ok tt, w1) ->
  mode_at w1 (unsuffixed_path expand_path base_path pair None +:+ ".items") = Some 384 /\
  exists w2,
    load_status expand_path json_loads base_path pair None (Some "items") w1 = (Ok data, w2) /\
    mode_at w2 (unsuffixed_path expand_path base_path pair None +:+ ".items") = Some 384.
Proof.
  intros Hdump Hload Hlegacy Hsave.
  destruct (save_status_result w w1 base_path pair "items" data None Hsave)
    as (text' & Hdump' & Hfile & Hframe).
  rewrite Hdump in Hdump'. injection Hdump' as <-.
  set (u := unsuffixed_path expand_path base_path pair None) in *.
  change (u +:+ "." +:+ "items") with (u +:+ ".items") in *.
  assert (Hmode : mode_at w1 (u +:+ ".items") = Some 384).
  { unfold mode_at. rewrite Hfile. reflexivity. }
  split; [exact Hmode|].
  assert (Hu : content_at w1 u = None).
  { rewrite Hframe; [exact Hlegacy|]. intros Heq. symmetry in Heq. revert Heq.
    apply append_ne_self. reflexivity. }
  assert (Hpath : get_status_path expand_path base_path pair None (Some "items") w1
                  = (Ok (u +:+ ".items"), w1)).
  { rewrite get_status_path_run. cbv zeta. fold u. unfold content_at in Hu.
    destruct (files w1 !! u) as [[c p|p]|]; [discriminate|reflexivity|reflexivity]. }
  destruct (load_status_run expand_path json_loads w1 w1 base_path pair (u +:+ ".items")
              None (Some "items") Hpath) as (_ & Hread).
  destruct (Hread _ _ Hfile) as (w2 & Hrun & Hperm & _).
  assert (Hw2 : w2 = w1).
  { destruct (assert_permissions_run w1 (u +:+ ".items") STATUS_PERMISSIONS 384 Hmode)
      as (w2' & Hrun' & _ & Hle).
    rewrite Hperm in Hrun'. injection Hrun' as <-. apply Hle. vm_compute. discriminate. }
  subst w2. eexists. split.
  - rewrite Hrun. unfold decode, json_load. rewrite Hload. reflexivity.
  - unfold mode_at. cbn [files]. rewrite Hfile. reflexivity.
Qed.

(** [save_status] returns when the status directory exists, no directory
    sits at the status path, and the data can be serialised. *)
Lemma save_status_succeeds (w : world) (base_path pair data_type text : string)
    (data : list (pyval * pyval)) (collection : option string) :
  status_dir_exists w
    (unsuffixed_path expand_path base_path pair collection +:+ "." +:+ data_type) = true ->
  is_dir_at w
    (unsuffixed_path expand_path base_path pair collection +:+ "." +:+ data_type) = false ->
  json_dumps (PDict data) = Some text ->
  exists w1,
    save_status expand_path umask atomic_write_mode json_dumps
      base_path pair data_type data collection w = (Ok tt, w1).
Proof.
  unfold save_status, status_dir_exists, is_dir_at.
  fold (unsuffixed_path expand_path base_path pair collection).
  set (path := unsuffixed_path expand_path base_path pair collection +:+ "." +:+ data_type).
  intros Hdir Hnd Hdump.
  apply andb_true_iff in Hdir as (Htruthy & Hd).
  assert (Hprep : prepare_status_path umask path w = (Ok tt, w)).
  { unfold prepare_status_path, os_makedirs. run_prims. destruct w as [fs tr]; cbn [files] in *.
    rewrite Htruthy. cbn [negb].
    destruct (all_slashes (os_path_dirname path)); [reflexivity|].
    destruct (fs !! os_path_dirname path) as [[c p|p]|]; try discriminate; reflexivity. }
  rewrite (bind_Ok _ _ _ _ _ Hprep).
  unfold atomic_write, parent_error. run_prims. destruct w as [fs tr]; cbn [files trace] in *.
  rewrite Htruthy. cbn [negb orb].
  destruct (fs !! os_path_dirname path) as [[c p|p]|]; try discriminate;
    rewrite ?Hd, Hdump;
    destruct (fs !! path) as [[c' p'|p']|]; try discriminate;
    cbn [files]; rewrite lookup_insert_eq; eexists; reflexivity.
Qed.

End RoundTripFacts.

(** ** The incremental store *)

Section IncrementalStoreFacts.

Variable expand_path : string -> string.
Variable umask : Z.
Variable json_loads : string -> option pyval.

(** With the status directory in place [prepare_status_path] has nothing
    to do. *)
Lemma prepare_status_path_existing (w : world) (path : string) :
  status_dir_exists w path = true ->
  prepare_status_path umask path w = (Ok tt, w).
Proof.
  unfold status_dir_exists. intros Hdir.
  apply andb_true_iff in Hdir as (Htruthy & Hd).
  unfold prepare_status_path, os_makedirs. run_prims. destruct w as [fs tr]; cbn [files] in *.
  rewrite Htruthy. cbn [negb].
  destruct (all_slashes (os_path_dirname path)); [reflexivity|].
  destruct (fs !! os_path_dirname path) as [[c p|p]|]; try discriminate; reflexivity.
Qed.

(** A regular file is not its own directory. *)
Lemma status_dir_is_not_the_file (w : world) (path : string) (c : content) (perm : Z) :
  status_dir_exists w path = true ->
  files w !! path = Some (File c perm) ->
  os_path_dirname path <> path.
Proof.
  unfold status_dir_exists. intros Hdir Hfile Heq. rewrite Heq, Hfile in Hdir.
  rewrite andb_false_r in Hdir. discriminate.
Qed.

(** [manage_sync_status] once the path is resolved. *)
Lemma manage_sync_status_run (w w0 : world) (base_path pair_name collection_name p : string) :
  get_status_path expand_path base_path pair_name (Some collection_name) (Some "items") w
  = (Ok p, w0) ->
  manage_sync_status expand_path umask json_loads base_path pair_name collection_name w
  = (legacy_status ← try_except (peek_legacy_status json_loads p)
                       (fun e => is_OSError e || is_ValueError e) (fun _ => mret None);
     match legacy_status with
     | Some legacy =>
         cli_logger_log WARNING (Msg "Migrating legacy status to sqlite");;
         os_remove p;;
         status ← SqliteStatus umask p;
         load_legacy_status status legacy;;
         mret status
     | None => open_incremental_store umask p
     end) w0.
Proof.
  intros Hpath. unfold manage_sync_status. rewrite (bind_Ok _ _ _ _ _ Hpath). reflexivity.
Qed.

(** A database at the resolved path is opened as it is: nothing is
    removed and the rows stay. *)
Lemma manage_sync_status_on_store (w w0 : world) (base_path pair_name collection_name p : string)
    (rows : list (pyval * pyval)) (perm : Z) :
  get_status_path expand_path base_path pair_name (Some collection_name) (Some "items") w
  = (Ok p, w0) ->
  files w0 !! p = Some (File (SqliteDb rows) perm) ->
  status_dir_exists w0 p = true ->
  manage_sync_status expand_path umask json_loads base_path pair_name collection_name w
  = (Ok (StatusHandle p), World (files w0) (EvOpen p :: trace w0)).
Proof.
  intros Hpath Hfile Hdir. rewrite (manage_sync_status_run _ _ _ _ _ _ Hpath).
  assert (Hpeek : try_except (peek_legacy_status json_loads p)
                    (fun e => is_OSError e || is_ValueError e) (fun _ => mret None) w0
                  = (Ok None, World (files w0) (EvOpen p :: trace w0))).
  { unfold peek_legacy_status. run_prims. destruct w0 as [fs0 tr0]; cbn [files trace] in *.
    rewrite Hfile. reflexivity. }
  rewrite (bind_Ok _ _ _ _ _ Hpeek). unfold open_incremental_store.
  rewrite (bind_Ok _ _ _ _ _
             (prepare_status_path_existing (World (files w0) (EvOpen p :: trace w0)) p Hdir)).
  unfold SqliteStatus. run_prims. cbn [files trace]. rewrite Hfile. reflexivity.
Qed.

(** The migration, once the path is resolved: when the [.items] path
    holds a text that starts with a brace and is a JSON object, and its
    directory exists, [manage_sync_status] removes the file and yields a
    store at the same path whose rows are the entries of the object.
    Called again, it yields the same store with the same rows and removes
    nothing. *)
Lemma manage_sync_status_migration (w w0 : world)
    (base_path pair_name collection_name p text : string) (perm : Z)
    (legacy : list (pyval * pyval)) :
  get_status_path expand_path base_path pair_name (Some collection_name) (Some "items") w
  = (Ok p, w0) ->
  files w0 !! p = Some (File (Bytes text) perm) ->
  read1 (Bytes text) = "{" ->
  json_loads text = Some (PDict legacy) ->
  status_dir_exists w0 p = true ->
  exists w1,
    manage_sync_status expand_path umask json_loads base_path pair_name collection_name w
    = (Ok (StatusHandle p), w1) /\
    removals w1 = S (removals w0) /\
    In (EvRemove p) (trace w1) /\
    store_rows (StatusHandle p) w1 = Some legacy /\
    exists w2,
      manage_sync_status expand_path umask json_loads base_path pair_name collection_name w1
      = (Ok (StatusHandle p), w2) /\
      removals w2 = removals w1 /\
      store_rows (StatusHandle p) w2 = Some legacy.
Proof.
  intros Hpath Hfile Hbrace Hjson Hdir.
  destruct (get_status_path_items_clears expand_path w w0 base_path pair_name p
              (Some collection_name) Hpath) as (Hp & Hclear).
  set (u := unsuffixed_path expand_path base_path pair_name (Some collection_name)) in *.
  assert (Hup : u <> p).
  { rewrite Hp. intros Heq. symmetry in Heq. revert Heq. apply append_ne_self. reflexivity. }
  pose proof (status_dir_is_not_the_file w0 p _ _ Hdir Hfile) as Hdp.
  rewrite (manage_sync_status_run _ _ _ _ _ _ Hpath).
  assert (Hpeek : try_except (peek_legacy_status json_loads p)
                    (fun e => is_OSError e || is_ValueError e) (fun _ => mret None) w0
                  = (Ok (Some legacy), World (files w0) (EvOpen p :: trace w0))).
  { unfold peek_legacy_status, json_load. run_prims.
    destruct w0 as [fs0 tr0]; cbn [files trace] in *.
    rewrite Hfile, Hbrace, Hjson. reflexivity. }
  rewrite (bind_Ok _ _ _ _ _ Hpeek).
  assert (Hparent : parent_error (delete p (files w0)) p = None).
  { unfold status_dir_exists in Hdir. apply andb_true_iff in Hdir as (Htruthy & Hd).
    unfold parent_error. rewrite lookup_delete_ne by congruence.
    destruct (files w0 !! os_path_dirname p) as [[c' p'|p']|]; try discriminate;
      [reflexivity|]. rewrite Hd, orb_true_r. reflexivity. }
  set (m := Z.land 420 (Z.lnot umask)).
  set (w1 := World (<[p := File (SqliteDb legacy) m]>
                      (<[p := File (SqliteDb []) m]> (delete p (files w0))))
               (EvWrite p :: EvWrite p :: EvRemove p
                :: EvLog (LogRecord WARNING (Msg "Migrating legacy status to sqlite"))
                :: EvOpen p :: trace w0)).
  assert (Hmig : (cli_logger_log WARNING (Msg "Migrating legacy status to sqlite");;
                  os_remove p;;
                  status ← SqliteStatus umask p;
                  load_legacy_status status legacy;;
                  mret status) (World (files w0) (EvOpen p :: trace w0))
                 = (Ok (StatusHandle p), w1)).
  { unfold SqliteStatus, load_legacy_status. run_prims. cbn [files trace db_path].
    rewrite Hfile. cbn [files trace]. rewrite lookup_delete_eq, Hparent.
    cbn [files trace]. rewrite lookup_insert_eq. reflexivity. }
  exists w1. split; [exact Hmig|].
  split; [reflexivity|]. split; [right; right; left; reflexivity|].
  assert (Hrows : store_rows (StatusHandle p) w1 = Some legacy).
  { unfold store_rows, w1. cbn [files db_path]. rewrite lookup_insert_eq. reflexivity. }
  split; [exact Hrows|].
  assert (Hpath1 : get_status_path expand_path base_path pair_name (Some collection_name)
                     (Some "items") w1 = (Ok p, w1)).
  { rewrite get_status_path_run. cbv zeta. fold u.
    unfold content_at in Hclear. unfold w1 at 1. cbn [files].
    rewrite !lookup_insert_ne by congruence. rewrite lookup_delete_ne by congruence.
    destruct (files w0 !! u) as [[c' p'|p']|]; [discriminate| |]; rewrite Hp; reflexivity. }
  assert (Hdir1 : status_dir_exists w1 p = true).
  { unfold status_dir_exists in *. unfold w1. cbn [files].
    rewrite !lookup_insert_ne by congruence. rewrite lookup_delete_ne by congruence.
    exact Hdir. }
  eexists. split.
  + apply (manage_sync_status_on_store w1 w1 base_path pair_name collection_name p legacy m
             Hpath1); [|exact Hdir1].
    unfold w1. cbn [files]. apply lookup_insert_eq.
  + split; [reflexivity|]. exact Hrows.
Qed.

End IncrementalStoreFacts.

(** ** StorageFactory *)

Section FactoryFacts.

Variable Storage : Type.
Variable backend : Type.
Variable construct : storage_class -> config -> backend -> outcome Storage * backend.
Variable create_collection : storage_class -> config -> backend -> outcome config * backend.
Variable get_storage_init_args : storage_class -> list string * list string.
Variable is_DAVStorage : storage_class -> bool.
Variable is_HttpStorage : storage_class -> bool.
Variable py_repr : pyval -> string.
Variable json_dumps : pyval -> option string.

Local Abbreviation factory :=
  (storage_instance_from_config construct create_collection get_storage_init_args
     is_DAVStorage is_HttpStorage py_repr json_dumps).
Local Abbreviation factory_nocreate :=
  (storage_instance_from_config_nocreate construct create_collection get_storage_init_args
     is_DAVStorage is_HttpStorage py_repr json_dumps).
Local Abbreviation factory_body :=
  (storage_instance_from_config_body construct create_collection get_storage_init_args
     is_DAVStorage is_HttpStorage py_repr json_dumps).
Local Abbreviation recover :=
  (handle_collection_not_found create_collection py_repr json_dumps).
Local Abbreviation classify :=
  (handle_storage_init_error (Storage := Storage) (backend := backend)
     get_storage_init_args py_repr).
Local Abbreviation the_call := (constructor_call is_DAVStorage is_HttpStorage).

Ltac run_factory :=
  unfold call_constructor, call_create_collection, click_confirm, flog, key_error,
    type_error, value_error in *;
  unfold femit, raise, try_except, mbind, M_bind, mret, M_ret in *.

(** Up to the constructor call the factory changes nothing, and the call
    is the one [constructor_call] names. *)
Lemma factory_body_reaches_call (retry : config -> M (session backend) Storage)
    (cfg kw : config) (create : bool) (connector : option string) (cls : storage_class)
    (s : session backend) :
  the_call cfg connector = Some (cls, kw) ->
  factory_body retry cfg create connector s
  = match construct cls kw (remote s) with
    | (Ok st, b) => (Ok st, Session b (stdin s) (FConstruct cls kw :: ftrace s))
    | (Raise e, b) =>
        let s1 := Session b (stdin s) (FConstruct cls kw :: ftrace s) in
        if is_CollectionNotFound e then
          if create then
            (cfg' ← recover cfg (default PNone (cfg_get "collection" cfg)) (exn_str e);
             retry cfg') s1
          else (Raise e, s1)
        else if is_Exception e then classify e cls kw s1
        else (Raise e, s1)
    end.
Proof.
  unfold constructor_call, storage_instance_from_config_body, storage_class_from_config.
  destruct (cfg_get "type" cfg) as [[| | |name| | |]|]; try discriminate.
  destruct (storage_names name) as [cls'|]; [|discriminate].
  run_factory. cbn [hashable negb].
  destruct (is_DAVStorage cls' || is_HttpStorage cls').
  - destruct connector as [c|]; [|discriminate]. intros [= <- <-].
    destruct (construct cls' _ (remote s)) as [[st|e] b]; [reflexivity|].
    destruct (is_CollectionNotFound e) eqn:Hc; cbn [orb]; [destruct create; reflexivity|].
    destruct (is_Exception e); reflexivity.
  - intros [= <- <-].
    destruct (construct cls' _ (remote s)) as [[st|e] b]; [reflexivity|].
    destruct (is_CollectionNotFound e) eqn:Hc; cbn [orb]; [destruct create; reflexivity|].
    destruct (is_Exception e); reflexivity.
Qed.

(** What [handle_storage_init_error] raises. *)
Lemma handle_storage_init_error_run (e : exn) (cls : storage_class) (kw : config)
    (s : session backend) :
  classify e cls kw s
  = if negb (is_TypeError e) || negb (init_mentioned e) then (Raise e, s)
    else match init_problems get_storage_init_args cls kw with
         | [] => (Raise e, s)
         | problems =>
             match cfg_get "instance_name" kw with
             | None => (Raise (PyExc KeyError "'instance_name'" "KeyError('instance_name')"), s)
             | Some name =>
                 (Raise (UserError ("Failed to initialize " +:+ py_str py_repr name) problems), s)
             end
         end.
Proof.
  unfold handle_storage_init_error, init_problems. run_factory.
  destruct (negb (is_TypeError e) || negb (init_mentioned e)); [reflexivity|].
  destruct (get_storage_init_args cls) as [all required].
  destruct (_ ++ _); [reflexivity|].
  destruct (cfg_get "instance_name" kw); reflexivity.
Qed.

(** C1, as the code has it: when the constructor raises anything but a
    collection-not-found error, the factory turns it into a [UserError]
    only if it is a [TypeError] whose [repr()] mentions [__init__] and
    the keyword arguments have a missing or an invalid name; the
    [UserError] then says [Failed to initialize] with the instance name
    and lists the problems.  Every other error of the constructor is
    raised again as it is. *)
Theorem construction_error_translation (cfg kw : config) (create : bool)
    (connector : option string) (cls : storage_class) (s : session backend)
    (e : exn) (b : backend) :
  the_call cfg connector = Some (cls, kw) ->
  construct cls kw (remote s) = (Raise e, b) ->
  is_CollectionNotFound e = false ->
  exists r,
    factory cfg create connector s
    = (Raise r, Session b (stdin s) (FConstruct cls kw :: ftrace s)) /\
    (is_TypeError e && init_mentioned e = false -> r = e) /\
    (init_problems get_storage_init_args cls kw = [] -> r = e) /\
    (is_TypeError e && init_mentioned e = true ->
     init_problems get_storage_init_args cls kw <> [] ->
     forall name, cfg_get "instance_name" kw = Some name ->
       r = UserError ("Failed to initialize " +:+ py_str py_repr name)
             (init_problems get_storage_init_args cls kw)).
Proof.
  intros Hcall Hfail Hnot. unfold storage_instance_from_config.
  rewrite (factory_body_reaches_call _ _ _ _ _ _ _ Hcall), Hfail. cbv zeta. rewrite Hnot.
  assert (Hmention : is_TypeError e = true -> is_Exception e = true).
  { destruct e as [| | | | | | | | | | |c ? ?]; try discriminate. destruct c; try discriminate.
    reflexivity. }
  destruct (is_Exception e) eqn:Hexc.
  - rewrite handle_storage_init_error_run.
    destruct (is_TypeError e && init_mentioned e) eqn:Hti.
    + apply andb_true_iff in Hti as (Ht & Hi). rewrite Ht, Hi. cbn [negb orb].
      destruct (init_problems get_storage_init_args cls kw) as [|pr prs] eqn:Hprob.
      * exists e. split; [reflexivity|]. split; [intros _; reflexivity|].
        split; [intros _; reflexivity|]. intros _ Hne. contradiction.
      * destruct (cfg_get "instance_name" kw) as [name|].
        -- eexists. split; [reflexivity|]. split; [discriminate|].
           split; [discriminate|]. intros _ _ name' [= <-]. reflexivity.
        -- eexists. split; [reflexivity|]. split; [discriminate|].
           split; [discriminate|]. intros _ _ name' [=].
    + assert (Hneg : negb (is_TypeError e) || negb (init_mentioned e) = true).
      { apply andb_false_iff in Hti as [-> | ->]; [reflexivity|apply orb_true_r]. }
      rewrite Hneg. exists e. split; [reflexivity|]. split; [intros _; reflexivity|].
      split; [intros _; reflexivity|]. discriminate.
  - exists e. split; [reflexivity|]. split; [intros _; reflexivity|].
    split; [intros _; reflexivity|].
    intros Hti. apply andb_true_iff in Hti as (Ht & _).
    discriminate (Hmention Ht).
Qed.

(** ** Substrings *)

Lemma prefix_append (x b : string) : String.prefix x (x +:+ b) = true.
Proof.
  induction x as [|c x IH]; simpl; [destruct b; reflexivity|].
  destruct (ascii_dec c c) as [_|Hne]; [exact IH|contradiction].
Qed.

Lemma contains_unfold (x s : string) :
  contains x s = String.prefix x s || match s with
                                      | EmptyString => false
                                      | String _ r => contains x r
                                      end.
Proof. destruct s; reflexivity. Qed.

Lemma contains_here (x b : string) : contains x (x +:+ b) = true.
Proof. rewrite contains_unfold, prefix_append. reflexivity. Qed.

Lemma contains_later (x a s : string) : contains x s = true -> contains x (a +:+ s) = true.
Proof.
  intros H. induction a as [|c a IH]; [exact H|].
  rewrite contains_unfold. change (String c a +:+ s) with (String c (a +:+ s)).
  cbv beta iota. rewrite IH. apply orb_true_r.
Qed.

Ltac find_substring :=
  first [apply contains_here | apply contains_later; find_substring].

(** ** The recovery flow *)

Ltac break_match :=
  match goal with
  | |- context [match ?x with _ => _ end] => destruct x eqn:?
  end.

Ltac count_done :=
  split; [reflexivity | unfold constructions; simpl; lia].

(** Resolving the class touches nothing. *)
Lemma storage_class_from_config_pure (cfg : config) (s : session backend) :
  snd (storage_class_from_config py_repr cfg s) = s.
Proof.
  unfold storage_class_from_config. run_factory.
  repeat (break_match; try reflexivity).
Qed.

(** One run of [handle_collection_not_found] enters the recovery flow
    once and calls no constructor. *)
Lemma recovery_counts (cfg : config) (collection : pyval) (e : string) (s : session backend) :
  recoveries (snd (recover cfg collection e s)) = S (recoveries s) /\
  constructions (snd (recover cfg collection e s)) = constructions s.
Proof.
  unfold handle_collection_not_found. run_factory. cbn [remote stdin ftrace].
  destruct (json_dumps collection) as [dumped|]; [|split; reflexivity].
  cbn [remote stdin ftrace].
  destruct (stdin s) as [|[| |] rest]; try (split; reflexivity).
  cbn [remote stdin ftrace].
  destruct (cfg_get "type" cfg) as [storage_type|]; [|split; reflexivity].
  pose proof (storage_class_from_config_pure cfg
                (Session (remote s) rest
                   (FConfirm "Should vdirsyncer attempt to create it?" Yes
                    :: FLog (LogRecord WARNING
                               (Msg (collection_not_found_warning e dumped
                                       (py_str py_repr (default PNone
                                          (cfg_get "instance_name" cfg))))))
                    :: FRecovery :: ftrace s))) as Hpure.
  destruct (storage_class_from_config py_repr cfg _) as [[[cls cfg']|e1] s1];
    cbn [snd] in Hpure; subst s1; [|split; reflexivity].
  cbn [remote stdin ftrace].
  destruct (create_collection cls _ (remote s)) as [[args|e2] b]; [split; reflexivity|].
  destruct (is_NotImplementedError e2); split; reflexivity.
Qed.

(** The call with [create=False] never enters the recovery flow, calls
    the constructor at most once, and does not use [retry]. *)
Lemma nocreate_counts (cfg : config) (connector : option string) (s : session backend) :
  recoveries (snd (factory_nocreate connector cfg s)) = recoveries s /\
  (constructions (snd (factory_nocreate connector cfg s)) <= S (constructions s))%nat.
Proof.
  unfold storage_instance_from_config_nocreate, storage_instance_from_config_body.
  pose proof (storage_class_from_config_pure cfg s) as Hpure.
  run_factory.
  destruct (storage_class_from_config py_repr cfg s) as [[[cls kw]|e1] s1];
    cbn [snd] in Hpure; subst s1; [|count_done].
  destruct (is_DAVStorage cls || is_HttpStorage cls).
  - destruct connector as [c|]; [|count_done].
    destruct (construct cls _ (remote s)) as [[st|e] b];
      [count_done|].
    destruct (is_CollectionNotFound e); cbn [orb];
      [count_done|].
    destruct (is_Exception e); [|count_done].
    rewrite handle_storage_init_error_run.
    repeat (break_match; try (count_done)).
  - destruct (construct cls _ (remote s)) as [[st|e] b];
      [count_done|].
    destruct (is_CollectionNotFound e); cbn [orb];
      [count_done|].
    destruct (is_Exception e); [|count_done].
    rewrite handle_storage_init_error_run.
    repeat (break_match; try (count_done)).
Qed.

(** C5: when the constructor raises a collection-not-found error and
    [create] is true, the factory enters the recovery flow exactly once
    and then makes the call with [create=False] on the configuration the
    flow returns: in all, one entry into the flow and at most two
    constructor calls.  If the user answers no, the call fails with the
    [UserError] whose message holds the collection and the instance
    name, and no second constructor call is made.  If the second
    constructor call raises a collection-not-found error, that error is
    what the caller gets. *)
Theorem recovery_runs_once (cfg kw : config) (connector : option string)
    (cls : storage_class) (s : session backend) (msg repr_ : string) (b : backend) :
  the_call cfg connector = Some (cls, kw) ->
  construct cls kw (remote s) = (Raise (PyExc CollectionNotFound msg repr_), b) ->
  let s1 := Session b (stdin s) (FConstruct cls kw :: ftrace s) in
  let collection := default PNone (cfg_get "collection" cfg) in
  let storage_name := default PNone (cfg_get "instance_name" cfg) in
  factory cfg true connector s
  = (cfg' ← recover cfg collection msg; factory_nocreate connector cfg') s1 /\
  recoveries (snd (factory cfg true connector s)) = S (recoveries s) /\
  (constructions (snd (factory cfg true connector s)) <= S (S (constructions s)))%nat /\
  (forall rest dumped,
     stdin s = No :: rest ->
     json_dumps collection = Some dumped ->
     fst (factory cfg true connector s)
     = Raise (UserError (unable_to_create_message py_repr collection storage_name) []) /\
     constructions (snd (factory cfg true connector s)) = S (constructions s) /\
     contains (py_str py_repr collection)
       (unable_to_create_message py_repr collection storage_name) = true /\
     contains (py_str py_repr storage_name)
       (unable_to_create_message py_repr collection storage_name) = true) /\
  (forall cfg' s2 cls' kw' msg' repr' b',
     recover cfg collection msg s1 = (Ok cfg', s2) ->
     the_call cfg' connector = Some (cls', kw') ->
     construct cls' kw' (remote s2) = (Raise (PyExc CollectionNotFound msg' repr'), b') ->
     fst (factory cfg true connector s) = Raise (PyExc CollectionNotFound msg' repr')).
Proof.
  intros Hcall Hfail s1 collection storage_name.
  assert (Hrun : factory cfg true connector s
                 = (cfg' ← recover cfg collection msg; factory_nocreate connector cfg') s1).
  { unfold storage_instance_from_config.
    rewrite (factory_body_reaches_call _ _ _ _ _ _ _ Hcall), Hfail. reflexivity. }
  split; [exact Hrun|]. rewrite Hrun.
  destruct (recovery_counts cfg collection msg s1) as (Hrec & Hcon).
  assert (Hrec1 : recoveries s1 = recoveries s) by reflexivity.
  assert (Hcon1 : constructions s1 = S (constructions s)) by reflexivity.
  split; [|split; [|split]].
  - unfold mbind, M_bind.
    destruct (recover cfg collection msg s1) as [[cfg'|e] s2]; cbn [snd] in *; [|lia].
    destruct (nocreate_counts cfg' connector s2) as (Hrec2 & _). lia.
  - unfold mbind, M_bind.
    destruct (recover cfg collection msg s1) as [[cfg'|e] s2]; cbn [snd] in *; [|lia].
    destruct (nocreate_counts cfg' connector s2) as (_ & Hcon2). lia.
  - intros rest dumped Hno Hdump.
    assert (Hdecl : recover cfg collection msg s1
                    = (Raise (UserError (unable_to_create_message py_repr collection
                                           storage_name) []),
                       Session b rest
                         (FConfirm "Should vdirsyncer attempt to create it?" No
                          :: FLog (LogRecord WARNING
                                     (Msg (collection_not_found_warning msg dumped
                                             (py_str py_repr storage_name))))
                          :: FRecovery :: ftrace s1))).
    { unfold s1, handle_collection_not_found. run_factory. cbn [remote stdin ftrace].
      fold collection. rewrite Hdump. cbn [remote stdin ftrace]. rewrite Hno. reflexivity. }
    rewrite (bind_Raise _ _ _ _ _ Hdecl). cbn [fst snd].
    split; [reflexivity|]. split; [reflexivity|].
    unfold unable_to_create_message. split; find_substring.
  - intros cfg' s2 cls' kw' msg' repr' b' Hok Hcall' Hfail'.
    rewrite (bind_Ok _ _ _ _ _ Hok).
    unfold storage_instance_from_config_nocreate.
    rewrite (factory_body_reaches_call _ _ _ _ _ _ _ Hcall'), Hfail'. reflexivity.
Qed.

End FactoryFacts.

(** The theorem on a configuration without [path] and with the unknown
    name [colour]: the [TypeError] of the constructor becomes a
    [UserError] that lists both problems. *)
Lemma construction_error_translation_witness :
  fst (demo_factory cfg_no_path true None (demo_session []))
  = Raise (UserError "Failed to initialize local"
             ["filesystem storage requires the parameters: path";
              "filesystem storage doesn't take the parameters: colour"]).
Proof.
  destruct (construction_error_translation config (list string) demo_construct
              demo_create_collection demo_init_args (fun _ => false) (fun _ => false)
              demo_repr Json.dumps cfg_no_path
              [("instance_name", PStr "local"); ("colour", PStr "red")] true None
              FilesystemStorage (demo_session []) demo_missing_path []
              ltac:(vm_compute; reflexivity) ltac:(vm_compute; reflexivity)
              ltac:(reflexivity))
    as (r & Hrun & _ & _ & Huser).
  unfold demo_factory. rewrite Hrun. cbn [fst]. f_equal.
  apply (Huser ltac:(vm_compute; reflexivity) ltac:(vm_compute; discriminate) (PStr "local")).
  vm_compute. reflexivity.
Defined.

(** C1 as stated fails: the [ValueError] that the constructor raises on
    an empty [path] reaches the caller as it is, whether [create] is set
    or not. *)
Lemma construction_error_claim_fails :
  fst (demo_factory cfg_empty_path true None (demo_session [])) = Raise demo_empty_path /\
  fst (demo_factory cfg_empty_path false None (demo_session [])) = Raise demo_empty_path.
Proof. split; vm_compute; reflexivity. Qed.

(** The theorem on a configuration whose collection [work] does not
    exist, with a user who answers no: one entry into the recovery flow,
    one constructor call, and the [UserError] that names [work] and
    [local]. *)
Lemma recovery_runs_once_witness :
  fst (demo_factory cfg_work true None (demo_session [No]))
  = Raise (UserError (unable_to_create_message demo_repr (PStr "work") (PStr "local")) []) /\
  recoveries (snd (demo_factory cfg_work true None (demo_session [No]))) = 1%nat /\
  constructions (snd (demo_factory cfg_work true None (demo_session [No]))) = 1%nat.
Proof.
  destruct (recovery_runs_once config (list string) demo_construct demo_create_collection
              demo_init_args (fun _ => false) (fun _ => false) demo_repr Json.dumps
              cfg_work
              [("instance_name", PStr "local"); ("path", PStr "/cal");
               ("collection", PStr "work")]
              None FilesystemStorage (demo_session [No])
              "no collection work" "CollectionNotFound('no collection work')" []
              ltac:(vm_compute; reflexivity) ltac:(vm_compute; reflexivity))
    as (_ & Hrec & _ & Hdeclined & _).
  destruct (Hdeclined [] (dq +:+ "work" +:+ dq) ltac:(reflexivity)
              ltac:(vm_compute; reflexivity)) as (Hres & Hcon & _).
  split; [exact Hres|]. split; [exact Hrec|exact Hcon].
Defined.

(** With a user who answers yes the collection is created and the second
    constructor call succeeds. *)
Example recovery_creates_collection :
  fst (demo_factory cfg_work true None (demo_session [Yes]))
  = Ok [("instance_name", PStr "local"); ("path", PStr "/cal"); ("collection", PStr "work")] /\
  recoveries (snd (demo_factory cfg_work true None (demo_session [Yes]))) = 1%nat /\
  constructions (snd (demo_factory cfg_work true None (demo_session [Yes]))) = 2%nat /\
  remote (snd (demo_factory cfg_work true None (demo_session [Yes]))) = ["work"].
Proof. repeat split; vm_compute; reflexivity. Qed.

(** * Further properties *)

Lemma prefix_self (x : string) : String.prefix x x = true.
Proof.
  induction x as [|c x IH]; simpl; [reflexivity|].
  destruct (ascii_dec c c) as [_|Hne]; [exact IH|contradiction].
Qed.

Lemma contains_self (x : string) : contains x x = true.
Proof. rewrite contains_unfold, prefix_self. reflexivity. Qed.

Ltac find_in_text :=
  first [apply contains_self | apply contains_here | apply contains_later; find_in_text].

Ltac split_match :=
  match goal with
  | |- context [match ?x with _ => _ end] => destruct x eqn:?
  end.

Ltac run_session :=
  unfold call_constructor, call_create_collection, click_confirm, flog, key_error,
    type_error, value_error in *;
  unfold femit, raise, try_except, mbind, M_bind, mret, M_ret in *.

(** ** The storage index *)

Section StorageIndexFacts.

Variable Class : Type.
Variable class_storage_name : Class -> string.

(** X1: a lookup that returns a class has stored it: every later lookup
    of the name returns the same class and leaves the index as it is,
    without an import, whatever importing would give by then. *)
Theorem index_lookup_is_cached (import_attr import_later : string -> string -> outcome Class)
    (name : string) (st st1 : index_state Class) (cls : Class) :
  index_getitem class_storage_name import_attr name st = (Ok cls, st1) ->
  index_getitem class_storage_name import_later name st1 = (Ok cls, st1) /\
  (length (imports st1) <= S (length (imports st)))%nat.
Proof.
  unfold index_getitem.
  destruct (storages st !! name) as [[item|rv]|] eqn:Hname; [| |discriminate].
  - destruct (rsplit_dot item) as [[modname clsname]|]; [|discriminate].
    destruct (import_attr modname clsname) as [rv|e]; [|discriminate].
    destruct (String.eqb (class_storage_name rv) name); [|discriminate].
    intros [= <- <-]. cbn [storages imports]. rewrite lookup_insert_eq.
    split; [reflexivity|]. simpl. lia.
  - intros [= <- <-]. rewrite Hname. split; [reflexivity|lia].
Qed.

(** X2: the class is stored before its [storage_name] is checked.  When
    the imported class reports another name, the lookup raises an
    [AssertionError], and the next lookup of the same name returns that
    class all the same. *)
Theorem index_keeps_class_after_failed_assertion
    (import_attr import_later : string -> string -> outcome Class)
    (name item modname clsname : string) (st : index_state Class) (rv : Class) :
  storages st !! name = Some (Locator item) ->
  rsplit_dot item = Some (modname, clsname) ->
  import_attr modname clsname = Ok rv ->
  class_storage_name rv <> name ->
  exists st1,
    index_getitem class_storage_name import_attr name st
    = (Raise (PyExc AssertionError EmptyString "AssertionError()"), st1) /\
    index_getitem class_storage_name import_later name st1 = (Ok rv, st1).
Proof.
  intros Hname Hsplit Himport Hne. unfold index_getitem.
  rewrite Hname, Hsplit, Himport.
  destruct (String.eqb_spec (class_storage_name rv) name) as [Heq|_]; [contradiction|].
  eexists. split; [reflexivity|]. cbn [storages]. rewrite lookup_insert_eq. reflexivity.
Qed.

(** X3: a lookup never adds a name to the index and never drops one, and
    a name that was resolved stays resolved to the same class, however
    the lookup ends. *)
Theorem index_names_are_stable (import_attr : string -> string -> outcome Class)
    (name : string) (st : index_state Class) :
  forall k,
    (storages (snd (index_getitem class_storage_name import_attr name st)) !! k = None <->
     storages st !! k = None) /\
    (forall cls, storages st !! k = Some (Resolved cls) ->
       storages (snd (index_getitem class_storage_name import_attr name st)) !! k
       = Some (Resolved cls)).
Proof.
  intros k. unfold index_getitem.
  destruct (storages st !! name) as [[item|rv]|] eqn:Hname; cbn [snd];
    try (split; [reflexivity|intros cls H; exact H]).
  destruct (rsplit_dot item) as [[modname clsname]|]; cbn [snd];
    try (split; [reflexivity|intros cls H; exact H]).
  destruct (import_attr modname clsname) as [rv|e]; cbn [snd storages];
    try (split; [reflexivity|intros cls H; exact H]).
  assert (Hst : forall b : bool,
            storages (snd (if b then (Ok rv, IndexState (<[name := Resolved rv]> (storages st))
                                               ((modname, clsname) :: imports st))
                           else (Raise (PyExc AssertionError EmptyString "AssertionError()"),
                                 IndexState (<[name := Resolved rv]> (storages st))
                                   ((modname, clsname) :: imports st))))
            = <[name := Resolved rv]> (storages st)) by (intros []; reflexivity).
  rewrite Hst. destruct (decide (name = k)) as [->|Hne].
  - rewrite lookup_insert_eq, Hname. split; [split; discriminate|discriminate].
  - rewrite lookup_insert_ne by exact Hne. split; [reflexivity|intros cls H; exact H].
Qed.

End StorageIndexFacts.

(** The first theorem on the fresh index: [caldav] is imported once. *)
Lemma index_lookup_is_cached_witness :
  exists st1,
    index_getitem storage_name_of standard_import "caldav" initial_index
    = (Ok CalDAVStorage, st1) /\
    index_getitem storage_name_of wrong_import "caldav" st1 = (Ok CalDAVStorage, st1) /\
    imports st1 = [("vdirsyncer.storage.dav", "CalDAVStorage")].
Proof.
  exists (snd (index_getitem storage_name_of standard_import "caldav" initial_index)).
  split; [vm_compute; reflexivity|]. split; [|vm_compute; reflexivity].
  apply (index_lookup_is_cached storage_class storage_name_of standard_import wrong_import
           "caldav" initial_index _ CalDAVStorage).
  vm_compute. reflexivity.
Defined.

(** The second theorem on an import that finds the [http] class under
    every name. *)
Lemma index_keeps_class_after_failed_assertion_witness :
  exists st1,
    index_getitem storage_name_of wrong_import "caldav" initial_index
    = (Raise (PyExc AssertionError EmptyString "AssertionError()"), st1) /\
    index_getitem storage_name_of standard_import "caldav" st1 = (Ok HttpStorage, st1).
Proof.
  apply (index_keeps_class_after_failed_assertion storage_class storage_name_of
           wrong_import standard_import "caldav" "vdirsyncer.storage.dav.CalDAVStorage"
           "vdirsyncer.storage.dav" "CalDAVStorage" initial_index HttpStorage).
  - vm_compute. reflexivity.
  - vm_compute. reflexivity.
  - reflexivity.
  - discriminate.
Defined.

(** X4: on the fresh index, with every class found in its module, the
    lookup of a name gives the class [storage_names] gives, whose
    [storage_name] is that name, and a [KeyError] for every other
    name. *)
Theorem index_agrees_with_storage_names (name : string) :
  fst (index_getitem storage_name_of standard_import name initial_index)
  = match storage_names name with
    | Some cls => Ok cls
    | None => Raise (PyExc KeyError ("'" +:+ name +:+ "'") ("KeyError('" +:+ name +:+ "')"))
    end /\
  (forall cls, storage_names name = Some cls -> storage_name_of cls = name).
Proof.
  unfold storage_names.
  destruct (String.eqb_spec name "caldav") as [->|H1]; [split; [vm_compute; reflexivity|intros ? [= <-]; reflexivity]|].
  destruct (String.eqb_spec name "carddav") as [->|H2]; [split; [vm_compute; reflexivity|intros ? [= <-]; reflexivity]|].
  destruct (String.eqb_spec name "filesystem") as [->|H3]; [split; [vm_compute; reflexivity|intros ? [= <-]; reflexivity]|].
  destruct (String.eqb_spec name "http") as [->|H4]; [split; [vm_compute; reflexivity|intros ? [= <-]; reflexivity]|].
  destruct (String.eqb_spec name "singlefile") as [->|H5]; [split; [vm_compute; reflexivity|intros ? [= <-]; reflexivity]|].
  destruct (String.eqb_spec name "google_calendar") as [->|H6]; [split; [vm_compute; reflexivity|intros ? [= <-]; reflexivity]|].
  destruct (String.eqb_spec name "google_contacts") as [->|H7]; [split; [vm_compute; reflexivity|intros ? [= <-]; reflexivity]|].
  split; [|discriminate].
  unfold index_getitem, initial_index, initial_storages. cbn [storages].
  rewrite !lookup_insert_ne by congruence. rewrite lookup_empty. reflexivity.
Qed.

(** ** Status names *)

Lemma slash_free_prefix (p p' c c' : string) :
  no_slash p = true -> no_slash p' = true ->
  p +:+ "/" +:+ c = p' +:+ "/" +:+ c' -> p = p' /\ c = c'.
Proof.
  revert p'. induction p as [|a p IH]; intros [|a' p'] Hp Hp' Heq.
  - change (String "/" c = String "/" c') in Heq. injection Heq as <-. split; reflexivity.
  - exfalso. change (String "/" c = String a' (p' +:+ "/" +:+ c')) in Heq.
    injection Heq as <- _. discriminate Hp'.
  - exfalso. change (String a (p +:+ "/" +:+ c) = String "/" c') in Heq.
    injection Heq as -> _. discriminate Hp.
  - change (String a (p +:+ "/" +:+ c) = String a' (p' +:+ "/" +:+ c')) in Heq.
    injection Heq as <- Heq.
    simpl in Hp, Hp'. apply andb_true_iff in Hp as (_ & Hp).
    apply andb_true_iff in Hp' as (_ & Hp').
    destruct (IH p' Hp Hp' Heq) as (-> & ->). split; reflexivity.
Qed.

Lemma slash_free_has_no_slash (p p' c' : string) :
  no_slash p = true -> p <> p' +:+ "/" +:+ c'.
Proof.
  revert p'. induction p as [|a p IH]; intros [|a' p'] Hp Heq.
  - discriminate Heq.
  - discriminate Heq.
  - change (String a p = String "/" c') in Heq. injection Heq as -> _. discriminate Hp.
  - change (String a p = String a' (p' +:+ "/" +:+ c')) in Heq. injection Heq as _ Heq.
    simpl in Hp. apply andb_true_iff in Hp as (_ & Hp). exact (IH p' Hp Heq).
Qed.

(** X5: on pair names without a slash, [get_status_name] tells every two
    statuses apart: equal names come from the same pair and the same
    collection. *)
Theorem get_status_name_injective (pair pair' : string) (collection collection' : option string) :
  no_slash pair = true ->
  no_slash pair' = true ->
  get_status_name pair collection = get_status_name pair' collection' ->
  pair = pair' /\ collection = collection'.
Proof.
  intros Hp Hp'. unfold get_status_name.
  destruct collection as [c|], collection' as [c'|]; intros Heq.
  - destruct (slash_free_prefix _ _ _ _ Hp Hp' Heq) as (-> & ->). split; reflexivity.
  - exfalso. symmetry in Heq. exact (slash_free_has_no_slash _ _ _ Hp' Heq).
  - exfalso. exact (slash_free_has_no_slash _ _ _ Hp Heq).
  - split; [exact Heq|reflexivity].
Qed.

(** The theorem on two spellings of one name; and what a slash in the
    pair name does: the pair [a/b] and the collection [b] of the pair [a]
    share a status name. *)
Lemma get_status_name_injective_witness :
  ("contacts" = "contacts" /\ Some "work" = Some "work") /\
  get_status_name "a/b" None = get_status_name "a" (Some "b").
Proof.
  split; [|reflexivity].
  apply (get_status_name_injective "contacts" "contacts" (Some "work") (Some "work"));
    reflexivity.
Defined.

(** ** PermissionGuard, further *)

(** [assert_permissions] with the trace: a correction is one warning
    followed by one [chmod]; without a correction nothing happens. *)
Lemma assert_permissions_trace (w : world) (path : string) (wanted mode : Z) :
  mode_at w path = Some mode ->
  exists w',
    assert_permissions path wanted w = (Ok tt, w') /\
    (Z.land mode 511 > wanted ->
       mode_at w' path = Some (Z.land wanted 4095) /\
       trace w' = EvChmod path wanted
                  :: EvLog (LogRecord WARNING
                       (Msg ("Correcting permissions of " +:+ path +:+ " from " +:+
                             format_oct (Z.land mode 511) +:+ " to " +:+ format_oct wanted)))
                  :: trace w) /\
    (Z.land mode 511 <= wanted -> w' = w).
Proof.
  unfold mode_at, assert_permissions. run_prims.
  destruct w as [fs tr]; simpl.
  destruct (fs !! path) as [[c perm|perm]|] eqn:Hp; intros [= ->];
    rewrite st_mode_permission_bits by reflexivity;
    destruct (Z.gtb_spec (Z.land mode 511) wanted) as [Hgt|Hle]; simpl;
    rewrite ?Hp; simpl; eexists; (split; [reflexivity|]); split;
    try (intros Hh; exfalso; lia); try (intros _; reflexivity);
    intros _; simpl; rewrite lookup_insert_eq; split; reflexivity.
Qed.

(** X6: on a path that exists, [assert_permissions] warns exactly when it
    corrects: either the mode is not above the ceiling and the world
    stays as it is, or the trace gains one warning and then one [chmod]
    to the ceiling, and nothing else. *)
Theorem assert_permissions_warns_when_it_corrects (w : world) (path : string)
    (wanted mode : Z) :
  mode_at w path = Some mode ->
  exists w',
    assert_permissions path wanted w = (Ok tt, w') /\
    ((Z.land mode 511 <= wanted /\ w' = w) \/
     (Z.land mode 511 > wanted /\
      exists text,
        trace w' = EvChmod path wanted :: EvLog (LogRecord WARNING (Msg text)) :: trace w /\
        contains path text = true /\
        contains (format_oct wanted) text = true)).
Proof.
  intros Hm. destruct (assert_permissions_trace w path wanted mode Hm)
    as (w' & Hrun & Hgt & Hle).
  exists w'. split; [exact Hrun|].
  destruct (Z.gtb_spec (Z.land mode 511) wanted) as [H|H].
  - right. split; [lia|]. destruct (Hgt ltac:(lia)) as (_ & Htrace).
    eexists. split; [exact Htrace|]. split; find_in_text.
  - left. split; [exact H|]. exact (Hle H).
Qed.

(** The theorem on mode [0644] and ceiling [0600]: one warning, one
    [chmod]. *)
Lemma assert_permissions_warns_when_it_corrects_witness :
  exists w',
    assert_permissions "status/pair.items" 384 (one_file "status/pair.items" "{}" 420)
    = (Ok tt, w') /\
    length (trace w') = 2%nat.
Proof.
  destruct (assert_permissions_warns_when_it_corrects (one_file "status/pair.items" "{}" 420)
              "status/pair.items" 384 420 ltac:(vm_compute; reflexivity))
    as (w' & Hrun & [(Hle & _) | (_ & text & Htrace & _)]).
  - exfalso. vm_compute in Hle. apply Hle. reflexivity.
  - exists w'. split; [exact Hrun|]. rewrite Htrace. reflexivity.
Defined.

(** X7: for a ceiling from [0] to [0777], a second [assert_permissions]
    on the same path finds nothing to correct: it returns and leaves the
    world as the first call left it. *)
Theorem assert_permissions_settles (w : world) (path : string) (wanted mode : Z) :
  mode_at w path = Some mode ->
  0 <= wanted < 512 ->
  exists w',
    assert_permissions path wanted w = (Ok tt, w') /\
    assert_permissions path wanted w' = (Ok tt, w').
Proof.
  intros Hm Hw. destruct (assert_permissions_trace w path wanted mode Hm)
    as (w' & Hrun & Hgt & Hle).
  exists w'. split; [exact Hrun|].
  assert (Hlow : Z.land wanted 511 = wanted).
  { change 511 with (Z.ones 9). rewrite Z.land_ones by lia. apply Z.mod_small. simpl. lia. }
  destruct (Z.gtb_spec (Z.land mode 511) wanted) as [H|H].
  - destruct (Hgt ltac:(lia)) as (Hmode & _).
    rewrite twelve_bits in Hmode by lia.
    destruct (assert_permissions_trace w' path wanted wanted Hmode) as (w'' & Hrun' & _ & Hle').
    rewrite Hrun'. f_equal. apply Hle'. rewrite Hlow. lia.
  - rewrite (Hle H). rewrite Hrun. f_equal. exact (Hle H).
Qed.

(** The theorem on mode [0644] and ceiling [0600]. *)
Lemma assert_permissions_settles_witness :
  exists w',
    assert_permissions "status/pair.items" 384 (one_file "status/pair.items" "{}" 420)
    = (Ok tt, w') /\
    assert_permissions "status/pair.items" 384 w' = (Ok tt, w').
Proof.
  apply (assert_permissions_settles (one_file "status/pair.items" "{}" 420)
           "status/pair.items" 384 420).
  - vm_compute. reflexivity.
  - lia.
Defined.

Lemma above_0600_has_both_owner_bits (p : Z) : 384 <= p < 512 -> Z.land 384 p = 384.
Proof.
  intros Hp.
  assert (Hall : forallb (fun q => Z.eqb (Z.land 384 q) 384) (z_range 384 128) = true)
    by (vm_compute; reflexivity).
  rewrite forallb_forall in Hall.
  apply Z.eqb_eq. apply Hall. unfold z_range. apply in_map_iff.
  exists (Z.to_nat (p - 384)). split; [lia|]. apply in_seq. lia.
Qed.

(** X8: with the ceiling of the status files, [0600], a correction only
    takes permissions away: every bit of the mode after the call was a
    bit of the mode before it. *)
Theorem status_permissions_never_grant (w : world) (path : string) (mode : Z) :
  mode_at w path = Some mode ->
  exists w' mode',
    assert_permissions path STATUS_PERMISSIONS w = (Ok tt, w') /\
    mode_at w' path = Some mode' /\
    Z.land mode' mode = mode'.
Proof.
  intros Hm. destruct (assert_permissions_trace w path STATUS_PERMISSIONS mode Hm)
    as (w' & Hrun & Hgt & Hle).
  destruct (Z.gtb_spec (Z.land mode 511) STATUS_PERMISSIONS) as [H|H].
  - destruct (Hgt ltac:(lia)) as (Hmode & _).
    exists w', 384. split; [exact Hrun|]. split; [exact Hmode|].
    assert (Hbound : 0 <= Z.land mode 511 < 512).
    { change 511 with (Z.ones 9). rewrite Z.land_ones by lia. apply Z.mod_pos_bound. reflexivity. }
    assert (Heq : Z.land 384 mode = Z.land 384 (Z.land mode 511)).
    { rewrite (Z.land_comm mode 511), Z.land_assoc. reflexivity. }
    rewrite Heq. apply above_0600_has_both_owner_bits.
    unfold STATUS_PERMISSIONS in H. lia.
  - exists w', mode. split; [exact Hrun|]. rewrite (Hle H). split; [exact Hm|].
    apply Z.land_diag.
Qed.

(** The theorem on mode [0755]: the file ends at [0600]. *)
Lemma status_permissions_never_grant_witness :
  exists w' mode',
    assert_permissions "status/pair.items" STATUS_PERMISSIONS
      (one_file "status/pair.items" "{}" 493) = (Ok tt, w') /\
    mode_at w' "status/pair.items" = Some mode' /\
    Z.land mode' 493 = mode'.
Proof.
  apply (status_permissions_never_grant (one_file "status/pair.items" "{}" 493)
           "status/pair.items" 493).
  vm_compute. reflexivity.
Defined.

(** ** The status directory *)

Lemma append_inj_l (a x y : string) : a +:+ x = a +:+ y -> x = y.
Proof.
  induction a as [|c a IH]; intros H; [exact H|].
  change (String c (a +:+ x) = String c (a +:+ y)) in H. injection H as H. exact (IH H).
Qed.

Lemma no_slash_upto_last_slash (p : string) :
  no_slash p = true -> upto_last_slash p = EmptyString.
Proof.
  induction p as [|c p IH]; [reflexivity|]. simpl. intros H.
  apply andb_true_iff in H as (Hc & Hp). rewrite (IH Hp).
  destruct (is_slash c); [discriminate|reflexivity].
Qed.

Lemma no_slash_dirname (p : string) : no_slash p = true -> os_path_dirname p = EmptyString.
Proof.
  intros H. unfold os_path_dirname. rewrite (no_slash_upto_last_slash p H). reflexivity.
Qed.

Section StatusDirectoryFacts.

Variable expand_path : string -> string.
Variable umask : Z.
Variable atomic_write_mode : Z.
Variable json_loads : string -> option pyval.
Variable json_dumps : pyval -> option string.

(** [prepare_status_path] case by case. *)
Lemma prepare_status_path_run (path : string) (w : world) :
  let d := os_path_dirname path in
  prepare_status_path umask path w =
  if negb (truthy d) then (Raise (PyExc (OSError ENOENT) d ("OSError(" +:+ d +:+ ")")), w)
  else if all_slashes d then (Ok tt, w)
  else match files w !! d with
       | Some _ => (Ok tt, w)
       | None =>
           if ancestor_is_file w d
           then (Raise (PyExc (OSError ENOTDIR) d ("OSError(" +:+ d +:+ ")")), w)
           else (Ok tt,
                 World (<[d := Dir (Z.land STATUS_DIR_PERMISSIONS (Z.lnot umask))]>
                          (fold_right
                             (fun a m => match m !! a with
                                         | None => <[a := Dir (Z.land 511 (Z.lnot umask))]> m
                                         | Some _ => m
                                         end) (files w) (ancestors (String.length d) d)))
                   (EvMakedirs d :: trace w))
       end.
Proof.
  cbv zeta. unfold prepare_status_path, os_makedirs, ancestor_is_file. run_prims.
  destruct w as [fs tr]; cbn [files trace].
  destruct (truthy (os_path_dirname path)); cbn [negb]; [|reflexivity].
  destruct (all_slashes (os_path_dirname path)); [reflexivity|].
  destruct (fs !! os_path_dirname path); [reflexivity|].
  destruct (existsb _ _); reflexivity.
Qed.

(** X9: when [prepare_status_path] returns, the directory of the path is
    the root or an entry of the file system, every entry that was there
    is still there unchanged, and a second call returns without changing
    anything. *)
Theorem prepare_status_path_settles (path : string) (w w1 : world) :
  prepare_status_path umask path w = (Ok tt, w1) ->
  prepare_status_path umask path w1 = (Ok tt, w1) /\
  (forall k n, files w !! k = Some n -> files w1 !! k = Some n) /\
  (all_slashes (os_path_dirname path) = true \/
   exists n, files w1 !! os_path_dirname path = Some n).
Proof.
  rewrite !prepare_status_path_run. cbv zeta.
  set (d := os_path_dirname path).
  destruct (truthy d); cbn [negb]; [|discriminate].
  destruct (all_slashes d) eqn:Hroot.
  - intros [= <-]. split; [reflexivity|]. split; [intros k n H; exact H|left; reflexivity].
  - destruct (files w !! d) as [n|] eqn:Hd.
    + intros [= <-]. rewrite Hd. split; [reflexivity|].
      split; [intros k n' H; exact H|right; exists n; reflexivity].
    + destruct (ancestor_is_file w d); [discriminate|]. intros [= <-]. cbn [files].
      rewrite lookup_insert_eq. split; [reflexivity|]. split.
      * intros k n Hk. rewrite lookup_insert_ne by congruence.
        apply fold_missing_dirs_lookup. exact Hk.
      * right. eexists. reflexivity.
Qed.

(** X10: when the directory of the path is missing and no ancestor of it
    is a regular file, [prepare_status_path] makes it, with the mode
    [0700] less the umask. *)
Theorem prepare_status_path_makes_private_directory (path : string) (w : world) :
  truthy (os_path_dirname path) = true ->
  all_slashes (os_path_dirname path) = false ->
  files w !! os_path_dirname path = None ->
  ancestor_is_file w (os_path_dirname path) = false ->
  exists w1,
    prepare_status_path umask path w = (Ok tt, w1) /\
    files w1 !! os_path_dirname path = Some (Dir (Z.land 448 (Z.lnot umask))) /\
    trace w1 = EvMakedirs (os_path_dirname path) :: trace w.
Proof.
  intros Ht Hr Hd Ha. rewrite prepare_status_path_run. cbv zeta.
  rewrite Ht, Hr, Hd, Ha. cbn [negb]. eexists. split; [reflexivity|].
  cbn [files trace]. rewrite lookup_insert_eq. split; reflexivity.
Qed.

(** X11: a status path without a directory part cannot be saved: the
    directory to make has the empty name, [os.makedirs] fails with
    [ENOENT], which is not the error [prepare_status_path] swallows, and
    [save_status] raises it with nothing written. *)
Theorem save_status_needs_a_directory (w : world) (base_path pair data_type : string)
    (data : list (pyval * pyval)) (collection : option string) :
  no_slash (unsuffixed_path expand_path base_path pair collection +:+ "." +:+ data_type) = true ->
  save_status expand_path umask atomic_write_mode json_dumps
    base_path pair data_type data collection w
  = (Raise (PyExc (OSError ENOENT) EmptyString "OSError()"), w).
Proof.
  intros Hno. unfold save_status. fold (unsuffixed_path expand_path base_path pair collection).
  assert (Hprep : prepare_status_path umask
                    (unsuffixed_path expand_path base_path pair collection +:+ "." +:+ data_type) w
                  = (Raise (PyExc (OSError ENOENT) EmptyString "OSError()"), w)).
  { rewrite prepare_status_path_run. cbv zeta. rewrite (no_slash_dirname _ Hno). reflexivity. }
  rewrite (bind_Raise _ _ _ _ _ Hprep). reflexivity.
Qed.

End StatusDirectoryFacts.

(** The theorem on an empty world: the directory [status] is made, and
    the second call finds it. *)
Lemma prepare_status_path_settles_witness :
  prepare_status_path 18 "status/pair.items"
    (snd (prepare_status_path 18 "status/pair.items" empty_world))
  = (Ok tt, snd (prepare_status_path 18 "status/pair.items" empty_world)) /\
  mode_at (snd (prepare_status_path 18 "status/pair.items" empty_world)) "status" = Some 448.
Proof.
  destruct (prepare_status_path_settles 18 "status/pair.items" empty_world
              (snd (prepare_status_path 18 "status/pair.items" empty_world))
              ltac:(vm_compute; reflexivity)) as (Hagain & _).
  split; [exact Hagain|]. vm_compute. reflexivity.
Defined.

(** The theorem with the umask [022]: the directory has mode [0700]. *)
Lemma prepare_status_path_makes_private_directory_witness :
  exists w1,
    prepare_status_path 18 "status/pair/coll.items" empty_world = (Ok tt, w1) /\
    files w1 !! "status/pair" = Some (Dir 448).
Proof.
  destruct (prepare_status_path_makes_private_directory 18 "status/pair/coll.items" empty_world
              ltac:(vm_compute; reflexivity) ltac:(vm_compute; reflexivity)
              ltac:(vm_compute; reflexivity) ltac:(vm_compute; reflexivity))
    as (w1 & Hrun & Hdir & _).
  exists w1. split; [exact Hrun|exact Hdir].
Defined.

(** The theorem on an empty base path and the pair [contacts]. *)
Lemma save_status_needs_a_directory_witness :
  save_status (fun p => p) 18 384 Json.dumps "" "contacts" "items" sample_status None
    empty_world
  = (Raise (PyExc (OSError ENOENT) EmptyString "OSError()"), empty_world).
Proof.
  apply (save_status_needs_a_directory (fun p => p) 18 384 Json.dumps empty_world
           "" "contacts" "items" sample_status None).
  vm_compute. reflexivity.
Defined.

(** ** Loading and saving, further *)

Lemma dict_update_state {S : Type} (elems : list pyval) (acc : list (pyval * pyval)) (s : S) :
  snd (dict_update elems acc s) = s.
Proof.
  revert acc. induction elems as [|e r IH]; intros acc; [reflexivity|].
  cbn [dict_update]. destruct (py_iter e) as [[|k [|v [|x l]]]|]; try reflexivity.
  destruct (hashable k); [apply IH|reflexivity].
Qed.

Lemma py_dict_state {S : Type} (v : pyval) (s : S) : snd (py_dict v s) = s.
Proof.
  unfold py_dict. destruct v; try reflexivity; cbn [py_iter]; apply dict_update_state.
Qed.

Section LoadSaveFacts.

Variable expand_path : string -> string.
Variable umask : Z.
Variable atomic_write_mode : Z.
Variable json_loads : string -> option pyval.
Variable json_dumps : pyval -> option string.

(** Decoding the content of a file changes nothing. *)
Lemma decode_state (c : content) (w : world) : snd (decode json_loads c w) = w.
Proof.
  unfold decode, json_load, try_except, value_error, raise.
  unfold mbind, M_bind, mret, M_ret.
  destruct c as [text|rows]; [|reflexivity].
  destruct (json_loads text) as [v|]; [|reflexivity].
  pose proof (py_dict_state v w) as Hs.
  destruct (py_dict v w) as [[d|e] w']; cbn [snd] in Hs; subst w'; [reflexivity|].
  destruct (is_ValueError e); reflexivity.
Qed.

(** What a successful [get_status_path] returns and leaves. *)
Lemma get_status_path_Ok (w w0 : world) (base_path pair p : string)
    (collection data_type : option string) :
  get_status_path expand_path base_path pair collection data_type w = (Ok p, w0) ->
  exists dt,
    data_type = Some dt /\
    p = unsuffixed_path expand_path base_path pair collection +:+ "." +:+ dt /\
    (content_at w0 (unsuffixed_path expand_path base_path pair collection) = None \/
     dt <> "items").
Proof.
  destruct data_type as [dt|]; [|discriminate]. rewrite get_status_path_run. cbv zeta.
  set (u := unsuffixed_path expand_path base_path pair collection).
  intros H. exists dt. split; [reflexivity|]. unfold content_at.
  destruct (files w !! u) as [[c perm|perm]|] eqn:Hu.
  - destruct (String.eqb_spec dt "items") as [->|Hne].
    + destruct (files w !! (u +:+ ".items")) as [[c' q|q]|]; try discriminate;
        injection H as <- <-; (split; [reflexivity|]); left; cbn [files];
        rewrite lookup_insert_ne by (apply append_ne_self; reflexivity);
        rewrite lookup_delete_eq; reflexivity.
    + injection H as <- <-. split; [reflexivity|]. right. exact Hne.
  - injection H as <- <-. split; [reflexivity|]. left. rewrite Hu. reflexivity.
  - injection H as <- <-. split; [reflexivity|]. left. rewrite Hu. reflexivity.
Qed.

(** Without a regular file at the unsuffixed path, or for another data
    type than [items], [get_status_path] only computes. *)
Lemma get_status_path_quiet (w : world) (base_path pair dt : string)
    (collection : option string) :
  content_at w (unsuffixed_path expand_path base_path pair collection) = None \/ dt <> "items" ->
  get_status_path expand_path base_path pair collection (Some dt) w
  = (Ok (unsuffixed_path expand_path base_path pair collection +:+ "." +:+ dt), w).
Proof.
  rewrite get_status_path_run. cbv zeta. unfold content_at.
  set (u := unsuffixed_path expand_path base_path pair collection).
  destruct (files w !! u) as [[c perm|perm]|]; try reflexivity.
  intros [H|H]; [discriminate|].
  destruct (String.eqb_spec dt "items"); [contradiction|reflexivity].
Qed.

(** X12: [load_status] corrects the mode of the status file by the
    numeric test of [assert_permissions].  When the file at the resolved
    path has low mode bits that are above [0600] as a number, its mode is
    exactly [0600] after the call; when they are at most [0600] as a
    number, as [0477] is, the mode is left as it is.  In both cases the
    content is what it was, whether it could be decoded or not. *)
Theorem load_status_corrects_permissions (w w0 : world) (base_path pair p : string)
    (collection data_type : option string) (c : content) (perm : Z) :
  get_status_path expand_path base_path pair collection data_type w = (Ok p, w0) ->
  files w0 !! p = Some (File c perm) ->
  mode_at (snd (load_status expand_path json_loads base_path pair collection data_type w)) p
  = Some (if Z.gtb (Z.land perm 511) 384 then 384 else perm) /\
  content_at (snd (load_status expand_path json_loads base_path pair collection data_type w)) p
  = Some c.
Proof.
  intros Hpath Hfile.
  destruct (load_status_run expand_path json_loads w w0 base_path pair p collection data_type
              Hpath) as (_ & Hread).
  destruct (Hread c perm Hfile) as (w2 & Hrun & Hperm & Hcontent).
  rewrite Hrun, decode_state.
  destruct (assert_permissions_run w0 p STATUS_PERMISSIONS perm) as (w2' & Hperm' & Hfix & Hle).
  { unfold mode_at. rewrite Hfile. reflexivity. }
  rewrite Hperm in Hperm'. injection Hperm' as <-.
  split; [|exact Hcontent].
  destruct (Z.gtb_spec (Z.land perm 511) 384) as [Hgt|Hngt].
  - destruct (Hfix ltac:(unfold STATUS_PERMISSIONS; lia)) as (Hmode & _). exact Hmode.
  - rewrite (Hle ltac:(unfold STATUS_PERMISSIONS; lia)). unfold mode_at. cbn [files].
    rewrite Hfile. reflexivity.
Qed.

(** X13: [load_status] for the [items] takes over a legacy file: a
    regular file at the unsuffixed path that holds a JSON object is
    renamed to the [.items] path, where no directory is in the way, and
    its mapping is what the call returns. *)
Theorem load_status_takes_over_legacy_file (w : world) (base_path pair text : string)
    (collection : option string) (perm : Z) (d : list (pyval * pyval)) :
  files w !! unsuffixed_path expand_path base_path pair collection
  = Some (File (Bytes text) perm) ->
  is_dir_at w (unsuffixed_path expand_path base_path pair collection +:+ ".items") = false ->
  json_loads text = Some (PDict d) ->
  exists w1,
    load_status expand_path json_loads base_path pair collection (Some "items") w = (Ok d, w1) /\
    files w1 !! unsuffixed_path expand_path base_path pair collection = None /\
    content_at w1 (unsuffixed_path expand_path base_path pair collection +:+ ".items")
    = Some (Bytes text) /\
    renames w1 = S (renames w).
Proof.
  set (u := unsuffixed_path expand_path base_path pair collection).
  intros Hu Hdir Hjson.
  set (w0 := World (<[u +:+ ".items" := File (Bytes text) perm]> (delete u (files w)))
               (EvRename u (u +:+ ".items")
                :: EvLog (LogRecord WARNING
                     (Msg ("Migrating statuses: Renaming " +:+ u +:+ " to " +:+ u +:+ ".items")))
                :: trace w)).
  assert (Hne : u +:+ ".items" <> u) by (apply append_ne_self; reflexivity).
  assert (Hpath : get_status_path expand_path base_path pair collection (Some "items") w
                  = (Ok (u +:+ ".items"), w0)).
  { rewrite get_status_path_run. cbv zeta. fold u. rewrite Hu. unfold is_dir_at in Hdir.
    destruct (files w !! (u +:+ ".items")) as [[c' q|q]|]; try discriminate; reflexivity. }
  assert (Hfile : files w0 !! (u +:+ ".items") = Some (File (Bytes text) perm)).
  { unfold w0. cbn [files]. apply lookup_insert_eq. }
  destruct (load_status_run expand_path json_loads w w0 base_path pair (u +:+ ".items")
              collection (Some "items") Hpath) as (_ & Hread).
  destruct (Hread _ _ Hfile) as (w2 & Hrun & Hperm & Hcontent).
  destruct (assert_permissions_run w0 (u +:+ ".items") STATUS_PERMISSIONS perm)
    as (w2' & Hperm' & Hfix & Hkeep).
  { unfold mode_at. rewrite Hfile. reflexivity. }
  rewrite Hperm in Hperm'. injection Hperm' as <-.
  eexists. split.
  { rewrite Hrun. unfold decode, json_load. rewrite Hjson. reflexivity. }
  cbn [files trace]. split; [|split; [exact Hcontent|]].
  - destruct (Z.gtb_spec (Z.land perm 511) STATUS_PERMISSIONS) as [H|H].
    + destruct (Hfix ltac:(lia)) as (_ & _ & Hother).
      rewrite (Hother u) by congruence. unfold w0. cbn [files].
      rewrite lookup_insert_ne by exact Hne. apply lookup_delete_eq.
    + rewrite (Hkeep H). unfold w0. cbn [files].
      rewrite lookup_insert_ne by exact Hne. apply lookup_delete_eq.
  - destruct (assert_permissions_trace w0 (u +:+ ".items") STATUS_PERMISSIONS perm)
      as (w2' & Hperm' & Hfix' & Hkeep').
    { unfold mode_at. rewrite Hfile. reflexivity. }
    rewrite Hperm in Hperm'. injection Hperm' as <-.
    unfold renames. cbn [trace].
    destruct (Z.gtb_spec (Z.land perm 511) STATUS_PERMISSIONS) as [H|H].
    + destruct (Hfix' ltac:(lia)) as (_ & ->). reflexivity.
    + rewrite (Hkeep' H). reflexivity.
Qed.

(** X14: saving one data type leaves the file of every other data type
    of the same pair and collection with the content it had. *)
Theorem save_status_keeps_other_data_type (w w1 : world)
    (base_path pair data_type other : string) (data : list (pyval * pyval))
    (collection : option string) :
  other <> data_type ->
  save_status expand_path umask atomic_write_mode json_dumps
    base_path pair data_type data collection w = (Ok tt, w1) ->
  content_at w1 (unsuffixed_path expand_path base_path pair collection +:+ "." +:+ other)
  = content_at w (unsuffixed_path expand_path base_path pair collection +:+ "." +:+ other).
Proof.
  intros Hne Hsave.
  destruct (save_status_result expand_path umask atomic_write_mode json_dumps
              w w1 base_path pair data_type data collection Hsave) as (text & _ & _ & Hframe).
  apply Hframe. intros Heq. apply append_inj_l in Heq. apply append_inj_l in Heq.
  contradiction.
Qed.

(** X15: data that cannot be serialised is not saved: [save_status]
    raises, and every regular file has the content it had, the status
    file too ([atomic_write] as modelled: its temporary file is dropped
    when the body raises). *)
Theorem save_status_keeps_old_status_on_failure (w : world)
    (base_path pair data_type : string) (data : list (pyval * pyval))
    (collection : option string) :
  json_dumps (PDict data) = None ->
  (exists e, fst (save_status expand_path umask atomic_write_mode json_dumps
                    base_path pair data_type data collection w) = Raise e) /\
  (forall k, content_at (snd (save_status expand_path umask atomic_write_mode json_dumps
                                base_path pair data_type data collection w)) k
             = content_at w k).
Proof.
  intros Hdump. unfold save_status.
  fold (unsuffixed_path expand_path base_path pair collection).
  set (path := unsuffixed_path expand_path base_path pair collection +:+ "." +:+ data_type).
  pose proof (fun k => prepare_status_path_content umask path k w) as Hprep.
  unfold mbind, M_bind. revert Hprep.
  destruct (prepare_status_path umask path w) as [[[]|e0] w0]; cbn [fst snd]; intros Hprep;
    [|split; [eexists; reflexivity|exact Hprep]].
  unfold atomic_write. run_prims. rewrite Hdump.
  destruct (parent_error (files w0) path); cbn [fst snd];
    (split; [eexists; reflexivity|exact Hprep]).
Qed.

Lemma dict_update_any_state {S T : Type} (elems : list pyval) (acc : list (pyval * pyval))
    (s : S) (t : T) :
  fst (dict_update elems acc s) = fst (dict_update elems acc t).
Proof.
  revert acc. induction elems as [|e r IH]; intros acc; [reflexivity|].
  cbn [dict_update]. destruct (py_iter e) as [[|k [|v [|x l]]]|]; try reflexivity.
  destruct (hashable k); [apply IH|reflexivity].
Qed.

(** The result of decoding does not depend on the world. *)
Lemma decode_any_state (c : content) (w w' : world) :
  fst (decode json_loads c w) = fst (decode json_loads c w').
Proof.
  unfold decode, json_load, try_except, value_error, raise.
  unfold mbind, M_bind, mret, M_ret.
  destruct c as [text|rows]; [|reflexivity].
  destruct (json_loads text) as [v|]; [|reflexivity].
  assert (H : fst (py_dict v w) = fst (py_dict v w')).
  { unfold py_dict. destruct v; try reflexivity; cbn [py_iter]; apply dict_update_any_state. }
  destruct (py_dict v w) as [[d|e] w2], (py_dict v w') as [[d'|e'] w2']; cbn [fst] in H;
    try discriminate; injection H as <-; [reflexivity|].
  destruct (is_ValueError e); reflexivity.
Qed.

(** [assert_permissions] does not turn a directory into a file, nor a
    file into a directory. *)
Lemma assert_permissions_kind (path q : string) (wanted : Z) (w : world) :
  is_dir_at (snd (assert_permissions path wanted w)) q = is_dir_at w q.
Proof.
  unfold assert_permissions, is_dir_at. run_prims. destruct w as [fs tr]; cbn [files trace].
  destruct (fs !! path) as [[c perm|perm]|] eqn:Hp; cbn [snd files]; try reflexivity;
    destruct (Z.gtb _ wanted); cbn [snd files]; try reflexivity;
    rewrite Hp; cbn [snd files];
    (destruct (decide (path = q)) as [->|Hne];
     [rewrite lookup_insert_eq, Hp; reflexivity
     |rewrite lookup_insert_ne by exact Hne; reflexivity]).
Qed.

(** X16: a [load_status] that returned can be repeated: the second call
    returns the same mapping and leaves every file and directory as the
    first call left it. *)
Theorem load_status_repeatable (w w1 : world) (base_path pair : string)
    (collection data_type : option string) (d : list (pyval * pyval)) :
  load_status expand_path json_loads base_path pair collection data_type w = (Ok d, w1) ->
  exists w2,
    load_status expand_path json_loads base_path pair collection data_type w1 = (Ok d, w2) /\
    files w2 = files w1.
Proof.
  intros Hload. pose proof Hload as Hsteps. unfold load_status in Hsteps.
  apply bind_Ok_inv in Hsteps as (p & w0 & Hpath & Hrest).
  destruct (get_status_path_Ok w w0 base_path pair p collection data_type Hpath)
    as (dt & -> & Hp & Hquiet).
  set (u := unsuffixed_path expand_path base_path pair collection) in *.
  assert (Hup : u <> p) by (rewrite Hp; intros H; symmetry in H; revert H;
                            apply append_ne_self; reflexivity).
  destruct (load_status_run expand_path json_loads w w0 base_path pair p collection (Some dt)
              Hpath) as (Habsent & Hread).
  destruct (files w0 !! p) as [[c perm|perm]|] eqn:Hfile.
  - destruct (Hread c perm eq_refl) as (w2 & Hrun & Hperm & Hcontent).
    rewrite Hrun in Hload.
    pose proof (decode_state c (World (files w2) (EvOpen p :: trace w2))) as Hstate.
    rewrite Hload in Hstate. cbn [snd] in Hstate. subst w1.
    destruct (assert_permissions_run w0 p STATUS_PERMISSIONS perm) as (w2' & Hperm' & Hfix & Hkeep).
    { unfold mode_at. rewrite Hfile. reflexivity. }
    rewrite Hperm in Hperm'. injection Hperm' as <-.
    set (w1 := World (files w2) (EvOpen p :: trace w2)) in *.
    assert (Hu1 : content_at w1 u = content_at w0 u).
    { unfold content_at, w1. cbn [files].
      destruct (Z.gtb_spec (Z.land perm 511) STATUS_PERMISSIONS) as [H|H].
      - destruct (Hfix ltac:(lia)) as (_ & _ & Hother). rewrite (Hother u Hup). reflexivity.
      - rewrite (Hkeep H). reflexivity. }
    assert (Hpath1 : get_status_path expand_path base_path pair collection (Some dt) w1
                     = (Ok p, w1)).
    { rewrite Hp. apply get_status_path_quiet. fold u. rewrite Hu1. exact Hquiet. }
    destruct (load_status_run expand_path json_loads w1 w1 base_path pair p collection (Some dt)
                Hpath1) as (_ & Hread1).
    assert (Hmode1 : exists perm1, files w1 !! p = Some (File c perm1) /\
                                   Z.land perm1 511 <= STATUS_PERMISSIONS).
    { unfold w1. cbn [files].
      destruct (Z.gtb_spec (Z.land perm 511) STATUS_PERMISSIONS) as [H|H].
      - destruct (Hfix ltac:(lia)) as (Hmode & _). unfold mode_at, content_at in *.
        destruct (files w2 !! p) as [[c1 perm1|perm1]|]; try discriminate.
        injection Hcontent as ->. injection Hmode as ->.
        exists (Z.land STATUS_PERMISSIONS 4095). split; [reflexivity|]. vm_compute. discriminate.
      - rewrite (Hkeep H), Hfile. exists perm. split; [reflexivity|exact H]. }
    destruct Hmode1 as (perm1 & Hfile1 & Hlow).
    destruct (Hread1 c perm1 Hfile1) as (w3 & Hrun1 & Hperm1 & _).
    destruct (assert_permissions_run w1 p STATUS_PERMISSIONS perm1) as (w3' & Hperm1' & _ & Hkeep1).
    { unfold mode_at. rewrite Hfile1. reflexivity. }
    rewrite Hperm1 in Hperm1'. injection Hperm1' as <-.
    rewrite (Hkeep1 Hlow) in Hrun1.
    exists (World (files w1) (EvOpen p :: trace w1)). split; [|reflexivity].
    rewrite Hrun1.
    pose proof (decode_state c (World (files w1) (EvOpen p :: trace w1))) as Hstate1.
    pose proof (decode_any_state c (World (files w1) (EvOpen p :: trace w1)) w1) as Hres.
    fold w1 in Hload. rewrite Hload in Hres. cbn [fst] in Hres.
    destruct (decode json_loads c (World (files w1) (EvOpen p :: trace w1))) as [r s'].
    cbn [fst snd] in *. subst. reflexivity.
  - exfalso.
    apply bind_Ok_inv in Hrest as (ex & w' & Hex & Hrest).
    unfold os_path_exists, get_files in Hex. unfold mbind, M_bind, mret, M_ret in Hex.
    rewrite Hfile in Hex. injection Hex as <- <-. cbn [negb] in Hrest.
    apply bind_Ok_inv in Hrest as ([] & w2 & Hperm & Hrest).
    apply bind_Ok_inv in Hrest as (f & w3 & Hopen & _).
    pose proof (assert_permissions_kind p p STATUS_PERMISSIONS w0) as Hkind.
    rewrite Hperm in Hkind. cbn [snd] in Hkind. unfold is_dir_at in Hkind.
    rewrite Hfile in Hkind.
    unfold open_read, get_files, os_error, raise in Hopen.
    unfold mbind, M_bind, mret, M_ret in Hopen.
    destruct (files w2 !! p) as [[c2 q|q]|]; discriminate.
  - rewrite (Habsent eq_refl) in Hload. injection Hload as <- <-.
    assert (Hpath0 : get_status_path expand_path base_path pair collection (Some dt) w0
                     = (Ok p, w0)).
    { rewrite Hp. apply get_status_path_quiet. exact Hquiet. }
    destruct (load_status_run expand_path json_loads w0 w0 base_path pair p collection (Some dt)
                Hpath0) as (Habsent0 & _).
    exists w0. split; [apply Habsent0; exact Hfile|reflexivity].
Qed.

End LoadSaveFacts.

(** The theorem on a status file with mode [0644], which becomes [0600],
    and on one with mode [0477], which stays. *)
Lemma load_status_corrects_permissions_witness :
  (mode_at (snd (load_status (fun p => p) Json.loads "status" "pair" None (Some "items")
                   (one_file "status/pair.items" "not json" 420))) "status/pair.items"
   = Some 384 /\
   content_at (snd (load_status (fun p => p) Json.loads "status" "pair" None (Some "items")
                      (one_file "status/pair.items" "not json" 420))) "status/pair.items"
   = Some (Bytes "not json")) /\
  mode_at (snd (load_status (fun p => p) Json.loads "status" "pair" None (Some "items")
                  (one_file "status/pair.items" "not json" 319))) "status/pair.items"
  = Some 319.
Proof.
  split.
  - apply (load_status_corrects_permissions (fun p => p) Json.loads
             (one_file "status/pair.items" "not json" 420)
             (one_file "status/pair.items" "not json" 420)
             "status" "pair" "status/pair.items" None (Some "items") (Bytes "not json") 420).
    + vm_compute. reflexivity.
    + vm_compute. reflexivity.
  - apply (load_status_corrects_permissions (fun p => p) Json.loads
             (one_file "status/pair.items" "not json" 319)
             (one_file "status/pair.items" "not json" 319)
             "status" "pair" "status/pair.items" None (Some "items") (Bytes "not json") 319).
    + vm_compute. reflexivity.
    + vm_compute. reflexivity.
Defined.

(** The theorem on a legacy file [status/pair] that holds the sample
    mapping. *)
Lemma load_status_takes_over_legacy_file_witness :
  exists w1,
    load_status (fun p => p) Json.loads "status" "pair" None (Some "items")
      (one_file "status/pair" sample_text 384) = (Ok sample_status, w1) /\
    files w1 !! "status/pair" = None /\
    content_at w1 "status/pair.items" = Some (Bytes sample_text).
Proof.
  destruct (load_status_takes_over_legacy_file (fun p => p) Json.loads
              (one_file "status/pair" sample_text 384) "status" "pair" sample_text None 384
              sample_status ltac:(vm_compute; reflexivity) ltac:(vm_compute; reflexivity)
              ltac:(vm_compute; reflexivity)) as (w1 & Hrun & Hgone & Hthere & _).
  exists w1. split; [exact Hrun|]. split; [exact Hgone|exact Hthere].
Defined.

(** The theorem on the same legacy file: the second call finds the
    renamed file and returns the same mapping. *)
Lemma load_status_repeatable_witness :
  exists w2,
    load_status (fun p => p) Json.loads "status" "pair" None (Some "items")
      (snd (load_status (fun p => p) Json.loads "status" "pair" None (Some "items")
              (one_file "status/pair" sample_text 420)))
    = (Ok sample_status, w2).
Proof.
  destruct (load_status_repeatable (fun p => p) Json.loads
              (one_file "status/pair" sample_text 420)
              (snd (load_status (fun p => p) Json.loads "status" "pair" None (Some "items")
                      (one_file "status/pair" sample_text 420)))
              "status" "pair" None (Some "items") sample_status
              ltac:(vm_compute; reflexivity)) as (w2 & Hrun & _).
  exists w2. exact Hrun.
Defined.

(** The theorem on the [metadata] saved beside the [items]. *)
Lemma save_status_keeps_other_data_type_witness :
  content_at
    (snd (save_status (fun p => p) 18 384 Json.dumps "status" "pair" "metadata"
            [(PStr "color", PStr "red")] None saved_world))
    "status/pair.items" = Some (Bytes sample_text).
Proof.
  etransitivity.
  - exact (save_status_keeps_other_data_type (fun p => p) 18 384 Json.dumps saved_world
             (snd (save_status (fun p => p) 18 384 Json.dumps "status" "pair" "metadata"
                     [(PStr "color", PStr "red")] None saved_world))
             "status" "pair" "metadata" "items" [(PStr "color", PStr "red")] None
             ltac:(discriminate) ltac:(vm_compute; reflexivity)).
  - vm_compute. reflexivity.
Defined.

(** The theorem on a mapping that holds an object [json.dumps] cannot
    write: the status saved before is still there. *)
Lemma save_status_keeps_old_status_on_failure_witness :
  (exists e, fst (save_status (fun p => p) 18 384 Json.dumps "status" "pair" "items"
                    [(PStr "uid1", PObject "connector")] None
                    saved_world) = Raise e) /\
  content_at (snd (save_status (fun p => p) 18 384 Json.dumps "status" "pair" "items"
                     [(PStr "uid1", PObject "connector")] None
                     saved_world))
    "status/pair.items" = Some (Bytes sample_text).
Proof.
  destruct (save_status_keeps_old_status_on_failure (fun p => p) 18 384 Json.dumps
              saved_world
              "status" "pair" "items" [(PStr "uid1", PObject "connector")] None
              ltac:(vm_compute; reflexivity)) as (Hraise & Hkeep).
  split; [exact Hraise|]. rewrite Hkeep. vm_compute. reflexivity.
Defined.

(** ** The incremental store, further *)

Lemma all_slashes_append (a b : string) :
  all_slashes (a +:+ b) = all_slashes a && all_slashes b.
Proof.
  induction a as [|c a IH]; [reflexivity|].
  change (all_slashes (String c (a +:+ b)) = all_slashes (String c a) && all_slashes b).
  simpl. rewrite IH. apply andb_assoc.
Qed.

Section IncrementalStoreMore.

Variable expand_path : string -> string.
Variable umask : Z.
Variable json_loads : string -> option pyval.

(** The migration of a flat file at the resolved path, step by step. *)
Lemma manage_sync_status_on_legacy (w w0 : world)
    (base_path pair_name collection_name p text : string) (perm : Z)
    (legacy : list (pyval * pyval)) :
  get_status_path expand_path base_path pair_name (Some collection_name) (Some "items") w
  = (Ok p, w0) ->
  files w0 !! p = Some (File (Bytes text) perm) ->
  read1 (Bytes text) = "{" ->
  json_loads text = Some (PDict legacy) ->
  status_dir_exists w0 p = true ->
  manage_sync_status expand_path umask json_loads base_path pair_name collection_name w
  = (Ok (StatusHandle p),
     World (<[p := File (SqliteDb legacy) (Z.land 420 (Z.lnot umask))]>
              (<[p := File (SqliteDb []) (Z.land 420 (Z.lnot umask))]> (delete p (files w0))))
       (EvWrite p :: EvWrite p :: EvRemove p
        :: EvLog (LogRecord WARNING (Msg "Migrating legacy status to sqlite"))
        :: EvOpen p :: trace w0)).
Proof.
  intros Hpath Hfile Hbrace Hjson Hdir.
  pose proof (status_dir_is_not_the_file w0 p _ _ Hdir Hfile) as Hdp.
  rewrite (manage_sync_status_run expand_path umask json_loads _ _ _ _ _ _ Hpath).
  assert (Hpeek : try_except (peek_legacy_status json_loads p)
                    (fun e => is_OSError e || is_ValueError e) (fun _ => mret None) w0
                  = (Ok (Some legacy), World (files w0) (EvOpen p :: trace w0))).
  { unfold peek_legacy_status, json_load. run_prims.
    destruct w0 as [fs0 tr0]; cbn [files trace] in *.
    rewrite Hfile, Hbrace, Hjson. reflexivity. }
  rewrite (bind_Ok _ _ _ _ _ Hpeek).
  assert (Hparent : parent_error (delete p (files w0)) p = None).
  { unfold status_dir_exists in Hdir. apply andb_true_iff in Hdir as (Htruthy & Hd).
    unfold parent_error. rewrite lookup_delete_ne by congruence.
    destruct (files w0 !! os_path_dirname p) as [[c' p'|p']|]; try discriminate;
      [reflexivity|]. rewrite Hd, orb_true_r. reflexivity. }
  unfold SqliteStatus, load_legacy_status. run_prims. cbn [files trace db_path].
  rewrite Hfile. cbn [files trace]. rewrite lookup_delete_eq, Hparent.
  cbn [files trace]. rewrite lookup_insert_eq. reflexivity.
Qed.

(** X17: where nothing is at the resolved path and the status directory
    exists, [manage_sync_status] yields a new store without rows, removes
    nothing and logs nothing. *)
Theorem manage_sync_status_starts_empty (w w0 : world)
    (base_path pair_name collection_name p : string) :
  get_status_path expand_path base_path pair_name (Some collection_name) (Some "items") w
  = (Ok p, w0) ->
  files w0 !! p = None ->
  status_dir_exists w0 p = true ->
  exists w1,
    manage_sync_status expand_path umask json_loads base_path pair_name collection_name w
    = (Ok (StatusHandle p), w1) /\
    store_rows (StatusHandle p) w1 = Some [] /\
    trace w1 = EvWrite p :: trace w0.
Proof.
  intros Hpath Hfile Hdir.
  rewrite (manage_sync_status_run expand_path umask json_loads _ _ _ _ _ _ Hpath).
  assert (Hpeek : try_except (peek_legacy_status json_loads p)
                    (fun e => is_OSError e || is_ValueError e) (fun _ => mret None) w0
                  = (Ok None, w0)).
  { unfold peek_legacy_status. run_prims. rewrite Hfile. cbn [is_OSError orb].
    destruct w0; reflexivity. }
  rewrite (bind_Ok _ _ _ _ _ Hpeek). unfold open_incremental_store.
  rewrite (bind_Ok _ _ _ _ _ (prepare_status_path_existing umask w0 p Hdir)).
  assert (Hparent : parent_error (files w0) p = None).
  { unfold status_dir_exists in Hdir. apply andb_true_iff in Hdir as (Htruthy & Hd).
    unfold parent_error.
    destruct (files w0 !! os_path_dirname p) as [[c' p'|p']|]; try discriminate;
      [reflexivity|]. rewrite Hd, orb_true_r. reflexivity. }
  unfold SqliteStatus. run_prims. rewrite Hfile, Hparent. eexists. split; [reflexivity|].
  unfold store_rows. cbn [files trace db_path]. rewrite lookup_insert_eq. split; reflexivity.
Qed.

(** X18: the two legacy formats are taken over in one call.  A regular
    file at the unsuffixed path that holds a JSON object is first renamed
    to the [.items] path and then migrated: the call yields a store at
    the [.items] path whose rows are the entries of the object, after
    one rename and one removal, and nothing is left at the unsuffixed
    path. *)
Theorem manage_sync_status_takes_over_extensionless_file (w : world)
    (base_path pair_name collection_name text : string) (perm : Z)
    (legacy : list (pyval * pyval)) :
  let u := unsuffixed_path expand_path base_path pair_name (Some collection_name) in
  files w !! u = Some (File (Bytes text) perm) ->
  is_dir_at w (u +:+ ".items") = false ->
  read1 (Bytes text) = "{" ->
  json_loads text = Some (PDict legacy) ->
  status_dir_exists w (u +:+ ".items") = true ->
  exists w1,
    manage_sync_status expand_path umask json_loads base_path pair_name collection_name w
    = (Ok (StatusHandle (u +:+ ".items")), w1) /\
    store_rows (StatusHandle (u +:+ ".items")) w1 = Some legacy /\
    files w1 !! u = None /\
    renames w1 = S (renames w) /\
    removals w1 = S (removals w).
Proof.
  intros u Hu Hnd Hbrace Hjson Hdir.
  set (p := u +:+ ".items") in *.
  assert (Hpu : p <> u) by (apply append_ne_self; reflexivity).
  set (w0 := World (<[p := File (Bytes text) perm]> (delete u (files w)))
               (EvRename u p
                :: EvLog (LogRecord WARNING
                     (Msg ("Migrating statuses: Renaming " +:+ u +:+ " to " +:+ p)))
                :: trace w)).
  assert (Hpath : get_status_path expand_path base_path pair_name (Some collection_name)
                    (Some "items") w = (Ok p, w0)).
  { rewrite get_status_path_run. cbv zeta. fold u. rewrite Hu. fold p.
    unfold is_dir_at in Hnd.
    destruct (files w !! p) as [[c' q|q]|]; try discriminate; reflexivity. }
  assert (Hfile : files w0 !! p = Some (File (Bytes text) perm)).
  { unfold w0. cbn [files]. apply lookup_insert_eq. }
  assert (Hdir0 : status_dir_exists w0 p = true).
  { unfold status_dir_exists in *. apply andb_true_iff in Hdir as (Htruthy & Hd).
    rewrite Htruthy. cbn [andb]. unfold w0. cbn [files].
    assert (Hdp : p <> os_path_dirname p).
    { intros Heq. rewrite <- Heq in Hd. unfold is_dir_at in Hnd.
      destruct (files w !! p) as [[c' q|q]|]; try discriminate.
      unfold p in Hd. rewrite all_slashes_append in Hd. cbn in Hd.
      rewrite andb_false_r in Hd. discriminate. }
    assert (Hdu : u <> os_path_dirname p).
    { intros Heq. rewrite <- Heq, Hu in Hd. discriminate. }
    rewrite lookup_insert_ne by exact Hdp. rewrite lookup_delete_ne by exact Hdu. exact Hd. }
  rewrite (manage_sync_status_on_legacy w w0 _ _ _ p text perm legacy
             Hpath Hfile Hbrace Hjson Hdir0).
  eexists. split; [reflexivity|].
  unfold store_rows. cbn [files db_path]. rewrite lookup_insert_eq.
  split; [reflexivity|]. split; [|split; reflexivity].
  rewrite !lookup_insert_ne by exact Hpu. rewrite lookup_delete_ne by exact Hpu.
  unfold w0. cbn [files]. rewrite lookup_insert_ne by exact Hpu. apply lookup_delete_eq.
Qed.

End IncrementalStoreMore.

(** The theorem on a world with the status directory and nothing in
    it. *)
Lemma manage_sync_status_starts_empty_witness :
  exists w1,
    manage_sync_status (fun p => p) 18 Json.loads "status" "pair" "coll"
      status_dir_world
    = (Ok (StatusHandle "status/pair/coll.items"), w1) /\
    store_rows (StatusHandle "status/pair/coll.items") w1 = Some [].
Proof.
  destruct (manage_sync_status_starts_empty (fun p => p) 18 Json.loads
              status_dir_world
              status_dir_world
              "status" "pair" "coll" "status/pair/coll.items"
              ltac:(vm_compute; reflexivity) ltac:(vm_compute; reflexivity)
              ltac:(vm_compute; reflexivity)) as (w1 & Hrun & Hrows & _).
  exists w1. split; [exact Hrun|exact Hrows].
Defined.

(** The theorem on a world where the sample mapping sits in the
    extensionless file [status/pair/coll]. *)
Lemma manage_sync_status_takes_over_extensionless_file_witness :
  exists w1,
    manage_sync_status (fun p => p) 18 Json.loads "status" "pair" "coll" extensionless_world
    = (Ok (StatusHandle "status/pair/coll.items"), w1) /\
    store_rows (StatusHandle "status/pair/coll.items") w1 = Some sample_status /\
    files w1 !! "status/pair/coll" = None.
Proof.
  destruct (manage_sync_status_takes_over_extensionless_file (fun p => p) 18 Json.loads
              extensionless_world "status" "pair" "coll" sample_text 384 sample_status
              ltac:(vm_compute; reflexivity) ltac:(vm_compute; reflexivity)
              ltac:(vm_compute; reflexivity) ltac:(vm_compute; reflexivity)
              ltac:(vm_compute; reflexivity)) as (w1 & Hrun & Hrows & Hgone & _).
  exists w1. split; [exact Hrun|]. split; [exact Hrows|exact Hgone].
Defined.

(** ** Configuration records *)

Lemma cfg_get_remove_same (k : string) (c : config) : cfg_get k (cfg_remove k c) = None.
Proof.
  unfold cfg_remove. induction c as [|[k' v] c IH]; [reflexivity|]. simpl.
  destruct (String.eqb_spec k' k) as [->|Hne]; simpl; [exact IH|].
  destruct (String.eqb_spec k' k); [contradiction|exact IH].
Qed.

Lemma cfg_get_remove_other (k k' : string) (c : config) :
  k' <> k -> cfg_get k' (cfg_remove k c) = cfg_get k' c.
Proof.
  intros Hne. unfold cfg_remove. induction c as [|[k0 v] c IH]; [reflexivity|]. simpl.
  destruct (String.eqb_spec k0 k) as [->|Hk]; simpl.
  - destruct (String.eqb_spec k k'); [congruence|exact IH].
  - destruct (String.eqb_spec k0 k'); [reflexivity|exact IH].
Qed.

Lemma cfg_get_set_same (k : string) (v : pyval) (c : config) :
  cfg_get k (cfg_set k v c) = Some v.
Proof.
  induction c as [|[k' v'] c IH]; simpl.
  - rewrite String.eqb_refl. reflexivity.
  - destruct (String.eqb_spec k' k) as [->|Hne]; simpl.
    + rewrite String.eqb_refl. reflexivity.
    + destruct (String.eqb_spec k' k); [contradiction|exact IH].
Qed.

Lemma storage_names_sound (name : string) (cls : storage_class) :
  storage_names name = Some cls -> storage_name_of cls = name.
Proof.
  unfold storage_names.
  repeat (match goal with
          | |- context [String.eqb name ?k] => destruct (String.eqb_spec name k) as [->|?]
          end; [intros [= <-]; reflexivity|]).
  discriminate.
Qed.

Lemma storage_names_complete (cls : storage_class) :
  storage_names (storage_name_of cls) = Some cls.
Proof. destruct cls; reflexivity. Qed.

(** ** The factory, further *)

Section FactoryMore.

Variable Storage : Type.
Variable backend : Type.
Variable construct : storage_class -> config -> backend -> outcome Storage * backend.
Variable create_collection : storage_class -> config -> backend -> outcome config * backend.
Variable get_storage_init_args : storage_class -> list string * list string.
Variable is_DAVStorage : storage_class -> bool.
Variable is_HttpStorage : storage_class -> bool.
Variable py_repr : pyval -> string.
Variable json_dumps : pyval -> option string.

Local Abbreviation factory :=
  (storage_instance_from_config construct create_collection get_storage_init_args
     is_DAVStorage is_HttpStorage py_repr json_dumps).
Local Abbreviation recover :=
  (handle_collection_not_found create_collection py_repr json_dumps).
Local Abbreviation classify :=
  (handle_storage_init_error (Storage := Storage) (backend := backend)
     get_storage_init_args py_repr).
Local Abbreviation the_call := (constructor_call is_DAVStorage is_HttpStorage).

(** X19: for a configuration whose [type] is a string,
    [storage_class_from_config] either returns the class that reports
    this string as its [storage_name], with the configuration less its
    [type] and every other key as it was, or, when no class of the index
    has that name, raises the [UserError] that quotes it.  The session
    is not touched. *)
Theorem storage_class_from_config_resolves (cfg : config) (name : string)
    (s : session backend) :
  cfg_get "type" cfg = Some (PStr name) ->
  (exists cls,
     storage_class_from_config py_repr cfg s = (Ok (cls, cfg_remove "type" cfg), s) /\
     storage_name_of cls = name /\
     cfg_get "type" (cfg_remove "type" cfg) = None /\
     (forall k, k <> "type" -> cfg_get k (cfg_remove "type" cfg) = cfg_get k cfg)) \/
  (storage_class_from_config py_repr cfg s
   = (Raise (UserError ("Unknown storage type: " +:+ name) []), s) /\
   forall cls, storage_name_of cls <> name).
Proof.
  intros Htype. unfold storage_class_from_config. rewrite Htype. run_session.
  cbn [hashable negb py_str].
  destruct (storage_names name) as [cls|] eqn:Hname.
  - left. exists cls. split; [reflexivity|]. split; [exact (storage_names_sound _ _ Hname)|].
    split; [apply cfg_get_remove_same|]. intros k Hk. apply cfg_get_remove_other. exact Hk.
  - right. split; [reflexivity|]. intros cls Heq.
    rewrite <- Heq, storage_names_complete in Hname. discriminate.
Qed.

(** The call with [create=False] under its two names. *)
Lemma factory_nocreate_is_factory (cfg : config) (connector : option string)
    (s : session backend) :
  storage_instance_from_config_nocreate construct create_collection get_storage_init_args
    is_DAVStorage is_HttpStorage py_repr json_dumps connector cfg s
  = factory cfg false connector s.
Proof.
  unfold storage_instance_from_config_nocreate, storage_instance_from_config,
    storage_instance_from_config_body.
  run_session.
  destruct (storage_class_from_config py_repr cfg s) as [[[cls kw]|e] s1]; [|reflexivity].
  destruct (is_DAVStorage cls || is_HttpStorage cls).
  - destruct connector as [c|]; [|reflexivity].
    destruct (construct cls _ (remote s1)) as [[st|e] b]; [reflexivity|].
    destruct (is_CollectionNotFound e); reflexivity.
  - destruct (construct cls _ (remote s1)) as [[st|e] b]; [reflexivity|].
    destruct (is_CollectionNotFound e); reflexivity.
Qed.

(** Where [constructor_call] names no call, the factory fails before it
    calls anything. *)
Lemma factory_fails_before_call (retry : config -> M (session backend) Storage)
    (cfg : config) (create : bool) (connector : option string) (s : session backend) :
  the_call cfg connector = None ->
  snd (storage_instance_from_config_body construct create_collection get_storage_init_args
         is_DAVStorage is_HttpStorage py_repr json_dumps retry cfg create connector s) = s.
Proof.
  unfold constructor_call, storage_instance_from_config_body, storage_class_from_config.
  run_session.
  destruct (cfg_get "type" cfg) as [[| | |name|l|d|o]|]; cbn [hashable negb];
    try reflexivity.
  destruct (storage_names name) as [cls|]; [|reflexivity].
  destruct (is_DAVStorage cls || is_HttpStorage cls); [|discriminate].
  destruct connector as [c|]; [discriminate|reflexivity].
Qed.

(** The state after the constructor call when [create] is false. *)
Lemma factory_state_after_call (cfg kw : config) (connector : option string)
    (cls : storage_class) (s : session backend) :
  the_call cfg connector = Some (cls, kw) ->
  snd (factory cfg false connector s)
  = Session (snd (construct cls kw (remote s))) (stdin s) (FConstruct cls kw :: ftrace s).
Proof.
  intros Hcall. unfold storage_instance_from_config.
  rewrite (factory_body_reaches_call Storage backend construct create_collection
             get_storage_init_args is_DAVStorage is_HttpStorage py_repr json_dumps
             _ _ _ _ _ _ _ Hcall).
  destruct (construct cls kw (remote s)) as [[st|e] b]; [reflexivity|]. cbv zeta.
  destruct (is_CollectionNotFound e); [reflexivity|].
  destruct (is_Exception e); [|reflexivity].
  rewrite handle_storage_init_error_run.
  repeat (split_match; try reflexivity).
Qed.

(** X20: with [create=False] the factory never asks the user and never
    creates a collection: it ends in the state it started in, or in that
    state after exactly one constructor call, with the answers still to
    give untouched. *)
Theorem factory_without_create_is_silent (cfg : config) (connector : option string)
    (s : session backend) :
  snd (factory cfg false connector s) = s \/
  exists cls kw b,
    snd (factory cfg false connector s)
    = Session b (stdin s) (FConstruct cls kw :: ftrace s).
Proof.
  destruct (the_call cfg connector) as [[cls kw]|] eqn:Hcall.
  - right. exists cls, kw. eexists. apply factory_state_after_call. exact Hcall.
  - left. unfold storage_instance_from_config. apply factory_fails_before_call. exact Hcall.
Qed.

(** X21: the keyword arguments of the constructor call.  A class that is
    a DAV or an HTTP storage is called with the configuration less its
    [type] plus the connector under the key [connector]; without a
    connector no call is made and an [AssertionError] is raised.  Any
    other class is called with the configuration less its [type], and
    the connector is not passed on. *)
Theorem factory_constructor_arguments (cfg : config) (name : string) (cls : storage_class)
    (connector : option string) (s : session backend) :
  cfg_get "type" cfg = Some (PStr name) ->
  storage_names name = Some cls ->
  (is_DAVStorage cls || is_HttpStorage cls = true ->
     (connector = None ->
        factory cfg false connector s
        = (Raise (PyExc AssertionError EmptyString "AssertionError()"), s)) /\
     (forall c, connector = Some c ->
        ftrace (snd (factory cfg false connector s))
        = FConstruct cls (cfg_set "connector" (PObject c) (cfg_remove "type" cfg))
          :: ftrace s)) /\
  (is_DAVStorage cls || is_HttpStorage cls = false ->
     ftrace (snd (factory cfg false connector s))
     = FConstruct cls (cfg_remove "type" cfg) :: ftrace s).
Proof.
  intros Htype Hname.
  assert (Hreach : forall kw, the_call cfg connector = Some (cls, kw) ->
            ftrace (snd (factory cfg false connector s)) = FConstruct cls kw :: ftrace s).
  { intros kw Hcall. rewrite (factory_state_after_call _ _ _ _ _ Hcall). reflexivity. }
  split.
  - intros Hnet. split.
    + intros ->. unfold storage_instance_from_config, storage_instance_from_config_body,
        storage_class_from_config.
      rewrite Htype. run_session. cbn [hashable negb]. rewrite Hname, Hnet. reflexivity.
    + intros c ->. apply Hreach. unfold constructor_call. rewrite Htype, Hname, Hnet.
      reflexivity.
  - intros Hnet. apply Hreach. unfold constructor_call. rewrite Htype, Hname, Hnet.
    reflexivity.
Qed.

End FactoryMore.

(** ** The recovery flow, further *)

Lemma contains_join (sep x : string) (l : list string) :
  In x l -> contains x (join sep l) = true.
Proof.
  induction l as [|y l IH]; [contradiction|]. intros [->|Hin].
  - destruct l as [|z l]; [apply contains_self|]. cbn [join]. apply contains_here.
  - destruct l as [|z l]; [contradiction|].
    change (join sep (y :: z :: l)) with (y +:+ sep +:+ join sep (z :: l)).
    apply contains_later. apply contains_later. exact (IH Hin).
Qed.

Lemma set_minus_In (x : string) (a b : list string) :
  In x (set_minus a b) <-> In x a /\ ~ In x b.
Proof.
  unfold set_minus. rewrite filter_In. split.
  - intros (Ha & Hb). split; [exact Ha|]. intros Hin.
    apply negb_true_iff in Hb.
    assert (existsb (String.eqb x) b = true).
    { apply existsb_exists. exists x. split; [exact Hin|apply String.eqb_refl]. }
    congruence.
  - intros (Ha & Hb). split; [exact Ha|]. apply negb_true_iff.
    destruct (existsb (String.eqb x) b) eqn:He; [|reflexivity].
    apply existsb_exists in He as (y & Hy & Heq). apply String.eqb_eq in Heq. subst y.
    contradiction.
Qed.

Section RecoveryMore.

Variable Storage : Type.
Variable backend : Type.
Variable construct : storage_class -> config -> backend -> outcome Storage * backend.
Variable create_collection : storage_class -> config -> backend -> outcome config * backend.
Variable get_storage_init_args : storage_class -> list string * list string.
Variable is_DAVStorage : storage_class -> bool.
Variable is_HttpStorage : storage_class -> bool.
Variable py_repr : pyval -> string.
Variable json_dumps : pyval -> option string.

Local Abbreviation factory :=
  (storage_instance_from_config construct create_collection get_storage_init_args
     is_DAVStorage is_HttpStorage py_repr json_dumps).
Local Abbreviation recover :=
  (handle_collection_not_found create_collection py_repr json_dumps).
Local Abbreviation classify :=
  (handle_storage_init_error (Storage := Storage) (backend := backend)
     get_storage_init_args py_repr).
Local Abbreviation the_call := (constructor_call is_DAVStorage is_HttpStorage).

(** The recovery flow up to the answer of the user. *)
Lemma recovery_run (cfg : config) (collection : pyval) (e : string) (s : session backend) :
  recover cfg collection e s =
  match json_dumps collection with
  | None =>
      (Raise (PyExc TypeError "Object is not JSON serializable"
                ("TypeError('" +:+ "Object is not JSON serializable" +:+ "')")),
       Session (remote s) (stdin s) (FRecovery :: ftrace s))
  | Some dumped =>
      let storage_name := default PNone (cfg_get "instance_name" cfg) in
      let asked :=
        FLog (LogRecord WARNING
                (Msg (collection_not_found_warning e dumped (py_str py_repr storage_name))))
        :: FRecovery :: ftrace s in
      let unable := UserError (unable_to_create_message py_repr collection storage_name) [] in
      match stdin s with
      | [] => (Raise ClickAbort, Session (remote s) [] asked)
      | Interrupt :: rest =>
          (Raise ClickAbort,
           Session (remote s) rest
             (FConfirm "Should vdirsyncer attempt to create it?" Interrupt :: asked))
      | No :: rest =>
          (Raise unable,
           Session (remote s) rest
             (FConfirm "Should vdirsyncer attempt to create it?" No :: asked))
      | Yes :: rest =>
          let s1 := Session (remote s) rest
                      (FConfirm "Should vdirsyncer attempt to create it?" Yes :: asked) in
          match cfg_get "type" cfg with
          | None => (Raise (PyExc KeyError "'type'" "KeyError('type')"), s1)
          | Some storage_type =>
              match storage_class_from_config py_repr cfg s1 with
              | (Raise e1, s2) => (Raise e1, s2)
              | (Ok (cls, cfg'), s2) =>
                  let kw := cfg_set "collection" collection cfg' in
                  let s3 b := Session b (stdin s2) (FCreateCollection cls kw :: ftrace s2) in
                  match create_collection cls kw (remote s2) with
                  | (Ok args, b) => (Ok (cfg_set "type" storage_type args), s3 b)
                  | (Raise e2, b) =>
                      if is_NotImplementedError e2
                      then (Raise unable,
                            Session b (stdin s2)
                              (FLog (LogRecord ERROR (MsgExn e2))
                               :: FCreateCollection cls kw :: ftrace s2))
                      else (Raise e2, s3 b)
                  end
              end
          end
      end
  end.
Proof.
  unfold handle_collection_not_found. run_session. cbn [remote stdin ftrace].
  destruct (json_dumps collection) as [dumped|]; [|reflexivity].
  cbn [remote stdin ftrace]. cbv zeta.
  destruct (stdin s) as [|[| |] rest]; try reflexivity.
  cbn [remote stdin ftrace].
  destruct (cfg_get "type" cfg) as [storage_type|]; [|reflexivity].
  destruct (storage_class_from_config py_repr cfg _) as [[[cls cfg']|e1] s2]; [|reflexivity].
  destruct (create_collection cls _ (remote s2)) as [[args|e2] b]; [reflexivity|].
  destruct (is_NotImplementedError e2); reflexivity.
Qed.

(** X22: the recovery flow creates a collection only on a yes.  It calls
    [create_collection] at most once, and not at all unless the next
    answer is yes, in which case the state behind the storages is what it
    was; and it reads at most one answer. *)
Theorem recovery_creates_only_on_yes (cfg : config) (collection : pyval) (e : string)
    (s : session backend) :
  (creations (snd (recover cfg collection e s)) <= S (creations s))%nat /\
  ((forall rest, stdin s <> Yes :: rest) ->
     creations (snd (recover cfg collection e s)) = creations s /\
     remote (snd (recover cfg collection e s)) = remote s) /\
  (stdin (snd (recover cfg collection e s)) = stdin s \/
   exists a, stdin s = a :: stdin (snd (recover cfg collection e s))).
Proof.
  rewrite recovery_run.
  destruct (json_dumps collection) as [dumped|];
    [|split; [unfold creations; simpl; lia|split; [intros _; split; reflexivity|left; reflexivity]]].
  cbv zeta.
  destruct (stdin s) as [|[| |] rest] eqn:Hin.
  - split; [unfold creations; simpl; lia|]. split; [intros _; split; reflexivity|left; reflexivity].
  - split; [|split; [intros H; exfalso; exact (H rest eq_refl)|]].
    + destruct (cfg_get "type" cfg) as [storage_type|]; [|unfold creations; simpl; lia].
      pose proof (storage_class_from_config_pure backend py_repr cfg
                    (Session (remote s) rest
                       (FConfirm "Should vdirsyncer attempt to create it?" Yes
                        :: FLog (LogRecord WARNING
                                   (Msg (collection_not_found_warning e dumped
                                           (py_str py_repr
                                              (default PNone (cfg_get "instance_name" cfg))))))
                        :: FRecovery :: ftrace s))) as Hpure.
      destruct (storage_class_from_config py_repr cfg _) as [[[cls cfg']|e1] s2];
        cbn [snd] in Hpure; subst s2; [|unfold creations; simpl; lia].
      destruct (create_collection cls _ _) as [[args|e2] b];
        [unfold creations; simpl; lia|].
      destruct (is_NotImplementedError e2); unfold creations; simpl; lia.
    + right. exists Yes.
      destruct (cfg_get "type" cfg) as [storage_type|]; [|reflexivity].
      pose proof (storage_class_from_config_pure backend py_repr cfg
                    (Session (remote s) rest
                       (FConfirm "Should vdirsyncer attempt to create it?" Yes
                        :: FLog (LogRecord WARNING
                                   (Msg (collection_not_found_warning e dumped
                                           (py_str py_repr
                                              (default PNone (cfg_get "instance_name" cfg))))))
                        :: FRecovery :: ftrace s))) as Hpure.
      destruct (storage_class_from_config py_repr cfg _) as [[[cls cfg']|e1] s2];
        cbn [snd] in Hpure; subst s2; [|reflexivity].
      destruct (create_collection cls _ _) as [[args|e2] b]; [reflexivity|].
      destruct (is_NotImplementedError e2); reflexivity.
  - split; [unfold creations; simpl; lia|].
    split; [intros _; split; reflexivity|right; exists No; reflexivity].
  - split; [unfold creations; simpl; lia|].
    split; [intros _; split; reflexivity|right; exists Interrupt; reflexivity].
Qed.

(** X23: after a yes, when [create_collection] returns, the recovery flow
    returns what it returned with the [type] of the configuration put
    back; [create_collection] was given the configuration less its
    [type], with the collection under the key [collection]. *)
Theorem recovery_returns_created_configuration (cfg args : config) (collection : pyval)
    (e dumped name : string) (cls : storage_class) (rest : list answer)
    (s : session backend) (b : backend) :
  stdin s = Yes :: rest ->
  json_dumps collection = Some dumped ->
  cfg_get "type" cfg = Some (PStr name) ->
  storage_names name = Some cls ->
  create_collection cls (cfg_set "collection" collection (cfg_remove "type" cfg)) (remote s)
  = (Ok args, b) ->
  fst (recover cfg collection e s) = Ok (cfg_set "type" (PStr name) args) /\
  cfg_get "type" (cfg_set "type" (PStr name) args) = Some (PStr name) /\
  remote (snd (recover cfg collection e s)) = b /\
  cfg_get "collection" (cfg_set "collection" collection (cfg_remove "type" cfg))
  = Some collection.
Proof.
  intros Hin Hdump Htype Hname Hcreate. rewrite recovery_run, Hdump, Hin. cbv zeta.
  rewrite Htype. unfold storage_class_from_config. rewrite Htype. run_session.
  cbn [hashable negb]. rewrite Hname. cbn [remote stdin ftrace]. rewrite Hcreate.
  cbn [fst snd remote]. split; [reflexivity|].
  split; [apply cfg_get_set_same|]. split; [reflexivity|apply cfg_get_set_same].
Qed.

(** X24: after a yes, when the class cannot create collections and
    [create_collection] raises a [NotImplementedError], the error is
    logged and the flow ends as it ends on a no: with the [UserError]
    that asks the user to create the collection. *)
Theorem recovery_reports_unsupported_creation (cfg : config) (collection : pyval)
    (e dumped name msg repr_ : string) (cls : storage_class) (rest : list answer)
    (s : session backend) (b : backend) :
  stdin s = Yes :: rest ->
  json_dumps collection = Some dumped ->
  cfg_get "type" cfg = Some (PStr name) ->
  storage_names name = Some cls ->
  create_collection cls (cfg_set "collection" collection (cfg_remove "type" cfg)) (remote s)
  = (Raise (PyExc NotImplementedError msg repr_), b) ->
  fst (recover cfg collection e s)
  = Raise (UserError (unable_to_create_message py_repr collection
                        (default PNone (cfg_get "instance_name" cfg))) []) /\
  hd_error (ftrace (snd (recover cfg collection e s)))
  = Some (FLog (LogRecord ERROR (MsgExn (PyExc NotImplementedError msg repr_)))) /\
  fst (recover cfg collection e (Session (remote s) (No :: rest) (ftrace s)))
  = fst (recover cfg collection e s).
Proof.
  intros Hin Hdump Htype Hname Hcreate. rewrite !recovery_run, Hdump, Hin. cbv zeta.
  rewrite Htype. unfold storage_class_from_config. rewrite Htype. run_session.
  cbn [hashable negb]. rewrite Hname. cbn [remote stdin ftrace]. rewrite Hcreate.
  cbn [is_NotImplementedError fst snd ftrace]. repeat split.
Qed.

(** X25: an interrupt at the prompt, or the end of the input, ends the
    recovery flow with the abort that [handle_cli_error] swallows: no
    collection is created, and reporting the error logs nothing. *)
Theorem recovery_abort_is_silent (cfg : config) (collection : pyval) (e dumped : string)
    (s : session backend) (docs bugs : string) (status_name : option string)
    (tb : list string) :
  json_dumps collection = Some dumped ->
  (stdin s = [] \/ exists rest, stdin s = Interrupt :: rest) ->
  exists err,
    fst (recover cfg collection e s) = Raise err /\
    handle_cli_error docs bugs status_name (Some err) None tb = ([], Ok tt) /\
    creations (snd (recover cfg collection e s)) = creations s.
Proof.
  intros Hdump Hin. exists ClickAbort. rewrite recovery_run, Hdump. cbv zeta.
  destruct Hin as [-> | (rest & ->)]; repeat split.
Qed.

(** X26: the [UserError] that replaces a constructor's [TypeError] leaves
    out no problem: every required parameter that the keyword arguments
    lack, and every keyword argument that the class does not take, is
    named in one of its problems. *)
Theorem init_error_names_every_problem (e : exn) (cls : storage_class) (kw : config)
    (name : pyval) (s : session backend) :
  is_TypeError e = true ->
  init_mentioned e = true ->
  cfg_get "instance_name" kw = Some name ->
  forall x,
    (In x (snd (get_storage_init_args cls)) /\ ~ In x (cfg_keys kw)) \/
    (In x (cfg_keys kw) /\ ~ In x (fst (get_storage_init_args cls))) ->
    exists problems problem,
      classify e cls kw s
      = (Raise (UserError ("Failed to initialize " +:+ py_str py_repr name) problems), s) /\
      In problem problems /\
      contains x problem = true.
Proof.
  intros Ht Hi Hname x Hx. rewrite handle_storage_init_error_run, Ht, Hi. cbn [negb orb].
  unfold init_problems. destruct (get_storage_init_args cls) as [all required].
  cbn [fst snd] in Hx.
  set (missing := set_minus required (cfg_keys kw)).
  set (invalid := set_minus (cfg_keys kw) all).
  assert (Hin : In x missing \/ In x invalid).
  { destruct Hx as [H|H]; [left|right]; apply set_minus_In; exact H. }
  destruct Hin as [Hin|Hin].
  - destruct missing as [|m ms] eqn:Hm; [contradiction|]. rewrite Hname.
    do 2 eexists. split; [reflexivity|]. split; [left; reflexivity|].
    apply contains_later. apply contains_later. apply contains_join. exact Hin.
  - destruct invalid as [|i is_] eqn:Hi'; [contradiction|].
    destruct missing as [|m ms]; rewrite Hname; do 2 eexists;
      (split; [reflexivity|]).
    + split; [left; reflexivity|].
      apply contains_later. apply contains_later. apply contains_join. exact Hin.
    + split; [right; left; reflexivity|].
      apply contains_later. apply contains_later. apply contains_join. exact Hin.
Qed.

(** X27: the translation needs the instance name.  When the constructor
    raises a [TypeError] that mentions [__init__], a problem is found,
    and the keyword arguments have no [instance_name], the factory
    raises a [KeyError] for that key in place of the [UserError]. *)
Theorem factory_needs_instance_name (cfg kw : config) (create : bool)
    (connector : option string) (cls : storage_class) (s : session backend)
    (e : exn) (b : backend) :
  the_call cfg connector = Some (cls, kw) ->
  construct cls kw (remote s) = (Raise e, b) ->
  is_TypeError e = true ->
  init_mentioned e = true ->
  init_problems get_storage_init_args cls kw <> [] ->
  cfg_get "instance_name" kw = None ->
  fst (factory cfg create connector s)
  = Raise (PyExc KeyError "'instance_name'" "KeyError('instance_name')").
Proof.
  intros Hcall Hfail Ht Hi Hprob Hname. unfold storage_instance_from_config.
  rewrite (factory_body_reaches_call Storage backend construct create_collection
             get_storage_init_args is_DAVStorage is_HttpStorage py_repr json_dumps
             _ _ _ _ _ _ _ Hcall), Hfail. cbv zeta.
  destruct e as [| | | | | | | | | | |c str_ repr_]; try discriminate.
  destruct c; try discriminate. cbn [is_CollectionNotFound is_Exception class_is_Exception].
  rewrite handle_storage_init_error_run, Ht, Hi. cbn [negb orb].
  destruct (init_problems get_storage_init_args cls kw); [contradiction|].
  rewrite Hname. reflexivity.
Qed.

End RecoveryMore.

(** ** Reports *)

Lemma prefix_append_r (x s t : string) :
  String.prefix x s = true -> String.prefix x (s +:+ t) = true.
Proof.
  revert x. induction s as [|c s IH]; intros x H.
  - destruct x; [|discriminate H]. change (EmptyString +:+ t) with t.
    destruct t; reflexivity.
  - change (String c s +:+ t) with (String c (s +:+ t)).
    destruct x as [|a x]; [reflexivity|]. cbn [String.prefix] in *.
    destruct (ascii_dec a c); [exact (IH x H)|discriminate].
Qed.

Lemma contains_append_r (x s t : string) :
  contains x s = true -> contains x (s +:+ t) = true.
Proof.
  induction s as [|c s IH]; intros H.
  - rewrite contains_unfold in H. rewrite orb_false_r in H.
    destruct x; [|discriminate]. rewrite contains_unfold. destruct t; reflexivity.
  - rewrite contains_unfold in H. rewrite contains_unfold.
    apply orb_true_iff in H as [H|H]; apply orb_true_iff.
    + left. apply prefix_append_r. exact H.
    + right. change (String c s +:+ t) with (String c (s +:+ t)). cbv beta iota.
      exact (IH H).
Qed.

Ltac find_joined H :=
  first [ solve [apply contains_append_r; apply contains_join; exact H]
        | apply contains_later; find_joined H ].

(** X28: every report names what it is about.  The message for an
    emptied storage holds the name of the storage, as [str()] renders
    it, and the status name;
    for a read-only storage, the storage; for a conflict, the item and
    its address on both sides; for duplicate items, the storage and each
    offending address; for a missing pair, its name; for an answer of the
    server that was not understood, the error and the address of the bug
    tracker; and for any other exception, its text. *)
Theorem reports_name_their_subject (docs bugs : string) (status_name : option string)
    (active : option exn) (tb : list string) :
  (forall st, exists text,
     handle_cli_error docs bugs status_name (Some (StorageEmpty (Some st))) active tb
     = ([LogRecord ERROR (Msg text)], Ok tt) /\
     contains (fmt_opt (obj_instance_name st)) text = true /\
     contains (fmt_opt status_name) text = true) /\
  (forall storage, exists text,
     handle_cli_error docs bugs status_name (Some (PartialSync storage)) active tb
     = ([LogRecord ERROR (Msg text)], Ok tt) /\
     contains storage text = true /\ contains (fmt_opt status_name) text = true) /\
  (forall ident href_a href_b, exists text,
     handle_cli_error docs bugs status_name (Some (SyncConflict ident href_a href_b)) active tb
     = ([LogRecord ERROR (Msg text)], Ok tt) /\
     contains ident text = true /\ contains href_a text = true /\
     contains href_b text = true /\ contains docs text = true) /\
  (forall st hrefs, exists text,
     handle_cli_error docs bugs status_name
       (Some (IdentConflict (Some st) (Some hrefs))) active tb
     = ([LogRecord ERROR (Msg text)], Ok tt) /\
     contains (fmt_opt (obj_instance_name st)) text = true /\
     forall href, In href hrefs -> contains href text = true) /\
  (forall pair_name, exists text,
     handle_cli_error docs bugs status_name (Some (PairNotFound pair_name)) active tb
     = ([LogRecord ERROR (Msg text)], Ok tt) /\
     contains pair_name text = true) /\
  (forall repr_, exists text,
     handle_cli_error docs bugs status_name (Some (InvalidResponse repr_)) active tb
     = ([LogRecord ERROR (Msg text)], Ok tt) /\
     contains repr_ text = true /\ contains bugs text = true) /\
  (forall cls str_ repr_, class_is_Exception cls = true -> exists text,
     handle_cli_error docs bugs status_name (Some (PyExc cls str_ repr_)) active tb
     = ([LogRecord ERROR (Msg text); LogRecord DEBUG (Msg (join EmptyString tb))], Ok tt) /\
     contains str_ text = true /\
     (truthy (default EmptyString status_name) = true ->
      contains (fmt_opt status_name) text = true)).
Proof.
  unfold handle_cli_error. cbn [raised_in_try].
  split; [|split; [|split; [|split; [|split; [|split]]]]].
  - intros st. eexists. split; [reflexivity|].
    unfold storage_empty_message. split; find_in_text.
  - intros storage. eexists. split; [reflexivity|].
    unfold partial_sync_message. split; find_in_text.
  - intros ident href_a href_b. eexists. split; [reflexivity|].
    unfold sync_conflict_message. repeat split; find_in_text.
  - intros st hrefs. eexists. split; [reflexivity|].
    unfold ident_conflict_message. split; [find_in_text|].
    intros href Hin. find_joined Hin.
  - intros pair_name. eexists. split; [reflexivity|].
    unfold pair_not_found_message. find_in_text.
  - intros repr_. eexists. split; [reflexivity|].
    unfold invalid_response_message. split; find_in_text.
  - intros cls str_ repr_ ->. eexists. split; [reflexivity|].
    unfold unknown_error_message. split.
    + destruct (truthy (default EmptyString status_name)); find_in_text.
    + intros ->. apply contains_append_r. find_in_text.
Qed.

(** ** The further theorems on the example backend *)

(** The theorem on the configuration for the collection [work]. *)
Lemma storage_class_from_config_resolves_witness :
  storage_class_from_config demo_repr cfg_work (demo_session [])
  = (Ok (FilesystemStorage,
         [("instance_name", PStr "local"); ("path", PStr "/cal"); ("collection", PStr "work")]),
     demo_session []).
Proof.
  destruct (storage_class_from_config_resolves (list string) demo_repr cfg_work "filesystem"
              (demo_session []) ltac:(reflexivity))
    as [(cls & Hrun & Hname & _) | (_ & Hnone)].
  - rewrite Hrun. destruct cls; try discriminate Hname. reflexivity.
  - exfalso. apply (Hnone FilesystemStorage). reflexivity.
Defined.

(** The theorem on a [caldav] configuration, with the connector [pool] and
    without a connector. *)
Lemma factory_constructor_arguments_witness :
  ftrace (snd (storage_instance_from_config demo_construct demo_create_collection
                 demo_init_args demo_is_dav demo_is_http demo_repr Json.dumps
                 cfg_dav false (Some "pool") (demo_session [])))
  = [FConstruct CalDAVStorage
       [("instance_name", PStr "remote"); ("path", PStr "/dav");
        ("connector", PObject "pool")]] /\
  storage_instance_from_config demo_construct demo_create_collection
    demo_init_args demo_is_dav demo_is_http demo_repr Json.dumps
    cfg_dav false None (demo_session [])
  = (Raise (PyExc AssertionError EmptyString "AssertionError()"), demo_session []).
Proof.
  split.
  - destruct (factory_constructor_arguments config (list string) demo_construct
                demo_create_collection demo_init_args demo_is_dav demo_is_http demo_repr
                Json.dumps cfg_dav "caldav" CalDAVStorage (Some "pool") (demo_session [])
                ltac:(reflexivity) ltac:(reflexivity)) as (Hnet & _).
    destruct (Hnet ltac:(reflexivity)) as (_ & Hpool).
    exact (Hpool "pool" eq_refl).
  - destruct (factory_constructor_arguments config (list string) demo_construct
                demo_create_collection demo_init_args demo_is_dav demo_is_http demo_repr
                Json.dumps cfg_dav "caldav" CalDAVStorage None (demo_session [])
                ltac:(reflexivity) ltac:(reflexivity)) as (Hnet & _).
    destruct (Hnet ltac:(reflexivity)) as (Hnone & _).
    exact (Hnone eq_refl).
Defined.

(** The theorem on a user who answers yes: the collection [work] is made
    and the configuration comes back with its [type]. *)
Lemma recovery_returns_created_configuration_witness :
  fst (demo_recover cfg_work (PStr "work") "no collection work" (demo_session [Yes]))
  = Ok [("instance_name", PStr "local"); ("path", PStr "/cal"); ("collection", PStr "work");
        ("type", PStr "filesystem")] /\
  remote (snd (demo_recover cfg_work (PStr "work") "no collection work" (demo_session [Yes])))
  = ["work"].
Proof.
  destruct (recovery_returns_created_configuration (list string) demo_create_collection
              demo_repr Json.dumps cfg_work
              [("instance_name", PStr "local"); ("path", PStr "/cal");
               ("collection", PStr "work")]
              (PStr "work") "no collection work" (dq +:+ "work" +:+ dq) "filesystem"
              FilesystemStorage [] (demo_session [Yes]) ["work"]
              ltac:(reflexivity) ltac:(vm_compute; reflexivity) ltac:(reflexivity)
              ltac:(reflexivity) ltac:(vm_compute; reflexivity))
    as (Hres & _ & Hremote & _).
  split; [exact Hres|exact Hremote].
Defined.

(** The theorem on the [http] storage, which cannot create a
    collection. *)
Lemma recovery_reports_unsupported_creation_witness :
  fst (demo_recover cfg_http (PStr "news") "no collection news" (demo_session [Yes]))
  = Raise (UserError (unable_to_create_message demo_repr (PStr "news") (PStr "feed")) []).
Proof.
  destruct (recovery_reports_unsupported_creation (list string) demo_create_collection
              demo_repr Json.dumps cfg_http (PStr "news") "no collection news"
              (dq +:+ "news" +:+ dq) "http" EmptyString "NotImplementedError()"
              HttpStorage [] (demo_session [Yes]) []
              ltac:(reflexivity) ltac:(vm_compute; reflexivity) ltac:(reflexivity)
              ltac:(reflexivity) ltac:(vm_compute; reflexivity))
    as (Hres & _).
  exact Hres.
Defined.

(** The theorem on a prompt that meets the end of the input. *)
Lemma recovery_abort_is_silent_witness :
  exists err,
    fst (demo_recover cfg_work (PStr "work") "no collection work" (demo_session []))
    = Raise err /\
    handle_cli_error "docs" "bugs" (Some "pair/work") (Some err) None [] = ([], Ok tt).
Proof.
  destruct (recovery_abort_is_silent (list string) demo_create_collection demo_repr Json.dumps
              cfg_work (PStr "work") "no collection work" (dq +:+ "work" +:+ dq)
              (demo_session []) "docs" "bugs" (Some "pair/work") []
              ltac:(vm_compute; reflexivity) ltac:(left; reflexivity))
    as (err & Hraise & Hsilent & _).
  exists err. split; [exact Hraise|exact Hsilent].
Defined.

(** The theorem on keyword arguments with the unknown name [colour]. *)
Lemma init_error_names_every_problem_witness :
  exists problems problem,
    handle_storage_init_error (Storage := config) demo_init_args demo_repr demo_missing_path
      FilesystemStorage [("instance_name", PStr "local"); ("colour", PStr "red")]
      (demo_session [])
    = (Raise (UserError "Failed to initialize local" problems), demo_session []) /\
    In problem problems /\
    contains "colour" problem = true.
Proof.
  apply (init_error_names_every_problem config (list string) demo_init_args demo_repr
           demo_missing_path FilesystemStorage
           [("instance_name", PStr "local"); ("colour", PStr "red")] (PStr "local")
           (demo_session []) ltac:(reflexivity) ltac:(vm_compute; reflexivity)
           ltac:(reflexivity) "colour").
  right. split.
  - right. left. reflexivity.
  - intros [H|[H|[H|[H|[]]]]]; discriminate H.
Defined.

(** The theorem on a configuration with neither [path] nor
    [instance_name]. *)
Lemma factory_needs_instance_name_witness :
  fst (demo_factory cfg_anonymous true None (demo_session []))
  = Raise (PyExc KeyError "'instance_name'" "KeyError('instance_name')").
Proof.
  apply (factory_needs_instance_name config (list string) demo_construct
           demo_create_collection demo_init_args (fun _ => false) (fun _ => false)
           demo_repr Json.dumps cfg_anonymous [("colour", PStr "red")] true None
           FilesystemStorage (demo_session []) demo_missing_path []).
  - vm_compute. reflexivity.
  - vm_compute. reflexivity.
  - reflexivity.
  - vm_compute. reflexivity.
  - vm_compute. discriminate.
  - reflexivity.
Defined.

(** * The status store, from the state a call is made in *)

(** ** The codec: what [loads] makes of what [dumps] wrote *)

(** Appending to a string whose head is known. *)
Ltac push_append :=
  repeat match goal with
         | |- context [String ?c ?a +:+ ?s] =>
             change (String c a +:+ s) with (String c (a +:+ s))
         | |- context [EmptyString +:+ ?s] => change (EmptyString +:+ s) with s
         end.

Lemma append_assoc (a b c : string) : (a +:+ b) +:+ c = a +:+ (b +:+ c).
Proof. induction a as [|x a IH]; push_append; [reflexivity|]. rewrite IH. reflexivity. Qed.

Lemma substring_all (s : string) : String.substring 0 (String.length s) s = s.
Proof. induction s as [|c s IH]; simpl; [reflexivity|]. rewrite IH. reflexivity. Qed.

Lemma substring_skip (p s : string) (m : nat) :
  String.substring (String.length p) m (p +:+ s) = String.substring 0 m s.
Proof. induction p as [|c p IH]; push_append; [reflexivity|]. exact IH. Qed.

Module JsonFacts.

Import Json.

Lemma drop_prefix_append (p s : string) : drop_prefix p (p +:+ s) = Some s.
Proof.
  unfold drop_prefix. rewrite prefix_append, append_length, substring_skip.
  replace (String.length p + String.length s - String.length p)%nat
    with (String.length s) by lia.
  rewrite substring_all. reflexivity.
Qed.

(** *** Numbers *)

(** The character of a decimal digit is read back as the digit. *)
Lemma digit_of_dec_digit (d : Z) :
  0 <= d < 10 -> exists c, dec_digit d = String c EmptyString /\ digit_of c = Some d.
Proof.
  intros H. assert (Hd : d = 0 \/ d = 1 \/ d = 2 \/ d = 3 \/ d = 4 \/ d = 5 \/ d = 6 \/ d = 7
                         \/ d = 8 \/ d = 9) by lia.
  repeat (destruct Hd as [->|Hd]; [eexists; split; reflexivity|]).
  subst d. eexists; split; reflexivity.
Qed.

(** Reading the digits that [dec_aux] wrote before [acc]: the number they
    spell is appended to the number read so far.  The scale [p] is the
    power of ten of as many digits. *)
Lemma read_digits_dec_aux (fuel : nat) :
  forall n, 0 <= n < 10 ^ Z.of_nat fuel ->
  exists p, 0 < p /\
    forall acc a, read_digits (dec_aux fuel n acc) a = read_digits acc (a * p + n).
Proof.
  induction fuel as [|f IH]; intros n Hn.
  - change (10 ^ Z.of_nat 0) with 1 in Hn. exists 1. split; [lia|].
    intros acc a. cbn [dec_aux]. replace (a * 1 + n) with a by lia. reflexivity.
  - cbn [dec_aux].
    assert (Hmod : 0 <= n mod 10 < 10) by (apply Z.mod_pos_bound; lia).
    destruct (digit_of_dec_digit (n mod 10) Hmod) as (c & Hc & Hdig).
    destruct (Z.eqb_spec (n / 10) 0) as [Hz|Hnz].
    + exists 10. split; [lia|]. intros acc a. rewrite Hc. push_append; cbn [read_digits].
      rewrite Hdig. f_equal. pose proof (Z.div_mod n 10 ltac:(lia)). lia.
    + assert (Hq : 0 <= n / 10 < 10 ^ Z.of_nat f).
      { rewrite Nat2Z.inj_succ, Z.pow_succ_r in Hn by lia.
        split; [apply Z.div_pos; lia|]. apply Z.div_lt_upper_bound; lia. }
      destruct (IH (n / 10) Hq) as (p & Hp & Hread).
      exists (10 * p). split; [lia|]. intros acc a. rewrite Hread, Hc.
      push_append; cbn [read_digits]. rewrite Hdig. f_equal.
      pose proof (Z.div_mod n 10 ltac:(lia)). lia.
Qed.

(** [dec_aux] writes a digit first, and not a zero before other digits. *)
Lemma dec_aux_head (fuel : nat) :
  forall n acc, 0 < n < 10 ^ Z.of_nat fuel ->
  exists c r d, dec_aux fuel n acc = String c r /\ digit_of c = Some d /\ 0 < d.
Proof.
  induction fuel as [|f IH]; intros n acc Hn.
  - change (10 ^ Z.of_nat 0) with 1 in Hn. lia.
  - cbn [dec_aux].
    assert (Hmod : 0 <= n mod 10 < 10) by (apply Z.mod_pos_bound; lia).
    destruct (digit_of_dec_digit (n mod 10) Hmod) as (c & Hc & Hdig).
    destruct (Z.eqb_spec (n / 10) 0) as [Hz|Hnz].
    + exists c, acc, (n mod 10). rewrite Hc. split; [reflexivity|]. split; [exact Hdig|].
      pose proof (Z.div_mod n 10 ltac:(lia)). lia.
    + assert (Hq : 0 < n / 10 < 10 ^ Z.of_nat f).
      { rewrite Nat2Z.inj_succ, Z.pow_succ_r in Hn by lia.
        assert (0 <= n / 10) by (apply Z.div_pos; lia).
        split; [lia|]. apply Z.div_lt_upper_bound; lia. }
      apply IH. exact Hq.
Qed.

Lemma fuel_is_enough (n : Z) : 0 <= n -> n < 10 ^ Z.of_nat (S (Z.to_nat (Z.log2 n))).
Proof.
  intros Hn. rewrite Nat2Z.inj_succ, Z2Nat.id by apply Z.log2_nonneg.
  destruct (Z.eq_dec n 0) as [->|Hne]; [reflexivity|].
  pose proof (Z.log2_spec n ltac:(lia)) as (_ & Hlt).
  eapply Z.lt_le_trans; [exact Hlt|].
  apply Z.pow_le_mono_l. split; [lia|lia].
Qed.

Lemma delimited_read_digits (rest : string) (a : Z) :
  delimited rest = true -> read_digits rest a = (a, rest).
Proof.
  destruct rest as [|c r]; [reflexivity|]. cbn [delimited read_digits]. intros H.
  repeat (apply orb_true_iff in H as [H|H]); apply Ascii.eqb_eq in H; subst c; reflexivity.
Qed.

Lemma delimited_not_more (rest : string) :
  delimited rest = true ->
  match rest with
  | String c' _ => Ascii.eqb c' "."%char || Ascii.eqb c' "e"%char || Ascii.eqb c' "E"%char
  | EmptyString => false
  end = false.
Proof.
  destruct rest as [|c r]; [reflexivity|]. cbn [delimited]. intros H.
  repeat (apply orb_true_iff in H as [H|H]); apply Ascii.eqb_eq in H; subst c; reflexivity.
Qed.

Lemma delimited_no_digit (rest : string) :
  delimited rest = true ->
  match rest with
  | String c' _ => match digit_of c' with Some _ => true | None => false end
  | EmptyString => false
  end = false.
Proof.
  destruct rest as [|c r]; [reflexivity|]. cbn [delimited]. intros H.
  repeat (apply orb_true_iff in H as [H|H]); apply Ascii.eqb_eq in H; subst c; reflexivity.
Qed.

Lemma dec_aux_append (fuel : nat) :
  forall n acc rest, dec_aux fuel n acc +:+ rest = dec_aux fuel n (acc +:+ rest).
Proof.
  induction fuel as [|f IH]; intros n acc rest; [reflexivity|].
  cbn [dec_aux]. rewrite <- append_assoc.
  destruct (Z.eqb (n / 10) 0); [reflexivity|]. apply IH.
Qed.

Lemma format_dec_nonneg (n : Z) : 0 <= n -> format_dec n = dec_text n.
Proof. intros H. unfold format_dec. destruct (Z.ltb_spec n 0); [lia|reflexivity]. Qed.

Lemma format_dec_neg (n : Z) : n < 0 -> format_dec n = String "-"%char (dec_text (- n)).
Proof. intros H. unfold format_dec. destruct (Z.ltb_spec n 0); [reflexivity|lia]. Qed.

(** The decimal text starts with a digit. *)
Lemma dec_text_head (n : Z) :
  0 <= n -> exists c r d, dec_text n = String c r /\ digit_of c = Some d.
Proof.
  intros Hn. destruct (Z.eq_dec n 0) as [->|Hne].
  - exists "0"%char, EmptyString, 0. split; reflexivity.
  - destruct (dec_aux_head (S (Z.to_nat (Z.log2 n))) n EmptyString) as (c & r & d & H & Hd & _).
    { split; [lia|apply fuel_is_enough; exact Hn]. }
    exists c, r, d. split; [exact H|exact Hd].
Qed.

(** A natural number in decimal, followed by a delimiter, is read back. *)
Lemma read_nat_dec_text (n : Z) (rest : string) :
  0 <= n -> delimited rest = true ->
  read_nat (dec_text n +:+ rest) = Some (n, rest).
Proof.
  intros Hn Hrest. unfold dec_text.
  set (fuel := S (Z.to_nat (Z.log2 n))).
  pose proof (fuel_is_enough n Hn) as Hfuel. fold fuel in Hfuel.
  destruct (read_digits_dec_aux fuel n (conj Hn Hfuel)) as (p & Hp & Hread).
  rewrite dec_aux_append. push_append.
  assert (Hall : read_digits (dec_aux fuel n rest) 0 = (n, rest)).
  { rewrite Hread. cbn [Z.mul Z.add]. apply delimited_read_digits. exact Hrest. }
  destruct (Z.eq_dec n 0) as [Hz|Hnz].
  - subst n. unfold fuel. change (dec_aux _ 0 rest) with (String "0"%char rest).
    unfold read_nat. cbn [digit_of].
    change (read_digits (String "0"%char rest) 0) with (read_digits rest 0).
    rewrite (delimited_read_digits rest 0 Hrest).
    rewrite (delimited_no_digit rest Hrest), (delimited_not_more rest Hrest). reflexivity.
  - destruct (dec_aux_head fuel n rest ltac:(lia)) as (c & r & d & Hhead & Hd & Hpos).
    rewrite Hhead in Hall |- *. unfold read_nat. rewrite Hd, Hall.
    rewrite (delimited_not_more rest Hrest).
    destruct (Z.eqb_spec d 0) as [Hd0|_]; [lia|]. reflexivity.
Qed.

(** *** Strings *)

(** An escaped character is read back, and the reading goes on after
    it. *)
Lemma read_string_escape_char (c : ascii) (tail : string) :
  read_string (escape_char c +:+ tail)
  = match read_string tail with
    | Some (t, rest) => Some (String c t, rest)
    | None => None
    end.
Proof.
  destruct c as [[] [] [] [] [] [] [] []]; reflexivity.
Qed.

Lemma read_string_escape (s rest : string) :
  read_string (escape s +:+ String "034"%char rest) = Some (s, rest).
Proof.
  induction s as [|c s IH]; [reflexivity|].
  cbn [escape]. rewrite append_assoc, read_string_escape_char, IH. reflexivity.
Qed.

Lemma read_string_dump_string (s rest : string) :
  exists body,
    dump_string s +:+ rest = String "034"%char body /\ read_string body = Some (s, rest).
Proof.
  unfold dump_string, dq. push_append. eexists. split; [reflexivity|].
  rewrite append_assoc. push_append. apply read_string_escape.
Qed.

(** *** Values *)

(** [parse_value], [parse_elements] and [parse_members] one step on. *)
Lemma parse_value_string (fuel : nat) (body : string) :
  parse_value (S fuel) (String "034"%char body)
  = match read_string body with
    | Some (t, rest) => Some (PStr t, rest)
    | None => None
    end.
Proof. reflexivity. Qed.

Lemma parse_value_list (fuel : nat) (r : string) :
  parse_value (S fuel) (String "["%char r)
  = match head_is "]"%char (skip_ws r) with
    | Some rest => Some (PList [], rest)
    | None =>
        match parse_elements fuel r with
        | Some (l, rest) => Some (PList l, rest)
        | None => None
        end
    end.
Proof. reflexivity. Qed.

Lemma parse_value_dict (fuel : nat) (r : string) :
  parse_value (S fuel) (String "{"%char r)
  = match head_is "}"%char (skip_ws r) with
    | Some rest => Some (PDict [], rest)
    | None =>
        match parse_members fuel r [] with
        | Some (d, rest) => Some (PDict d, rest)
        | None => None
        end
    end.
Proof. reflexivity. Qed.

Lemma parse_value_minus (fuel : nat) (r : string) :
  parse_value (S fuel) (String "-"%char r)
  = match read_nat r with
    | Some (n, rest) => Some (PInt (- n), rest)
    | None => None
    end.
Proof. reflexivity. Qed.

Lemma parse_value_digit (fuel : nat) (c : ascii) (r : string) (d : Z) :
  digit_of c = Some d ->
  parse_value (S fuel) (String c r)
  = match read_nat (String c r) with
    | Some (n, rest) => Some (PInt n, rest)
    | None =>
        match drop_prefix "null" (String c r) with
        | Some rest => Some (PNone, rest)
        | None =>
            match drop_prefix "true" (String c r) with
            | Some rest => Some (PBool true, rest)
            | None =>
                match drop_prefix "false" (String c r) with
                | Some rest => Some (PBool false, rest)
                | None => None
                end
            end
        end
    end.
Proof.
  destruct c as [[] [] [] [] [] [] [] []]; intros H; try discriminate H; reflexivity.
Qed.

Lemma parse_value_null (fuel : nat) (rest : string) :
  parse_value (S fuel) ("null" +:+ rest) = Some (PNone, rest).
Proof.
  transitivity (match drop_prefix "null" ("null" +:+ rest) with
                | Some rest => Some (PNone, rest)
                | None => None
                end); [reflexivity|].
  rewrite drop_prefix_append. reflexivity.
Qed.

Lemma parse_value_true (fuel : nat) (rest : string) :
  parse_value (S fuel) ("true" +:+ rest) = Some (PBool true, rest).
Proof.
  transitivity (match drop_prefix "true" ("true" +:+ rest) with
                | Some rest => Some (PBool true, rest)
                | None => None
                end); [reflexivity|].
  rewrite drop_prefix_append. reflexivity.
Qed.

Lemma parse_value_false (fuel : nat) (rest : string) :
  parse_value (S fuel) ("false" +:+ rest) = Some (PBool false, rest).
Proof.
  transitivity (match drop_prefix "false" ("false" +:+ rest) with
                | Some rest => Some (PBool false, rest)
                | None => None
                end); [reflexivity|].
  rewrite drop_prefix_append. reflexivity.
Qed.

Lemma parse_elements_step (fuel : nat) (s : string) :
  parse_elements (S fuel) s
  = match parse_value fuel s with
    | None => None
    | Some (v, rest) =>
        match head_is "]"%char (skip_ws rest) with
        | Some rest' => Some ([v], rest')
        | None =>
            match head_is ","%char (skip_ws rest) with
            | Some rest' =>
                match parse_elements fuel rest' with
                | Some (l, rest'') => Some (v :: l, rest'')
                | None => None
                end
            | None => None
            end
        end
    end.
Proof. reflexivity. Qed.

Lemma parse_members_step (fuel : nat) (body : string) (acc : list (pyval * pyval)) :
  parse_members (S fuel) (String "034"%char body) acc
  = match read_string body with
    | None => None
    | Some (k, rest) =>
        match head_is ":"%char (skip_ws rest) with
        | None => None
        | Some rest' =>
            match parse_value fuel rest' with
            | None => None
            | Some (v, rest'') =>
                match head_is "}"%char (skip_ws rest'') with
                | Some rest3 => Some (dict_set (PStr k) v acc, rest3)
                | None =>
                    match head_is ","%char (skip_ws rest'') with
                    | Some rest3 => parse_members fuel rest3 (dict_set (PStr k) v acc)
                    | None => None
                    end
                end
            end
        end
    end.
Proof. reflexivity. Qed.

(** The space that [dumps] writes after a comma and a colon is skipped. *)
Lemma parse_value_space (fuel : nat) (s : string) :
  parse_value fuel (String " "%char s) = parse_value fuel s.
Proof. destruct fuel; reflexivity. Qed.

Lemma parse_elements_space (fuel : nat) (s : string) :
  parse_elements fuel (String " "%char s) = parse_elements fuel s.
Proof.
  destruct fuel; [reflexivity|]. rewrite !parse_elements_step, parse_value_space. reflexivity.
Qed.

Lemma parse_members_space (fuel : nat) (s : string) (acc : list (pyval * pyval)) :
  parse_members fuel (String " "%char s) acc = parse_members fuel s acc.
Proof. destruct fuel; reflexivity. Qed.

(** A digit is none of the characters that open another kind of value or
    close an array or an object, and it is no white space. *)
Lemma digit_is_plain (c : ascii) (d : Z) :
  digit_of c = Some d ->
  is_ws c = false /\ Ascii.eqb c "]"%char = false /\ Ascii.eqb c "}"%char = false.
Proof.
  destruct c as [[] [] [] [] [] [] [] []]; intros H; try discriminate H; repeat split.
Qed.

Lemma opens_value_append (t s : string) : opens_value t -> opens_value (t +:+ s).
Proof.
  intros (c & r & -> & H). exists c, (r +:+ s). split; [reflexivity|exact H].
Qed.

Lemma opens_value_not_closed (t : string) :
  opens_value t ->
  head_is "]"%char (skip_ws t) = None /\ head_is "}"%char (skip_ws t) = None.
Proof.
  intros (c & r & -> & Hws & Hb & Hc). cbn [skip_ws]. rewrite Hws. cbn [head_is].
  rewrite Hb, Hc. split; reflexivity.
Qed.

Lemma dumps_opens_value (v : pyval) (t : string) : dumps v = Some t -> opens_value t.
Proof.
  destruct v as [|[]|n|s|l|d|o]; cbn [dumps]; intros H.
  - injection H as <-. eexists _, _. split; [reflexivity|]. repeat split.
  - injection H as <-. eexists _, _. split; [reflexivity|]. repeat split.
  - injection H as <-. eexists _, _. split; [reflexivity|]. repeat split.
  - injection H as <-. destruct (Z.ltb_spec n 0) as [Hneg|Hpos].
    + rewrite (format_dec_neg n Hneg). eexists _, _. split; [reflexivity|]. repeat split.
    + rewrite (format_dec_nonneg n Hpos).
      destruct (dec_text_head n Hpos) as (c & r & dg & -> & Hd).
      exists c, r. split; [reflexivity|]. exact (digit_is_plain c dg Hd).
  - injection H as <-. unfold dump_string, dq. push_append.
    eexists _, _. split; [reflexivity|]. repeat split.
  - destruct (dump_items dumps l); [|discriminate]. injection H as <-. push_append.
    eexists _, _. split; [reflexivity|]. repeat split.
  - destruct (dump_members dumps d); [|discriminate]. injection H as <-. push_append.
    eexists _, _. split; [reflexivity|]. repeat split.
  - discriminate.
Qed.

Lemma delimited_skip_ws (rest : string) : delimited rest = true -> skip_ws rest = rest.
Proof.
  destruct rest as [|c r]; [reflexivity|]. cbn [delimited skip_ws]. intros H.
  repeat (apply orb_true_iff in H as [H|H]); apply Ascii.eqb_eq in H; subst c; reflexivity.
Qed.

(** A key that differs from the keys before it is added at the end. *)
Lemma dict_set_distinct (k v : pyval) (acc r : list (pyval * pyval)) :
  distinct_keys (map fst (acc ++ (k, v) :: r)) = true ->
  dict_set k v acc = acc ++ [(k, v)].
Proof.
  induction acc as [|[k' v'] acc IH]; [reflexivity|].
  cbn [app map fst distinct_keys dict_set]. intros H.
  apply andb_true_iff in H as (Hk & Hrest).
  rewrite map_app, existsb_app in Hk. cbn [map fst existsb] in Hk.
  destruct (key_eqb k' k); [rewrite orb_true_r in Hk; discriminate|].
  rewrite (IH Hrest). reflexivity.
Qed.

Ltac need_fuel fuel H :=
  destruct fuel as [|fuel];
  [exfalso; revert H; rewrite ?append_length; cbn [String.length]; lia|].

Lemma reads_back_elements (l : list pyval) :
  Forall reads_back l -> forallb json_native l = true ->
  exists its,
    dump_items dumps l = Some its /\
    (l <> [] ->
     opens_value its /\
     forall fuel rest,
       (String.length its + 1 <= fuel)%nat ->
       parse_elements fuel (its +:+ String "]"%char rest) = Some (l, rest)).
Proof.
  induction l as [|x r IH]; intros HF Hnat.
  - exists EmptyString. split; [reflexivity|]. intros H. contradiction.
  - inversion HF as [|x' r' Hx Hr]; subst x' r'. cbn [forallb] in Hnat.
    apply andb_true_iff in Hnat as (Hnx & Hnr).
    destruct (Hx Hnx) as (a & Ha & Hread).
    destruct (IH Hr Hnr) as (b & Hb & Hrest).
    cbn [dump_items]. rewrite Ha. destruct r as [|y r'].
    + exists a. split; [reflexivity|]. intros _. split; [exact (dumps_opens_value x a Ha)|].
      intros fuel rest Hlen. need_fuel fuel Hlen.
      rewrite parse_elements_step, (Hread fuel (String "]"%char rest)); [reflexivity|lia|reflexivity].
    + rewrite Hb. exists (a +:+ ", " +:+ b). split; [reflexivity|]. intros _.
      split; [apply opens_value_append; exact (dumps_opens_value x a Ha)|].
      destruct (Hrest ltac:(discriminate)) as (_ & Hmore).
      intros fuel rest Hlen. need_fuel fuel Hlen.
      rewrite !append_length in Hlen. cbn [String.length] in Hlen.
      rewrite !append_assoc. push_append.
      rewrite parse_elements_step, (Hread fuel); [|lia|reflexivity].
      cbn [skip_ws is_ws head_is Ascii.eqb Bool.eqb orb].
      rewrite parse_elements_space, Hmore by lia. reflexivity.
Qed.

Lemma reads_back_members (d : list (pyval * pyval)) :
  Forall (fun kv => reads_back (snd kv)) d ->
  forallb (fun kv => is_PStr (fst kv) && json_native (snd kv)) d = true ->
  exists mems,
    dump_members dumps d = Some mems /\
    (d <> [] ->
     (exists body, mems = String "034"%char body) /\
     forall acc fuel rest,
       distinct_keys (map fst (acc ++ d)) = true ->
       (String.length mems + 1 <= fuel)%nat ->
       parse_members fuel (mems +:+ String "}"%char rest) acc = Some (acc ++ d, rest)).
Proof.
  induction d as [|[k v] r IH]; intros HF Hnat.
  - exists EmptyString. split; [reflexivity|]. intros H. contradiction.
  - inversion HF as [|x' r' Hv Hr]; subst x' r'. cbn [forallb fst snd] in Hnat, Hv.
    apply andb_true_iff in Hnat as (Hkv & Hnr).
    apply andb_true_iff in Hkv as (Hk & Hnv).
    destruct k as [| | |ks| | |]; try discriminate Hk. clear Hk.
    destruct (Hv Hnv) as (b & Hb & Hread).
    destruct (IH Hr Hnr) as (t & Ht & Hrest).
    cbn [dump_members dump_key]. rewrite Hb.
    assert (Hkey : forall tail, exists body,
               dump_string ks +:+ tail = String "034"%char body /\
               read_string body = Some (ks, tail)).
    { intros tail. apply read_string_dump_string. }
    destruct r as [|kv r'].
    + exists (dump_string ks +:+ ": " +:+ b). split; [reflexivity|]. intros _. split.
      { destruct (Hkey (": " +:+ b)) as (body & Hbody & _). exists body. exact Hbody. }
      intros acc fuel rest Hdist Hlen. need_fuel fuel Hlen.
      rewrite !append_length in Hlen. cbn [String.length] in Hlen.
      rewrite !append_assoc. push_append.
      destruct (Hkey (String ":"%char (String " "%char (b +:+ String "}"%char rest))))
        as (body & -> & Hbody).
      rewrite parse_members_step, Hbody.
      cbn [skip_ws is_ws head_is Ascii.eqb Bool.eqb orb].
      rewrite parse_value_space, (Hread fuel); [|lia|reflexivity].
      cbn [skip_ws is_ws head_is Ascii.eqb Bool.eqb orb].
      rewrite (dict_set_distinct _ _ _ _ Hdist). reflexivity.
    + rewrite Ht. exists (dump_string ks +:+ ": " +:+ b +:+ ", " +:+ t).
      split; [reflexivity|]. intros _. split.
      { destruct (Hkey (": " +:+ b +:+ ", " +:+ t)) as (body & Hbody & _).
        exists body. exact Hbody. }
      destruct (Hrest ltac:(discriminate)) as (_ & Hmore).
      intros acc fuel rest Hdist Hlen. need_fuel fuel Hlen.
      rewrite !append_length in Hlen. cbn [String.length] in Hlen.
      rewrite !append_assoc. push_append.
      destruct (Hkey (String ":"%char (String " "%char
                        (b +:+ String ","%char (String " "%char
                           (t +:+ String "}"%char rest))))))
        as (body & -> & Hbody).
      rewrite parse_members_step, Hbody.
      cbn [skip_ws is_ws head_is Ascii.eqb Bool.eqb orb].
      rewrite parse_value_space, (Hread fuel); [|lia|reflexivity].
      cbn [skip_ws is_ws head_is Ascii.eqb Bool.eqb orb].
      rewrite parse_members_space, (dict_set_distinct _ _ _ _ Hdist).
      rewrite Hmore; [|rewrite <- app_assoc; exact Hdist|lia].
      rewrite <- app_assoc. reflexivity.
Qed.

(** Every value that [json.loads] can return is written by [dumps] and
    read back from the text. *)
Lemma reads_back_all (v : pyval) : reads_back v.
Proof.
  induction v as [|b|z|s|l IH|d IH|name] using pyval_nested_ind; intros Hnat.
  - exists "null". split; [reflexivity|]. intros fuel rest Hlen _. need_fuel fuel Hlen.
    apply parse_value_null.
  - destruct b.
    + exists "true". split; [reflexivity|]. intros fuel rest Hlen _. need_fuel fuel Hlen.
      apply parse_value_true.
    + exists "false". split; [reflexivity|]. intros fuel rest Hlen _. need_fuel fuel Hlen.
      apply parse_value_false.
  - exists (format_dec z). split; [reflexivity|]. intros fuel rest Hlen Hrest.
    destruct (Z.ltb_spec z 0) as [Hneg|Hpos].
    + rewrite (format_dec_neg z Hneg) in Hlen |- *. need_fuel fuel Hlen. push_append.
      rewrite parse_value_minus, read_nat_dec_text by (lia || exact Hrest).
      replace (- - z) with z by lia. reflexivity.
    + rewrite (format_dec_nonneg z Hpos) in Hlen |- *.
      destruct (dec_text_head z Hpos) as (c & r & dg & Hhead & Hd).
      assert (Hnat' : read_nat (dec_text z +:+ rest) = Some (z, rest))
        by (apply read_nat_dec_text; assumption).
      rewrite Hhead in Hlen, Hnat' |- *. need_fuel fuel Hlen. push_append.
      revert Hnat'. push_append. intros Hnat'.
      rewrite (parse_value_digit fuel c _ dg Hd), Hnat'. reflexivity.
  - exists (dump_string s). split; [reflexivity|]. intros fuel rest Hlen _.
    destruct (read_string_dump_string s rest) as (body & Hbody & Hread).
    assert (Hpos : (0 < String.length (dump_string s))%nat).
    { unfold dump_string, dq. push_append. cbn [String.length]. lia. }
    destruct fuel as [|fuel]; [lia|].
    rewrite Hbody, parse_value_string, Hread. reflexivity.
  - cbn [json_native] in Hnat. destruct (reads_back_elements l IH Hnat) as (its & Hits & Hread).
    cbn [dumps]. rewrite Hits. eexists. split; [reflexivity|].
    intros fuel rest Hlen _. need_fuel fuel Hlen.
    rewrite !append_length in Hlen. cbn [String.length] in Hlen.
    push_append. rewrite append_assoc. push_append. rewrite parse_value_list.
    destruct l as [|x r].
    + injection Hits as <-. reflexivity.
    + destruct (Hread ltac:(discriminate)) as (Hopen & Hparse).
      destruct (opens_value_not_closed _ (opens_value_append its (String "]"%char rest) Hopen))
        as (-> & _).
      rewrite Hparse by lia. reflexivity.
  - cbn [json_native] in Hnat. apply andb_true_iff in Hnat as (Hall & Hdist).
    destruct (reads_back_members d IH Hall) as (mems & Hmems & Hread).
    cbn [dumps]. rewrite Hmems. eexists. split; [reflexivity|].
    intros fuel rest Hlen _. need_fuel fuel Hlen.
    rewrite !append_length in Hlen. cbn [String.length] in Hlen.
    push_append. rewrite append_assoc. push_append. rewrite parse_value_dict.
    destruct d as [|kv r].
    + injection Hmems as <-. reflexivity.
    + destruct (Hread ltac:(discriminate)) as ((body & ->) & Hparse). push_append.
      cbn [skip_ws is_ws head_is Ascii.eqb Bool.eqb orb].
      assert (Hp : parse_members fuel (String "034"%char body +:+ String "}"%char rest) []
                   = Some ([] ++ kv :: r, rest)).
      { apply Hparse; [exact Hdist|]. cbn [String.length] in Hlen |- *. lia. }
      revert Hp. push_append. intros Hp. rewrite Hp. reflexivity.
  - discriminate Hnat.
Qed.

Lemma append_empty_r (s : string) : s +:+ EmptyString = s.
Proof. induction s as [|c s IH]; push_append; [reflexivity|]. rewrite IH. reflexivity. Qed.

(** The round trip of the codec. *)
Lemma loads_dumps (v : pyval) :
  json_native v = true -> exists t, dumps v = Some t /\ loads t = Some v.
Proof.
  intros Hnat. destruct (reads_back_all v Hnat) as (t & Ht & Hread).
  exists t. split; [exact Ht|]. unfold loads.
  specialize (Hread (2 * String.length t + 2)%nat EmptyString ltac:(lia) eq_refl).
  rewrite append_empty_r in Hread. rewrite Hread. reflexivity.
Qed.

End JsonFacts.

(** ** Paths and directories *)

Lemma upto_last_slash_length (p : string) :
  (String.length (upto_last_slash p) <= String.length p)%nat.
Proof.
  induction p as [|c p IH]; [reflexivity|]. cbn [upto_last_slash].
  destruct (upto_last_slash p) as [|c' h].
  - destruct (is_slash c); cbn [String.length]; lia.
  - cbn [String.length] in *. lia.
Qed.

Lemma rstrip_slash_length (s : string) :
  (String.length (rstrip_slash s) <= String.length s)%nat.
Proof.
  induction s as [|c s IH]; [reflexivity|]. cbn [rstrip_slash].
  destruct (rstrip_slash s) as [|c' h].
  - destruct (is_slash c); cbn [String.length]; lia.
  - cbn [String.length] in *. lia.
Qed.

(** What [upto_last_slash] keeps ends with a slash. *)
Lemma upto_last_slash_ends (p : string) :
  upto_last_slash p = EmptyString \/ ends_with_slash (upto_last_slash p) = true.
Proof.
  induction p as [|c p IH]; [left; reflexivity|]. cbn [upto_last_slash].
  destruct (upto_last_slash p) as [|c' h].
  - destruct (is_slash c) eqn:Hc; [right|left; reflexivity].
    cbn [ends_with_slash]. exact Hc.
  - right. destruct IH as [IH|IH]; [discriminate|]. exact IH.
Qed.

Lemma rstrip_slash_shorter (s : string) :
  ends_with_slash s = true -> (String.length (rstrip_slash s) < String.length s)%nat.
Proof.
  induction s as [|c s IH]; [discriminate|]. intros H. cbn [rstrip_slash].
  destruct s as [|c' s'].
  - cbn [ends_with_slash] in H. cbn [rstrip_slash]. rewrite H. cbn [String.length]. lia.
  - assert (H' : ends_with_slash (String c' s') = true) by exact H.
    specialize (IH H'). destruct (rstrip_slash (String c' s')) as [|c2 h].
    + destruct (is_slash c); cbn [String.length] in *; lia.
    + cbn [String.length] in *. lia.
Qed.

Lemma dirname_length (p : string) :
  (String.length (os_path_dirname p) <= String.length p)%nat.
Proof.
  unfold os_path_dirname. pose proof (upto_last_slash_length p) as Hh.
  pose proof (rstrip_slash_length (upto_last_slash p)) as Hr.
  destruct (truthy (upto_last_slash p) && negb (all_slashes (upto_last_slash p))); lia.
Qed.

(** A directory that is not the root is shorter than the path. *)
Lemma dirname_shorter (p : string) :
  truthy (os_path_dirname p) = true -> all_slashes (os_path_dirname p) = false ->
  (String.length (os_path_dirname p) < String.length p)%nat.
Proof.
  unfold os_path_dirname. pose proof (upto_last_slash_length p) as Hh.
  destruct (truthy (upto_last_slash p)) eqn:Ht; cbn [andb].
  - destruct (all_slashes (upto_last_slash p)) eqn:Ha; cbn [negb].
    + intros _ H. rewrite Ha in H. discriminate.
    + intros _ _. destruct (upto_last_slash_ends p) as [He|He].
      * rewrite He in Ht. discriminate.
      * pose proof (rstrip_slash_shorter _ He). lia.
  - intros H. rewrite Ht in H. discriminate.
Qed.

Lemma ancestors_length (n : nat) :
  forall d a, In a (ancestors n d) -> (String.length a <= String.length d)%nat.
Proof.
  induction n as [|n IH]; intros d a; [intros []|]. cbn [ancestors].
  pose proof (dirname_length d) as Hd.
  destruct (negb (truthy (os_path_dirname d)) || all_slashes (os_path_dirname d)
            || String.eqb (os_path_dirname d) d); [intros []|].
  intros [<-|Hin]; [exact Hd|]. specialize (IH _ _ Hin). lia.
Qed.

Lemma fold_missing_dirs_other (perm : Z) (up : list string) (fs : gmap string node)
    (k : string) :
  ~ In k up ->
  fold_right (fun a m => match m !! a with
                         | None => <[a := Dir perm]> m
                         | Some _ => m
                         end) fs up !! k = fs !! k.
Proof.
  induction up as [|a up IH]; intros Hk; [reflexivity|]. cbn [fold_right].
  assert (Hne : a <> k) by (intros ->; apply Hk; left; reflexivity).
  assert (Hup : ~ In k up) by (intros H; apply Hk; right; exact H).
  destruct (fold_right _ fs up !! a); [exact (IH Hup)|].
  rewrite lookup_insert_ne by exact Hne. exact (IH Hup).
Qed.

Section DirectoryFacts.

Variable umask : Z.

(** Where the status directory is there or can be made,
    [prepare_status_path] returns and leaves it in place; what is at the
    path itself stays, and nothing is removed. *)
Lemma prepare_status_path_available (path : string) (w : world) :
  status_dir_available w path = true ->
  exists w1,
    prepare_status_path umask path w = (Ok tt, w1) /\
    status_dir_exists w1 path = true /\
    files w1 !! path = files w !! path /\
    (trace w1 = trace w \/ trace w1 = EvMakedirs (os_path_dirname path) :: trace w).
Proof.
  unfold status_dir_available, status_dir_exists. cbv zeta. intros H.
  apply andb_true_iff in H as (Ht & Hd).
  rewrite prepare_status_path_run. cbv zeta. rewrite Ht. cbn [negb andb].
  destruct (all_slashes (os_path_dirname path)) eqn:Hroot.
  - exists w. split; [reflexivity|]. split; [|split; [reflexivity|left; reflexivity]].
    destruct (files w !! os_path_dirname path) as [[c q|q]|]; [discriminate|reflexivity|].
    reflexivity.
  - destruct (files w !! os_path_dirname path) as [[c q|q]|] eqn:Hn.
    + discriminate.
    + exists w. rewrite Hn. split; [reflexivity|]. split; [reflexivity|].
      split; [reflexivity|left; reflexivity].
    + cbn [orb] in Hd. apply negb_true_iff in Hd. rewrite Hd.
      eexists. split; [reflexivity|]. cbn [files trace].
      rewrite lookup_insert_eq. split; [reflexivity|]. split; [|right; reflexivity].
      pose proof (dirname_shorter path Ht Hroot) as Hshort.
      rewrite lookup_insert_ne by (intros Heq; rewrite Heq in Hshort; lia).
      apply fold_missing_dirs_other. intros Hin.
      apply ancestors_length in Hin. lia.
Qed.

End DirectoryFacts.

Lemma removals_cons (ev : event) (fs : gmap string node) (tr : list event) :
  (forall p, ev <> EvRemove p) -> removals (World fs (ev :: tr)) = removals (World fs tr).
Proof. intros H. unfold removals. cbn [trace List.filter]. destruct ev; try reflexivity.
  exfalso. exact (H _ eq_refl). Qed.

(** [dict(v)] is [dict_of v], whatever the state. *)
Lemma py_dict_pure {S : Type} (v : pyval) (s : S) : py_dict v s = (dict_of v, s).
Proof.
  unfold dict_of. pose proof (py_dict_state v s) as Hs.
  assert (Hf : fst (py_dict v s) = fst (py_dict v tt)).
  { unfold py_dict. destruct v; try reflexivity; cbn [py_iter]; apply dict_update_any_state. }
  destruct (py_dict v s) as [r s']. cbn [fst snd] in *. subst. reflexivity.
Qed.

(** ** Loading *)

Section LoadFacts.

Variable expand_path : string -> string.
Variable json_loads : string -> option pyval.

(** [load_status] on a state without a legacy file to rename, where a
    file is at the status path: the outcome is that of decoding the
    file, and the content of the file stays. *)
Lemma load_status_decodes (w : world) (base_path pair data_type : string)
    (collection : option string) (c : content) (perm : Z) :
  no_legacy_file expand_path w base_path pair collection data_type ->
  files w !! status_path expand_path base_path pair collection data_type
  = Some (File c perm) ->
  fst (load_status expand_path json_loads base_path pair collection (Some data_type) w)
  = fst (decode json_loads c w) /\
  content_at (snd (load_status expand_path json_loads base_path pair collection
                     (Some data_type) w))
    (status_path expand_path base_path pair collection data_type) = Some c.
Proof.
  intros Hquiet Hfile.
  pose proof (get_status_path_quiet expand_path w base_path pair data_type collection Hquiet)
    as Hpath.
  destruct (load_status_run expand_path json_loads w w base_path pair _ collection
              (Some data_type) Hpath) as (_ & Hread).
  destruct (Hread c perm Hfile) as (w2 & Hrun & _ & Hcontent).
  rewrite Hrun. split; [apply decode_any_state|].
  rewrite decode_state. exact Hcontent.
Qed.

(** C6, as the code has it: on a state where [get_status_path] has no
    legacy file to rename (no regular file is at the unsuffixed path, or
    the data type is not [items]), [load_status] returns the empty
    mapping and changes nothing when nothing is at the status path; and
    when the file there holds a text that is not JSON it returns the
    empty mapping too, without raising, and leaves the text as it is. *)
Theorem load_status_absent_or_invalid (w : world) (base_path pair data_type : string)
    (collection : option string) :
  no_legacy_file expand_path w base_path pair collection data_type ->
  (files w !! status_path expand_path base_path pair collection data_type = None ->
     load_status expand_path json_loads base_path pair collection (Some data_type) w
     = (Ok [], w)) /\
  (forall text perm,
     files w !! status_path expand_path base_path pair collection data_type
     = Some (File (Bytes text) perm) ->
     json_loads text = None ->
     exists w2,
       load_status expand_path json_loads base_path pair collection (Some data_type) w
       = (Ok [], w2) /\
       content_at w2 (status_path expand_path base_path pair collection data_type)
       = Some (Bytes text)).
Proof.
  intros Hquiet.
  pose proof (get_status_path_quiet expand_path w base_path pair data_type collection Hquiet)
    as Hpath.
  split.
  - intros Habsent.
    destruct (load_status_run expand_path json_loads w w base_path pair _ collection
                (Some data_type) Hpath) as (Hnone & _).
    exact (Hnone Habsent).
  - intros text perm Hfile Hbad.
    destruct (load_status_decodes w base_path pair data_type collection _ _ Hquiet Hfile)
      as (Hout & Hcontent).
    destruct (load_status expand_path json_loads base_path pair collection (Some data_type) w)
      as [r w2]. cbn [fst snd] in *. exists w2. split; [|exact Hcontent].
    rewrite Hout. unfold decode, json_load. rewrite Hbad. reflexivity.
Qed.

(** C9, as the code has it: on a state without a legacy file to rename,
    where the status file holds JSON with the value [v], [load_status]
    ends as [dict(v)] does, except that a [ValueError] is caught and
    gives the empty mapping.  So a value that is not iterable (a number,
    a boolean, [null]) makes it raise a [TypeError], and so does a list
    whose first element is not iterable; a string that is not empty,
    which [dict()] refuses with a [ValueError], gives the empty
    mapping. *)
Theorem load_status_non_object (w : world) (base_path pair data_type text : string)
    (collection : option string) (perm : Z) (v : pyval) :
  no_legacy_file expand_path w base_path pair collection data_type ->
  files w !! status_path expand_path base_path pair collection data_type
  = Some (File (Bytes text) perm) ->
  json_loads text = Some v ->
  fst (load_status expand_path json_loads base_path pair collection (Some data_type) w)
  = caught_ValueError (dict_of v) /\
  (py_iter v = None ->
     exists msg repr_,
       fst (load_status expand_path json_loads base_path pair collection (Some data_type) w)
       = Raise (PyExc TypeError msg repr_)) /\
  (forall x r, v = PList (x :: r) -> py_iter x = None ->
     exists msg repr_,
       fst (load_status expand_path json_loads base_path pair collection (Some data_type) w)
       = Raise (PyExc TypeError msg repr_)) /\
  (forall c s, v = PStr (String c s) ->
     (exists msg repr_, dict_of v = Raise (PyExc ValueError msg repr_)) /\
     fst (load_status expand_path json_loads base_path pair collection (Some data_type) w)
     = Ok []).
Proof.
  intros Hquiet Hfile Hv.
  destruct (load_status_decodes w base_path pair data_type collection _ _ Hquiet Hfile)
    as (Hout & _).
  assert (Hlaw : fst (load_status expand_path json_loads base_path pair collection
                        (Some data_type) w) = caught_ValueError (dict_of v)).
  { rewrite Hout. unfold decode, json_load. rewrite Hv. unfold try_except.
    unfold mbind at 1, M_bind at 1. unfold mret at 1, M_ret at 1.
    rewrite py_dict_pure. unfold caught_ValueError.
    destruct (dict_of v) as [d|e]; [reflexivity|].
    destruct (is_ValueError e); reflexivity. }
  split; [exact Hlaw|]. rewrite Hlaw. split; [|split].
  - intros Hit. destruct v; try discriminate Hit; do 2 eexists; reflexivity.
  - intros x r -> Hx. unfold dict_of, py_dict. cbn [py_iter dict_update]. rewrite Hx.
    do 2 eexists. reflexivity.
  - intros c s ->. split; do 2 try eexists; reflexivity.
Qed.

End LoadFacts.

(** The theorem on an empty world and on a file that holds [not json]. *)
Lemma load_status_absent_or_invalid_witness :
  load_status (fun p => p) Json.loads "status" "pair" None (Some "items") empty_world
  = (Ok [], empty_world) /\
  exists w2,
    load_status (fun p => p) Json.loads "status" "pair" None (Some "items")
      (one_file "status/pair.items" "not json" 384) = (Ok [], w2) /\
    content_at w2 "status/pair.items" = Some (Bytes "not json").
Proof.
  split.
  - destruct (load_status_absent_or_invalid (fun p => p) Json.loads empty_world
                "status" "pair" "items" None ltac:(left; vm_compute; reflexivity)) as (Habsent & _).
    apply Habsent. vm_compute. reflexivity.
  - destruct (load_status_absent_or_invalid (fun p => p) Json.loads
                (one_file "status/pair.items" "not json" 384)
                "status" "pair" "items" None
                ltac:(left; vm_compute; reflexivity)) as (_ & Hinvalid).
    apply (Hinvalid "not json" 384).
    + vm_compute. reflexivity.
    + vm_compute. reflexivity.
Defined.

(** C6 as stated fails where a legacy file is waiting: nothing is at the
    status path [status/pair.items], and [load_status] does not return
    the empty mapping.  It renames the extensionless file [status/pair]
    to the status path and returns the mapping that file holds. *)
Lemma load_status_absent_claim_fails :
  files legacy_only_world !! "status/pair.items" = None /\
  fst (load_status (fun p => p) Json.loads "status" "pair" None (Some "items")
         legacy_only_world) = Ok sample_status /\
  sample_status <> [].
Proof.
  split; [vm_compute; reflexivity|]. split; [vm_compute; reflexivity|discriminate].
Qed.

(** The theorem on a file that holds the JSON number [5]. *)
Lemma load_status_non_object_witness :
  exists msg repr_,
    fst (load_status (fun p => p) Json.loads "status" "pair" None (Some "items")
           (one_file "status/pair.items" "5" 384)) = Raise (PyExc TypeError msg repr_).
Proof.
  destruct (load_status_non_object (fun p => p) Json.loads
              (one_file "status/pair.items" "5" 384) "status" "pair" "items" "5" None 384
              (PInt 5)
              ltac:(left; vm_compute; reflexivity)
              ltac:(vm_compute; reflexivity) ltac:(vm_compute; reflexivity))
    as (_ & Hraise & _).
  exact (Hraise eq_refl).
Defined.

(** C9 as stated fails on a JSON string: the text is valid JSON, its
    value is no object and [dict()] cannot convert it, and yet
    [load_status] does not raise.  The error of [dict()] is a
    [ValueError], which is caught, and the result is the empty
    mapping. *)
Lemma load_status_non_object_claim_fails :
  Json.loads (dq +:+ "ab" +:+ dq) = Some (PStr "ab") /\
  (exists msg repr_, dict_of (PStr "ab") = Raise (PyExc ValueError msg repr_)) /\
  fst (load_status (fun p => p) Json.loads "status" "pair" None (Some "items")
         (one_file "status/pair.items" (dq +:+ "ab" +:+ dq) 384)) = Ok [].
Proof.
  split; [vm_compute; reflexivity|]. split; [do 2 eexists; reflexivity|].
  vm_compute. reflexivity.
Qed.

(** ** Saving, then loading *)

Section SaveLoadFacts.

Variable expand_path : string -> string.
Variable umask : Z.
Variable atomic_write_mode : Z.

(** [save_status] returns when the status directory is there or can be
    made, no directory sits at the status path, and the data can be
    serialised. *)
Lemma save_status_returns (json_dumps : pyval -> option string) (w : world)
    (base_path pair data_type text : string) (data : list (pyval * pyval))
    (collection : option string) :
  status_dir_available w (status_path expand_path base_path pair collection data_type) = true ->
  is_dir_at w (status_path expand_path base_path pair collection data_type) = false ->
  json_dumps (PDict data) = Some text ->
  exists w1,
    save_status expand_path umask atomic_write_mode json_dumps
      base_path pair data_type data collection w = (Ok tt, w1).
Proof.
  unfold save_status, status_path.
  fold (unsuffixed_path expand_path base_path pair collection).
  set (path := unsuffixed_path expand_path base_path pair collection +:+ "." +:+ data_type).
  intros Hav Hnd Hdump.
  destruct (prepare_status_path_available umask path w Hav) as (w0 & Hprep & Hdir & Hsame & _).
  rewrite (bind_Ok _ _ _ _ _ Hprep).
  unfold is_dir_at in Hnd. rewrite <- Hsame in Hnd.
  unfold status_dir_exists in Hdir. apply andb_true_iff in Hdir as (Htruthy & Hd).
  unfold atomic_write, parent_error. run_prims. destruct w0 as [fs tr]; cbn [files trace] in *.
  rewrite Htruthy. cbn [negb orb].
  destruct (fs !! os_path_dirname path) as [[c p|p]|]; try discriminate;
    rewrite ?Hd, Hdump;
    destruct (fs !! path) as [[c' p'|p']|]; try discriminate;
    cbn [files]; rewrite lookup_insert_eq; eexists; reflexivity.
Qed.


End SaveLoadFacts.



(** ** The incremental store *)

Section EntriesFacts.

Variable umask : Z.

(** [prepare_status_path] leaves every entry that was there. *)
Lemma prepare_status_path_entries (path : string) (w w1 : world) :
  prepare_status_path umask path w = (Ok tt, w1) ->
  forall k n, files w !! k = Some n -> files w1 !! k = Some n.
Proof.
  rewrite prepare_status_path_run. cbv zeta.
  destruct (truthy (os_path_dirname path)); cbn [negb]; [|discriminate].
  destruct (all_slashes (os_path_dirname path)).
  - intros [= <-] k n H. exact H.
  - destruct (files w !! os_path_dirname path) as [n'|] eqn:Hd.
    + intros [= <-] k n H. exact H.
    + destruct (ancestor_is_file w (os_path_dirname path)); [discriminate|].
      intros [= <-] k n Hk. cbn [files].
      rewrite lookup_insert_ne by congruence. apply fold_missing_dirs_lookup. exact Hk.
Qed.

End EntriesFacts.

Section MigrationFacts.

Variable expand_path : string -> string.
Variable umask : Z.
Variable json_loads : string -> option pyval.

(** A peek that raises has changed no file and removed none, and what it
    looked at was no store. *)
Lemma peek_legacy_status_raises (p : string) (w w' : world) (e : exn) :
  peek_legacy_status json_loads p w = (Raise e, w') ->
  files w' = files w /\
  removals w' = removals w /\
  (forall rows perm, files w !! p <> Some (File (SqliteDb rows) perm)).
Proof.
  unfold peek_legacy_status, open_read. run_prims. destruct w as [fs tr]; cbn [files trace].
  destruct (fs !! p) as [[c q|q]|] eqn:Hp.
  - destruct c as [text|rows].
    + destruct (String.eqb (read1 (Bytes text)) "{").
      * unfold json_load. run_prims. destruct (json_loads text) as [v|].
        -- rewrite py_dict_pure. destruct (dict_of v); intros [= <- <-] || intros [= <-];
             (split; [reflexivity|]); (split; [reflexivity|]); intros rows perm; discriminate.
        -- intros [= <- <-]. split; [reflexivity|]. split; [reflexivity|].
           intros rows perm; discriminate.
      * discriminate.
    + cbn [read1]. intros H. vm_compute in H. discriminate.
  - intros [= <- <-]. split; [reflexivity|]. split; [reflexivity|]. intros rows perm; discriminate.
  - intros [= <- <-]. split; [reflexivity|]. split; [reflexivity|]. intros rows perm; discriminate.
Qed.

(** C4, as the code has it, on a state where no regular file sits at the
    unsuffixed path.  When the [.items] path holds a text that starts
    with a brace and is a JSON object, [manage_sync_status] removes the
    file and yields a store at the same path whose rows are the entries
    of the object, unchanged; called again, it yields the same store
    with the same rows and removes nothing: the migration is not done
    twice.  And when the peek at the path raises an [OSError] or a
    [ValueError], the call goes on as without legacy data: where the
    status directory is there or can be made, the call does not end with
    an [OSError] or a [ValueError], nothing is removed, the directory is
    in place afterwards, every other regular file is as it was, and when
    nothing was at the path the call returns a new store without rows. *)
Theorem manage_sync_status_migrates_once (w : world)
    (base_path pair_name collection_name : string) :
  content_at w (unsuffixed_path expand_path base_path pair_name (Some collection_name)) = None ->
  (forall text perm legacy,
     files w !! status_path expand_path base_path pair_name (Some collection_name) "items"
     = Some (File (Bytes text) perm) ->
     read1 (Bytes text) = "{" ->
     json_loads text = Some (PDict legacy) ->
     status_dir_exists w
       (status_path expand_path base_path pair_name (Some collection_name) "items") = true ->
     exists w1,
       manage_sync_status expand_path umask json_loads base_path pair_name collection_name w
       = (Ok (StatusHandle
                (status_path expand_path base_path pair_name (Some collection_name) "items")),
          w1) /\
       removals w1 = S (removals w) /\
       In (EvRemove (status_path expand_path base_path pair_name (Some collection_name)
                       "items")) (trace w1) /\
       store_rows (StatusHandle
                     (status_path expand_path base_path pair_name (Some collection_name)
                        "items")) w1 = Some legacy /\
       exists w2,
         manage_sync_status expand_path umask json_loads base_path pair_name collection_name w1
         = (Ok (StatusHandle
                  (status_path expand_path base_path pair_name (Some collection_name) "items")),
            w2) /\
         removals w2 = removals w1 /\
         store_rows (StatusHandle
                       (status_path expand_path base_path pair_name (Some collection_name)
                          "items")) w2 = Some legacy) /\
  (forall e w',
     peek_legacy_status json_loads
       (status_path expand_path base_path pair_name (Some collection_name) "items") w
     = (Raise e, w') ->
     is_OSError e || is_ValueError e = true ->
     status_dir_available w
       (status_path expand_path base_path pair_name (Some collection_name) "items") = true ->
     (forall e',
        fst (manage_sync_status expand_path umask json_loads base_path pair_name
               collection_name w) = Raise e' ->
        is_OSError e' || is_ValueError e' = false) /\
     removals (snd (manage_sync_status expand_path umask json_loads base_path pair_name
                      collection_name w)) = removals w /\
     status_dir_exists
       (snd (manage_sync_status expand_path umask json_loads base_path pair_name
               collection_name w))
       (status_path expand_path base_path pair_name (Some collection_name) "items") = true /\
     (forall k c perm, files w !! k = Some (File c perm) ->
        k <> status_path expand_path base_path pair_name (Some collection_name) "items" ->
        files (snd (manage_sync_status expand_path umask json_loads base_path pair_name
                      collection_name w)) !! k = Some (File c perm)) /\
     (files w !! status_path expand_path base_path pair_name (Some collection_name) "items"
      = None ->
      exists w1,
        manage_sync_status expand_path umask json_loads base_path pair_name collection_name w
        = (Ok (StatusHandle
                 (status_path expand_path base_path pair_name (Some collection_name) "items")),
           w1) /\
        store_rows (StatusHandle
                      (status_path expand_path base_path pair_name (Some collection_name)
                         "items")) w1 = Some [])).
Proof.
  intros Hlegacy.
  pose proof (get_status_path_quiet expand_path w base_path pair_name "items"
                (Some collection_name) (or_introl Hlegacy)) as Hpath.
  fold (status_path expand_path base_path pair_name (Some collection_name) "items") in Hpath.
  set (p := status_path expand_path base_path pair_name (Some collection_name) "items") in *.
  split.
  - intros text perm legacy Hfile Hbrace Hjson Hdir.
    exact (manage_sync_status_migration expand_path umask json_loads w w base_path pair_name
             collection_name p text perm legacy Hpath Hfile Hbrace Hjson Hdir).
  - intros e w' Hpeek Hcaught Hav.
    destruct (peek_legacy_status_raises p w w' e Hpeek) as (Hfiles & Hrem & Hnostore).
    rewrite (manage_sync_status_run expand_path umask json_loads _ _ _ _ _ _ Hpath).
    assert (Htry : try_except (peek_legacy_status json_loads p)
                     (fun e => is_OSError e || is_ValueError e) (fun _ => mret None) w
                   = (Ok None, w')).
    { unfold try_except. rewrite Hpeek, Hcaught. reflexivity. }
    rewrite (bind_Ok _ _ _ _ _ Htry). unfold open_incremental_store.
    assert (Hav' : status_dir_available w' p = true).
    { unfold status_dir_available, ancestor_is_file in *. rewrite Hfiles. exact Hav. }
    destruct (prepare_status_path_available umask p w' Hav')
      as (w0 & Hprep & Hdir & Hsame & Htrace).
    rewrite (bind_Ok _ _ _ _ _ Hprep).
    assert (Hrem0 : removals w0 = removals w).
    { rewrite <- Hrem. unfold removals. destruct Htrace as [->| ->]; reflexivity. }
    assert (Hold : forall k c perm, files w !! k = Some (File c perm) ->
                                    files w0 !! k = Some (File c perm)).
    { intros k c perm Hk. pose proof (prepare_status_path_content umask p k w') as Hc.
      rewrite Hprep in Hc. cbn [snd] in Hc. unfold content_at in Hc.
      rewrite Hfiles, Hk in Hc.
      pose proof (prepare_status_path_entries umask p w' w0 Hprep k (File c perm)) as He.
      rewrite Hfiles in He. exact (He Hk). }
    rewrite Hfiles in Hsame.
    assert (Hdp : os_path_dirname p <> p).
    { intros Heq. destruct (all_slashes (os_path_dirname p)) eqn:Ha.
      - rewrite Heq in Ha. unfold p, status_path in Ha. rewrite all_slashes_append in Ha.
        rewrite andb_comm in Ha. discriminate.
      - unfold status_dir_exists in Hdir. apply andb_true_iff in Hdir as (Ht & _).
        pose proof (dirname_shorter p Ht Ha) as Hshort. rewrite Heq in Hshort. lia. }
    assert (Hparent : parent_error (files w0) p = None).
    { unfold status_dir_exists in Hdir. apply andb_true_iff in Hdir as (Htruthy & Hd).
      unfold parent_error.
      destruct (files w0 !! os_path_dirname p) as [[c' p'|p']|]; try discriminate;
        [reflexivity|]. rewrite Hd, orb_true_r. reflexivity. }
    assert (Hkeep : forall n tr,
               status_dir_exists (World (<[p := n]> (files w0)) tr) p = true).
    { intros n tr. unfold status_dir_exists in *. cbn [files].
      rewrite lookup_insert_ne by congruence. exact Hdir. }
    unfold SqliteStatus. run_prims. destruct w0 as [fs0 tr0]; cbn [files trace] in *.
    destruct (fs0 !! p) as [[[text|rows] q|q]|] eqn:Hp; cbn [fst snd files].
    + split; [intros e' [=]|]. split; [exact Hrem0|]. split; [apply Hkeep|]. split.
      * intros k c perm Hk Hne. rewrite lookup_insert_ne by congruence. exact (Hold k c perm Hk).
      * intros Habsent. rewrite Habsent in Hsame. discriminate.
    + split; [intros e' [=]|]. split; [exact Hrem0|]. split; [exact Hdir|]. split.
      * intros k c perm Hk Hne. exact (Hold k c perm Hk).
      * intros Habsent. rewrite Habsent in Hsame. discriminate.
    + split; [intros e' [= <-]; reflexivity|]. split; [exact Hrem0|]. split; [exact Hdir|].
      split.
      * intros k c perm Hk Hne. exact (Hold k c perm Hk).
      * intros Habsent. rewrite Habsent in Hsame. discriminate.
    + rewrite Hparent. cbn [fst snd files]. split; [intros e' [=]|].
      split; [exact Hrem0|]. split; [apply Hkeep|]. split.
      * intros k c perm Hk Hne. rewrite lookup_insert_ne by congruence. exact (Hold k c perm Hk).
      * intros _. eexists. split; [reflexivity|].
        unfold store_rows. cbn [files db_path]. rewrite lookup_insert_eq. reflexivity.
Qed.

End MigrationFacts.

(** The theorem on [legacy_world]: the flat file is migrated by the first
    call and by no later one.  And on an empty world, where the peek
    finds no file: the status directory is made and a store without rows
    is yielded. *)
Lemma manage_sync_status_migrates_once_witness :
  (exists w1 w2,
     manage_sync_status (fun p => p) 18 Json.loads "status" "pair" "coll" legacy_world
     = (Ok (StatusHandle "status/pair/coll.items"), w1) /\
     store_rows (StatusHandle "status/pair/coll.items") w1 = Some sample_status /\
     manage_sync_status (fun p => p) 18 Json.loads "status" "pair" "coll" w1
     = (Ok (StatusHandle "status/pair/coll.items"), w2) /\
     removals w2 = 1%nat) /\
  (exists w1,
     manage_sync_status (fun p => p) 18 Json.loads "status" "pair" "coll" empty_world
     = (Ok (StatusHandle "status/pair/coll.items"), w1) /\
     store_rows (StatusHandle "status/pair/coll.items") w1 = Some [] /\
     is_dir_at w1 "status/pair" = true).
Proof.
  split.
  - destruct (manage_sync_status_migrates_once (fun p => p) 18 Json.loads
                legacy_world "status" "pair" "coll"
                ltac:(vm_compute; reflexivity)) as (Hmigrate & _).
    destruct (Hmigrate sample_text 384 sample_status
                ltac:(vm_compute; reflexivity) ltac:(vm_compute; reflexivity)
                ltac:(vm_compute; reflexivity) ltac:(vm_compute; reflexivity))
      as (w1 & Hrun1 & Hrem1 & _ & Hrows1 & w2 & Hrun2 & Hrem2 & _).
    exists w1, w2. split; [exact Hrun1|]. split; [exact Hrows1|]. split; [exact Hrun2|].
    rewrite Hrem2, Hrem1. reflexivity.
  - destruct (manage_sync_status_migrates_once (fun p => p) 18 Json.loads
                empty_world "status" "pair" "coll"
                ltac:(vm_compute; reflexivity)) as (_ & Hfall).
    destruct (Hfall (PyExc (OSError ENOENT) "status/pair/coll.items"
                       "OSError(status/pair/coll.items)") empty_world
                ltac:(vm_compute; reflexivity) ltac:(reflexivity)
                ltac:(vm_compute; reflexivity))
      as (_ & _ & _ & _ & Hnew).
    destruct (Hnew ltac:(vm_compute; reflexivity)) as (w1 & Hrun & Hrows).
    exists w1. split; [exact Hrun|]. split; [exact Hrows|].
    vm_compute in Hrun. injection Hrun as <-. vm_compute. reflexivity.
Defined.

(** C4 as stated fails where an extensionless file of the collection is
    waiting too.  The [.items] path holds the sample mapping as a flat
    file; [manage_sync_status] first renames the extensionless file,
    which holds an empty object, over it, and the store it yields has no
    row: the entries of the flat file are lost. *)
Lemma manage_sync_status_claim_fails :
  content_at both_legacy_world "status/pair/coll.items" = Some (Bytes sample_text) /\
  read1 (Bytes sample_text) = "{" /\
  Json.loads sample_text = Some (PDict sample_status) /\
  fst (manage_sync_status (fun p => p) 18 Json.loads "status" "pair" "coll" both_legacy_world)
  = Ok (StatusHandle "status/pair/coll.items") /\
  store_rows (StatusHandle "status/pair/coll.items")
    (snd (manage_sync_status (fun p => p) 18 Json.loads "status" "pair" "coll"
            both_legacy_world)) = Some [] /\
  sample_status <> [].
Proof.
  repeat split; try (vm_compute; reflexivity). discriminate.
Qed.
